(** * xccov_to_lcov: the xccov JSON to LCOV converter

    A shallow embedding of [.github/scripts/xccov_to_lcov.py] and the
    properties of the LCOV text it writes.

    The script loads a JSON document with [json.load], walks
    [targets] -> [files] -> [functions] with [dict.get], subscripts and
    [for] loops, and writes one LCOV record per file with [out.write].
    Python raises where a key is missing or a value has the wrong type, so
    every operation below returns an [outcome], and the text already
    written survives a failure (the [with] block flushes and closes the
    stream on every exit).

    The streams are those of the runners the scripts are written for: text
    is encoded as UTF-8 with the strict error handler (the default of
    [open], and of the standard output under a UTF-8 locale), and the line
    separator is the line feed. *)

From Stdlib Require Import String Ascii List ZArith Lia Bool DecimalString PrimFloat.
From Stdlib Require DecimalZ DecimalPos.
From Stdlib Require Import Permutation Sorted.
Import ListNotations.

Set Warnings "-register-all".
Local Open Scope string_scope.

(** ** Values returned by [json.load] *)

(** A JSON object becomes a Python [dict]: its items in insertion order, the
    keys pairwise distinct.  Python's [int] is unbounded ([Z]); a number with
    a fraction or an exponent becomes a [float] (an IEEE binary64).  A [str]
    is a sequence of code points and is held here as its UTF-8 bytes; a lone
    surrogate, which [json.load] accepts (["\ud800"]) and UTF-8 has no place
    for, is held as the three bytes the same scheme would give it. *)
Inductive json : Type :=
| JNull
| JBool (b : bool)
| JInt (n : Z)
| JFloat (x : float)
| JStr (s : string)
| JList (items : list json)
| JDict (entries : list (string * json)).

(** The exceptions the script can meet.  [KeyError] carries the missing key,
    as Python's does. *)
Inductive exception : Type :=
| KeyError (key : string)
| TypeError
| AttributeError
| OSError
| JSONDecodeError
| UnicodeEncodeError.

Inductive outcome (A : Type) : Type :=
| Return (a : A)
| Raise (e : exception).
Arguments Return {A} a.
Arguments Raise {A} e.

(** The line feed written by ["\n"]. *)
Definition nl : string := String (ascii_of_nat 10) "".

(** [str(n)] for an [int]. *)
Definition str_of_int (n : Z) : string := NilZero.string_of_int (Z.to_int n).

(** ** Python's operations on these values *)

Fixpoint lookup (key : string) (entries : list (string * json)) : option json :=
  match entries with
  | [] => None
  | (k, v) :: rest => if String.eqb k key then Some v else lookup key rest
  end.

(** [v.get(key, default)]: only a [dict] has the method. *)
Definition get (v : json) (key : string) (default : json) : outcome json :=
  match v with
  | JDict entries =>
      match lookup key entries with
      | Some x => Return x
      | None => Return default
      end
  | _ => Raise AttributeError
  end.

(** [v[key]] for a [str] key: a [dict] looks the key up and raises
    [KeyError(key)] when it is absent; a [list] or a [str] wants an integer
    index, and the other values are not subscriptable. *)
Definition getitem (v : json) (key : string) : outcome json :=
  match v with
  | JDict entries =>
      match lookup key entries with
      | Some x => Return x
      | None => Raise (KeyError key)
      end
  | _ => Raise TypeError
  end.

(** A byte [10xxxxxx] continues the character the bytes before it began. *)
Definition continues (c : ascii) : bool :=
  let b := nat_of_ascii c in ((128 <=? b) && (b <=? 191))%nat.

Definition begins_inside (s : string) : bool :=
  match s with
  | EmptyString => false
  | String c _ => continues c
  end.

(** The characters of a [str], each with the bytes that spell it. *)
Fixpoint characters (s : string) : list string :=
  match s with
  | EmptyString => []
  | String c rest =>
      match characters rest with
      | [] => [String c ""]
      | next :: more =>
          if begins_inside next then String c next :: more
          else String c "" :: next :: more
      end
  end.

Definition chars (s : string) : list json := map JStr (characters s).

(** The bytes of one character: a byte, then bytes that continue it; and
    the bytes of a character that begins at its first byte. *)
Fixpoint all_continue (s : string) : bool :=
  match s with
  | EmptyString => true
  | String c rest => continues c && all_continue rest
  end.

Definition one_character (p : string) : bool :=
  match p with
  | EmptyString => false
  | String _ rest => all_continue rest
  end.

Definition begins_character (p : string) : bool :=
  one_character p && negb (begins_inside p).

(** Whether a text stream can encode a [str]: whether its bytes are
    well-formed UTF-8, which the bytes of a surrogate are not.  [need]
    counts the bytes the character begun still lacks, [lo] and [hi] bound
    the next of them. *)
Fixpoint utf8_from (need lo hi : nat) (s : string) : bool :=
  (match s with
   | EmptyString => need =? 0
   | String c rest =>
       let b := nat_of_ascii c in
       match need with
       | S k => (lo <=? b) && (b <=? hi) && utf8_from k 128 191 rest
       | O =>
           if b <? 128 then utf8_from 0 128 191 rest
           else if (194 <=? b) && (b <=? 223) then utf8_from 1 128 191 rest
           else if b =? 224 then utf8_from 2 160 191 rest
           else if b =? 237 then utf8_from 2 128 159 rest
           else if (225 <=? b) && (b <=? 239) then utf8_from 2 128 191 rest
           else if b =? 240 then utf8_from 3 144 191 rest
           else if (241 <=? b) && (b <=? 243) then utf8_from 3 128 191 rest
           else if b =? 244 then utf8_from 3 128 143 rest
           else false
       end
   end)%nat.

Definition encodable (s : string) : bool := utf8_from 0 128 191 s.

(** The items a [for] loop visits: the elements of a [list], the characters
    of a [str], the keys of a [dict]; the other values are not iterable. *)
Definition iter (v : json) : outcome (list json) :=
  match v with
  | JList items => Return items
  | JStr s => Return (chars s)
  | JDict entries => Return (map (fun kv => JStr (fst kv)) entries)
  | _ => Raise TypeError
  end.

(** [len(v)]. *)
Definition len (v : json) : outcome Z :=
  match v with
  | JList items => Return (Z.of_nat (length items))
  | JStr s => Return (Z.of_nat (length (characters s)))
  | JDict entries => Return (Z.of_nat (length entries))
  | _ => Raise TypeError
  end.

(** [v > 0]: defined on numbers ([bool] is a subclass of [int]). *)
Definition gt_zero (v : json) : outcome bool :=
  match v with
  | JInt n => Return (0 <? n)%Z
  | JBool b => Return b
  | JFloat x => Return (PrimFloat.ltb PrimFloat.zero x)
  | _ => Raise TypeError
  end.

Section Converter.

(** [str()] of a [float], a [list] or a [dict] is Python's own business
    (shortest round-trip digits, nested [repr]); the script only passes the
    result through, so it is a parameter here. *)
Variable py_repr : json -> string.

(** What [{v}] puts into an f-string. *)
Definition format (v : json) : string :=
  match v with
  | JStr s => s
  | JInt n => str_of_int n
  | JBool true => "True"
  | JBool false => "False"
  | JNull => "None"
  | _ => py_repr v
  end.

(** ** The output stream

    A computation threads the text written to [out] so far and may raise. *)
Definition io (A : Type) : Type := string -> string * outcome A.

Definition ret {A} (a : A) : io A := fun out => (out, Return a).

Definition bind {A B} (m : io A) (k : A -> io B) : io B :=
  fun out =>
    match m out with
    | (out', Return a) => k a out'
    | (out', Raise e) => (out', Raise e)
    end.

Definition lift {A} (r : outcome A) : io A := fun out => (out, r).

(** [out.write(s)]: the stream encodes [s] before it takes any of it, and
    raises when it cannot.  A device that fails half way is outside the
    model. *)
Definition write (s : string) : io unit :=
  fun out =>
    if encodable s then (out ++ s, Return tt)
    else (out, Raise UnicodeEncodeError).

Notation "x <- m ;; k" := (bind m (fun x => k))
  (at level 61, m at next level, right associativity).
Notation "m ;;; k" := (bind m (fun _ => k))
  (at level 61, right associativity).

(** [for x in xs: body] *)
Fixpoint for_each (xs : list json) (body : json -> io unit) : io unit :=
  match xs with
  | [] => ret tt
  | x :: rest => body x ;;; for_each rest body
  end.

(** [sum(1 for f in fs if f['executionCount'] > 0)], with [sum]'s running
    total. *)
Fixpoint sum_covered (total : Z) (fs : list json) : outcome Z :=
  match fs with
  | [] => Return total
  | f :: rest =>
      match getitem f "executionCount" with
      | Raise e => Raise e
      | Return v =>
          match gt_zero v with
          | Raise e => Raise e
          | Return true => sum_covered (total + 1) rest
          | Return false => sum_covered total rest
          end
      end
  end.

(** ** The converter, statement by statement *)

(** Lines 26-30: the body of the first loop over the functions. *)
Definition write_fn (func : json) : io unit :=
  name <- lift (getitem func "name") ;;
  line <- lift (getitem func "lineNumber") ;;
  count <- lift (getitem func "executionCount") ;;
  write ("FN:" ++ format line ++ "," ++ format name ++ nl) ;;;
  write ("FNDA:" ++ format count ++ "," ++ format name ++ nl).

(** Lines 40-42: the body of the second loop over the functions. *)
Definition write_da (func : json) : io unit :=
  line <- lift (getitem func "lineNumber") ;;
  count <- lift (getitem func "executionCount") ;;
  write ("DA:" ++ format line ++ "," ++ format count ++ nl).

(** [file_data.get('functions', [])], as each of its four uses evaluates
    it. *)
Definition functions_of (file_data : json) : outcome json :=
  get file_data "functions" (JList []).

(** Lines 20-48: the body of the loop over the files of a target. *)
Definition write_record (file_data : json) : io unit :=
  path <- lift (getitem file_data "path") ;;
  write ("TN:" ++ nl) ;;;
  write ("SF:" ++ format path ++ nl) ;;;
  fns <- lift (functions_of file_data) ;;
  funcs <- lift (iter fns) ;;
  for_each funcs write_fn ;;;
  fns <- lift (functions_of file_data) ;;
  total_functions <- lift (len fns) ;;
  fns <- lift (functions_of file_data) ;;
  funcs <- lift (iter fns) ;;
  covered_functions <- lift (sum_covered 0 funcs) ;;
  write ("FNF:" ++ str_of_int total_functions ++ nl) ;;;
  write ("FNH:" ++ str_of_int covered_functions ++ nl) ;;;
  fns <- lift (functions_of file_data) ;;
  funcs <- lift (iter fns) ;;
  for_each funcs write_da ;;;
  executable <- lift (getitem file_data "executableLines") ;;
  write ("LF:" ++ format executable ++ nl) ;;;
  covered <- lift (getitem file_data "coveredLines") ;;
  write ("LH:" ++ format covered ++ nl) ;;;
  write ("end_of_record" ++ nl).

(** Lines 19-48: the body of the loop over the targets. *)
Definition write_target (target : json) : io unit :=
  files <- lift (get target "files" (JList [])) ;;
  file_datas <- lift (iter files) ;;
  for_each file_datas write_record.

(** Lines 18-48: the block under [with open(lcov_path, 'w') as out]. *)
Definition write_lcov (data : json) : io unit :=
  targets <- lift (get data "targets" (JList [])) ;;
  ts <- lift (iter targets) ;;
  for_each ts write_target.

(** ** Files

    A path names a file, and several paths may name the same one
    ([a.json] and [./a.json], a link): [node fs p] is the file that [p]
    names, [data fs n] the text of the file [n] when it exists and can be
    read, and [writable fs p] says whether [open(p, 'w')] succeeds. *)
Record filesystem : Type := {
  node : string -> nat;
  data : nat -> option string;
  writable : string -> bool
}.

(** What a reader of the path [p] finds. *)
Definition contents (fs : filesystem) (p : string) : option string :=
  data fs (node fs p).

(** The file that [p] names holds [text], under every name it has. *)
Definition store (fs : filesystem) (p : string) (text : string) : filesystem :=
  {| node := node fs;
     data := fun n => if Nat.eqb n (node fs p) then Some text else data fs n;
     writable := writable fs |}.

(** [json.load]: [None] when the text does not decode as JSON. *)
Variable json_load : string -> option json.

(** Lines 12-48.  The input is opened, read and decoded first; then
    [open(lcov_path, 'w')] creates or truncates the output, the block runs
    from an empty stream, and what it wrote is in the file when the [with]
    statement closes it, whether the block returned or raised. *)
Definition convert_xccov_to_lcov (json_path lcov_path : string)
           (fs : filesystem) : filesystem * outcome unit :=
  match contents fs json_path with
  | None => (fs, Raise OSError)
  | Some text =>
      match json_load text with
      | None => (fs, Raise JSONDecodeError)
      | Some data =>
          if writable fs lcov_path then
            let truncated := store fs lcov_path "" in
            let (out, r) := write_lcov data "" in
            (store truncated lcov_path out, r)
          else (fs, Raise OSError)
      end
  end.

End Converter.

(** ** The schema of the report

    The shape the script expects of its input: a report is a sequence of
    targets, a target a sequence of files, a file has a path, two line
    totals and a sequence of functions. *)

Record FunctionCoverage : Type := {
  name : string;
  lineNumber : Z;
  executionCount : Z
}.

Record FileCoverage : Type := {
  path : string;
  executableLines : Z;
  coveredLines : Z;
  functions : list FunctionCoverage
}.

Record Target : Type := {
  files : list FileCoverage
}.

Definition CoverageReport : Type := list Target.

(** Reading a decoded document against the schema.  Keys the schema does not
    name are ignored, as the script ignores them; an absent [targets],
    [files] or [functions] reads as the empty sequence, the default the
    script passes to [get]. *)

Fixpoint as_list {A} (read : json -> option A) (items : list json) : option (list A) :=
  match items with
  | [] => Some []
  | x :: rest =>
      match read x, as_list read rest with
      | Some a, Some l => Some (a :: l)
      | _, _ => None
      end
  end.

Definition as_sequence {A} (read : json -> option A) (field : option json)
  : option (list A) :=
  match field with
  | None => Some []
  | Some (JList items) => as_list read items
  | Some _ => None
  end.

Definition as_function (func : json) : option FunctionCoverage :=
  match func with
  | JDict d =>
      match lookup "name" d, lookup "lineNumber" d, lookup "executionCount" d with
      | Some (JStr n), Some (JInt l), Some (JInt c) =>
          Some {| name := n; lineNumber := l; executionCount := c |}
      | _, _, _ => None
      end
  | _ => None
  end.

Definition as_file (file_data : json) : option FileCoverage :=
  match file_data with
  | JDict d =>
      match lookup "path" d, lookup "executableLines" d, lookup "coveredLines" d,
            as_sequence as_function (lookup "functions" d) with
      | Some (JStr p), Some (JInt e), Some (JInt c), Some fns =>
          Some {| path := p; executableLines := e; coveredLines := c;
                  functions := fns |}
      | _, _, _, _ => None
      end
  | _ => None
  end.

Definition as_target (target : json) : option Target :=
  match target with
  | JDict d =>
      match as_sequence as_file (lookup "files" d) with
      | Some fs => Some {| files := fs |}
      | None => None
      end
  | _ => None
  end.

Definition as_report (data : json) : option CoverageReport :=
  match data with
  | JDict d => as_sequence as_target (lookup "targets" d)
  | _ => None
  end.

(** The files of a report, targets in order and files in order within each. *)
Definition all_files (report : CoverageReport) : list FileCoverage :=
  flat_map files report.

(** ** LCOV text, line by line *)

(** The lines of a text: the pieces between line feeds; a last piece that no
    line feed ends counts as a line when it is not empty. *)
Fixpoint lines (text : string) : list string :=
  match text with
  | EmptyString => []
  | String c rest =>
      if Ascii.eqb c (ascii_of_nat 10) then "" :: lines rest
      else match lines rest with
           | [] => [String c ""]
           | l :: ls => String c l :: ls
           end
  end.

(** Each line followed by a line feed. *)
Fixpoint unlines (ls : list string) : string :=
  match ls with
  | [] => ""
  | l :: rest => l ++ nl ++ unlines rest
  end.

(** A string that holds no line feed. *)
Fixpoint one_line (s : string) : bool :=
  match s with
  | EmptyString => true
  | String c rest => negb (Ascii.eqb c (ascii_of_nat 10)) && one_line rest
  end.

(** Whether a line begins with a tag. *)
Fixpoint starts_with (tag line : string) : bool :=
  match tag with
  | EmptyString => true
  | String a tag' =>
      match line with
      | EmptyString => false
      | String b line' => Ascii.eqb a b && starts_with tag' line'
      end
  end.

(** The lines of a text that begin with a tag such as ["FN:"]. *)
Definition tagged (tag : string) (text : string) : list string :=
  filter (starts_with tag) (lines text).

(** The number of lines of a text equal to a marker. *)
Definition occurrences (marker : string) (text : string) : nat :=
  length (filter (String.eqb marker) (lines text)).

(** ** The record of a file, as section 6 of the specification lays it out *)

Definition fn_line (f : FunctionCoverage) : string :=
  "FN:" ++ str_of_int (lineNumber f) ++ "," ++ name f.

Definition fnda_line (f : FunctionCoverage) : string :=
  "FNDA:" ++ str_of_int (executionCount f) ++ "," ++ name f.

Definition da_line (f : FunctionCoverage) : string :=
  "DA:" ++ str_of_int (lineNumber f) ++ "," ++ str_of_int (executionCount f).

Definition hit (f : FunctionCoverage) : bool := (0 <? executionCount f)%Z.

Definition sf_line (f : FileCoverage) : string := "SF:" ++ path f.

Definition fnf_line (f : FileCoverage) : string :=
  "FNF:" ++ str_of_int (Z.of_nat (length (functions f))).

Definition fnh_line (f : FileCoverage) : string :=
  "FNH:" ++ str_of_int (Z.of_nat (length (filter hit (functions f)))).

Definition lf_line (f : FileCoverage) : string :=
  "LF:" ++ str_of_int (executableLines f).

Definition lh_line (f : FileCoverage) : string :=
  "LH:" ++ str_of_int (coveredLines f).

Definition record_lines (f : FileCoverage) : list string :=
  (["TN:"; sf_line f]
   ++ flat_map (fun fn => [fn_line fn; fnda_line fn]) (functions f)
   ++ [fnf_line f; fnh_line f]
   ++ map da_line (functions f)
   ++ [lf_line f; lh_line f; "end_of_record"])%list.

Definition record_text (f : FileCoverage) : string := unlines (record_lines f).

(** The records of a report, one after the other. *)
Definition report_lines (report : CoverageReport) : list string :=
  flat_map record_lines (all_files report).

Definition report_text (report : CoverageReport) : string :=
  unlines (report_lines report).

(** The text a computation writes to a fresh stream, and how it ends. *)
Definition emitted {A} (m : io A) : string := fst (m "").
Definition result {A} (m : io A) : outcome A := snd (m "").

(** What a loop body writes for the items of a list, one after the
    other. *)
Definition output_of (body : json -> io unit) (xs : list json) : string :=
  fold_right (fun x rest => emitted (body x) ++ rest) "" xs.

(** Strings free of line feeds, for a file and for a report. *)
Definition plain_file (f : FileCoverage) : bool :=
  one_line (path f) && forallb (fun fn => one_line (name fn)) (functions f).

Definition plain_report (report : CoverageReport) : bool :=
  forallb plain_file (all_files report).

(** Strings the output stream can encode, for a file and for a report. *)
Definition printable_file (f : FileCoverage) : bool :=
  encodable (path f) && forallb (fun fn => encodable (name fn)) (functions f).

Definition printable_report (report : CoverageReport) : bool :=
  forallb printable_file (all_files report).

(** The lines written one by one, each with its line feed, up to the first
    that the stream cannot encode. *)
Fixpoint write_lines (ls : list string) : io unit :=
  match ls with
  | [] => ret tt
  | l :: rest => bind (write (l ++ nl)) (fun _ => write_lines rest)
  end.

(** The lines of a list that reach the stream: those before the first
    that cannot be encoded. *)
Fixpoint written (ls : list string) : list string :=
  match ls with
  | [] => []
  | l :: rest => if encodable (l ++ nl) then l :: written rest else []
  end.

(** A computation that cannot return. *)
Definition fails {A} (m : io A) : Prop :=
  forall out, exists out' e, m out = (out', Raise e).

(** A computation that returns or raises [KeyError] with a key that has the
    property [P]. *)
Definition returns_or_misses (P : string -> Prop) (m : io unit) : Prop :=
  forall out, exists out',
    m out = (out', Return tt)
    \/ exists k, P k /\ m out = (out', Raise (KeyError k)).

(** A computation that only appends to the stream: what it writes and how
    it ends do not depend on what the stream already holds. *)
Definition appends {A} (m : io A) : Prop :=
  forall out, m out = (out ++ emitted m, result m).

(** ** A report with fields missing

    What the conversion needs of a document so that nothing but a missing
    key can stop it: the document and the entries are objects, [targets],
    [files] and [functions], when present, are lists, an [executionCount]
    that is present is a number, and the stream can encode every value that
    is written.  The required fields may be absent, and a field that is
    written may have any type. *)

Definition is_number (v : json) : bool :=
  match v with
  | JInt _ | JBool _ | JFloat _ => true
  | _ => false
  end.

Definition absent_or (ok : json -> bool) (field : option json) : bool :=
  match field with
  | None => true
  | Some v => ok v
  end.

Definition sequence_shape (shape : json -> bool) (field : option json) : bool :=
  match field with
  | None => true
  | Some (JList items) => forallb shape items
  | Some _ => false
  end.

Definition function_shape (py_repr : json -> string) (func : json) : bool :=
  match func with
  | JDict d =>
      absent_or (fun v => encodable (format py_repr v)) (lookup "name" d)
      && absent_or (fun v => encodable (format py_repr v)) (lookup "lineNumber" d)
      && absent_or (fun v => is_number v && encodable (format py_repr v))
                   (lookup "executionCount" d)
  | _ => false
  end.

Definition file_shape (py_repr : json -> string) (file_data : json) : bool :=
  match file_data with
  | JDict d =>
      absent_or (fun v => encodable (format py_repr v)) (lookup "path" d)
      && absent_or (fun v => encodable (format py_repr v)) (lookup "executableLines" d)
      && absent_or (fun v => encodable (format py_repr v)) (lookup "coveredLines" d)
      && sequence_shape (function_shape py_repr) (lookup "functions" d)
  | _ => false
  end.

Definition target_shape (py_repr : json -> string) (target : json) : bool :=
  match target with
  | JDict d => sequence_shape (file_shape py_repr) (lookup "files" d)
  | _ => false
  end.

Definition report_shape (py_repr : json -> string) (data : json) : bool :=
  match data with
  | JDict d => sequence_shape (target_shape py_repr) (lookup "targets" d)
  | _ => false
  end.

(** The entries of a document: the items of the list under a key. *)
Definition items_under (key : string) (v : json) : list json :=
  match v with
  | JDict d =>
      match lookup key d with
      | Some (JList items) => items
      | _ => []
      end
  | _ => []
  end.

Definition file_entries (data : json) : list json :=
  flat_map (items_under "files") (items_under "targets" data).

Definition function_entries (data : json) : list json :=
  flat_map (items_under "functions") (file_entries data).

(** An object without the key. *)
Definition lacks (entry : json) (key : string) : bool :=
  match entry with
  | JDict d =>
      match lookup key d with
      | None => true
      | Some _ => false
      end
  | _ => false
  end.

Definition file_required : list string :=
  ["path"; "executableLines"; "coveredLines"].

Definition function_required : list string :=
  ["name"; "lineNumber"; "executionCount"].

(** [key] is a required field that some file entry or some function entry
    of the document lacks. *)
Definition absent_field (data : json) (key : string) : Prop :=
  (In key file_required
   /\ exists entry, In entry (file_entries data) /\ lacks entry key = true)
  \/ (In key function_required
      /\ exists entry, In entry (function_entries data) /\ lacks entry key = true).

(** The same within one file entry: at its own level or in one of its
    function entries. *)
Definition file_misses (file_data : json) (k : string) : Prop :=
  (In k file_required /\ lacks file_data k = true)
  \/ (In k function_required
      /\ exists func, In func (items_under "functions" file_data)
                      /\ lacks func k = true).

(** ** Concrete inputs *)

(** The file and the report of the scenario of section 8. *)
Definition scenario_file_data : json :=
  JDict [
    ("path", JStr "A.swift");
    ("executableLines", JInt 10);
    ("coveredLines", JInt 7);
    ("functions", JList [
       JDict [("name", JStr "f()"); ("lineNumber", JInt 3); ("executionCount", JInt 2)];
       JDict [("name", JStr "g()"); ("lineNumber", JInt 8); ("executionCount", JInt 0)]])
  ].

Definition scenario_data : json :=
  JDict [("targets", JList [JDict [("files", JList [scenario_file_data])]])].

Definition scenario_file : FileCoverage :=
  {| path := "A.swift"; executableLines := 10; coveredLines := 7;
     functions := [{| name := "f()"; lineNumber := 3; executionCount := 2 |};
                   {| name := "g()"; lineNumber := 8; executionCount := 0 |}] |}.

Definition scenario_report : CoverageReport := [{| files := [scenario_file] |}].

Definition scenario_lines : list string :=
  ["TN:"; "SF:A.swift"; "FN:3,f()"; "FNDA:2,f()"; "FN:8,g()"; "FNDA:0,g()";
   "FNF:2"; "FNH:1"; "DA:3,2"; "DA:8,0"; "LF:10"; "LH:7"; "end_of_record"].

Definition scenario_bytes : string :=
"TN:
SF:A.swift
FN:3,f()
FNDA:2,f()
FN:8,g()
FNDA:0,g()
FNF:2
FNH:1
DA:3,2
DA:8,0
LF:10
LH:7
end_of_record
".

(** A file without functions, and one whose totals are out of order: more
    covered lines than executable ones. *)
Definition bare_file_data : json :=
  JDict [("path", JStr "Empty.swift"); ("executableLines", JInt 4);
         ("coveredLines", JInt 9); ("name", JStr "Empty.swift")].

Definition bare_file : FileCoverage :=
  {| path := "Empty.swift"; executableLines := 4; coveredLines := 9;
     functions := [] |}.

(** Two targets, the first with two files and the second with one; the
    targets carry a key the schema does not name. *)
Definition third_file_data : json :=
  JDict [("path", JStr "C.swift"); ("executableLines", JInt 3);
         ("coveredLines", JInt 3);
         ("functions", JList [
            JDict [("name", JStr "h()"); ("lineNumber", JInt 1);
                   ("executionCount", JInt 5)]])].

Definition third_file : FileCoverage :=
  {| path := "C.swift"; executableLines := 3; coveredLines := 3;
     functions := [{| name := "h()"; lineNumber := 1; executionCount := 5 |}] |}.

Definition two_targets_data : json :=
  JDict [("targets", JList [
    JDict [("name", JStr "App");
           ("files", JList [scenario_file_data; bare_file_data])];
    JDict [("name", JStr "Kit"); ("files", JList [third_file_data])]])].

Definition two_targets_report : CoverageReport :=
  [{| files := [scenario_file; bare_file] |}; {| files := [third_file] |}].

(** Inputs whose strings hold a line feed: a path that goes on with the
    text of a marker or of a line entry, and a function name that goes on
    with the text of a function entry. *)
Definition marker_in_path : json :=
  JDict [("path", JStr ("A.swift" ++ nl ++ "end_of_record"));
         ("executableLines", JInt 1); ("coveredLines", JInt 1)].

Definition marker_in_path_data : json :=
  JDict [("targets", JList [JDict [("files", JList [marker_in_path])]])].

Definition entry_in_path : json :=
  JDict [("path", JStr ("A.swift" ++ nl ++ "DA:1,1"));
         ("executableLines", JInt 1); ("coveredLines", JInt 1);
         ("functions", JList [])].

Definition entry_in_name : json :=
  JDict [("path", JStr "A.swift");
         ("executableLines", JInt 1); ("coveredLines", JInt 1);
         ("functions", JList [
            JDict [("name", JStr ("f()" ++ nl ++ "FN:9,g()"));
                   ("lineNumber", JInt 3); ("executionCount", JInt 2)]])].

(** The code point U+D800, a surrogate with no partner, as [json.load]
    gives it for ["\ud800"]; and a file whose path ends with it. *)
Definition lone_surrogate : string :=
  String (ascii_of_nat 237) (String (ascii_of_nat 160) (String (ascii_of_nat 128) "")).

Definition surrogate_path : json :=
  JDict [("path", JStr ("A" ++ lone_surrogate ++ ".swift"));
         ("executableLines", JInt 1); ("coveredLines", JInt 1);
         ("functions", JList [
            JDict [("name", JStr "f()"); ("lineNumber", JInt 3);
                   ("executionCount", JInt 2)]])].

Definition surrogate_path_data : json :=
  JDict [("targets", JList [JDict [("files", JList [surrogate_path])]])].

(** The same path on a file without functions, with more covered lines
    than executable ones. *)
Definition surrogate_path_bare : json :=
  JDict [("path", JStr ("A" ++ lone_surrogate ++ ".swift"));
         ("executableLines", JInt 4); ("coveredLines", JInt 9)].

(** The same path on a file entry without [coveredLines]. *)
Definition surrogate_path_missing_total : json :=
  JDict [("targets", JList [JDict [("files", JList [
    JDict [("path", JStr ("A" ++ lone_surrogate ++ ".swift"));
           ("executableLines", JInt 1)]])]])].

(** A file entry whose path is a number and that has no [coveredLines]. *)
Definition numeric_path_data : json :=
  JDict [("targets", JList [JDict [("files", JList [
    JDict [("path", JInt 5); ("executableLines", JInt 1)]])]])].

(** A file entry without its line totals whose [functions] is [null]. *)
Definition null_functions_data : json :=
  JDict [("targets", JList [JDict [("files", JList [
    JDict [("path", JStr "A.swift"); ("functions", JNull)]])]])].

(** A file entry without [coveredLines], after a complete one. *)
Definition missing_total_data : json :=
  JDict [("targets", JList [JDict [("files", JList [
    scenario_file_data;
    JDict [("path", JStr "B.swift"); ("executableLines", JInt 5)]])]])].

(** The text of the scenario's document. *)
Definition dq : string := String (ascii_of_nat 34) "".

Definition json_key (k : string) : string := dq ++ k ++ dq ++ ":".

Definition scenario_text : string :=
  "{" ++ json_key "targets" ++ "[{" ++ json_key "files" ++ "[{"
  ++ json_key "path" ++ dq ++ "A.swift" ++ dq ++ ","
  ++ json_key "executableLines" ++ "10," ++ json_key "coveredLines" ++ "7,"
  ++ json_key "functions" ++ "[{"
  ++ json_key "name" ++ dq ++ "f()" ++ dq ++ "," ++ json_key "lineNumber" ++ "3,"
  ++ json_key "executionCount" ++ "2},{"
  ++ json_key "name" ++ dq ++ "g()" ++ dq ++ "," ++ json_key "lineNumber" ++ "8,"
  ++ json_key "executionCount" ++ "0}]}]}]}".

(** A decoder that knows this one document and rejects every other text,
    for use where a concrete [json.load] is needed. *)
Definition scenario_load (text : string) : option json :=
  if String.eqb text scenario_text then Some scenario_data else None.

(** The names of a working directory: [coverage.json] and
    [./coverage.json] name one file, [coverage.lcov] and
    [swiftlint-before.json] two others, and the other paths name a file
    that is not looked at. *)
Definition working_directory (p : string) : nat :=
  if String.eqb p "coverage.json" then 1
  else if String.eqb p "./coverage.json" then 1
  else if String.eqb p "coverage.lcov" then 2
  else if String.eqb p "swiftlint-before.json" then 3
  else 0.

(** The disk on which the three files hold what is given for each. *)
Definition runner_disk (coverage_json coverage_lcov swiftlint_json : option string)
  : filesystem :=
  {| node := working_directory;
     data := fun n =>
       match n with
       | 1 => coverage_json
       | 2 => coverage_lcov
       | 3 => swiftlint_json
       | _ => None
       end;
     writable := fun _ => true |}.

(** Two file systems that hold the scenario's document at [coverage.json]:
    in one [coverage.lcov] exists with other content, in the other it does
    not exist. *)
Definition disk_with_old_output : filesystem :=
  runner_disk (Some scenario_text) (Some "stale") None.

Definition disk_without_output : filesystem :=
  runner_disk (Some scenario_text) None None.

(** A file system whose [coverage.json] is not JSON. *)
Definition disk_with_garbage : filesystem :=
  runner_disk (Some "not json") (Some "stale") None.

(** A stand-in for [str()] on floats and containers where a concrete one is
    needed; no input above formats such a value. *)
Definition opaque_repr (v : json) : string := "<repr>".

(** The three files of [two_targets_data] under a single target. *)
Definition one_target_data : json :=
  JDict [("targets", JList [
    JDict [("files", JList [scenario_file_data; bare_file_data; third_file_data])]])].

Definition one_target_report : CoverageReport :=
  [{| files := [scenario_file; bare_file; third_file] |}].

(** A disk whose output path cannot be opened for writing. *)
Definition disk_read_only : filesystem :=
  {| node := node disk_with_old_output;
     data := data disk_with_old_output;
     writable := fun _ => false |}.

(** ** The command line

    Lines 51-57 of [xccov_to_lcov.py].  A run of a script ends at its last
    statement, at [sys.exit], or on an exception that nothing catches; the
    interpreter then prints the traceback to the error stream and the exit
    status is 1.  [print] raises, before it prints anything, when the output
    stream cannot encode the text: a path taken from the command line may
    hold bytes that are no text. *)

Inductive ending : Type :=
| Finished
| Exited (code : Z)
| Uncaught (e : exception).

Definition status (e : ending) : Z :=
  match e with
  | Finished => 0
  | Exited code => code
  | Uncaught _ => 1
  end.

Record run : Type := {
  disk : filesystem;
  stdout : string;
  ended : ending
}.

(** [print(s)] *)
Definition println (s : string) (out : string) : string := out ++ s ++ nl.

Definition main (py_repr : json -> string) (json_load : string -> option json)
           (argv : list string) (fs : filesystem) : run :=
  match argv with
  | [_; json_path; lcov_path] =>
      let (fs', r) := convert_xccov_to_lcov py_repr json_load json_path lcov_path fs in
      match r with
      | Return _ =>
          let message := "Converted " ++ json_path ++ " to " ++ lcov_path in
          if encodable message
          then {| disk := fs'; stdout := println message ""; ended := Finished |}
          else {| disk := fs'; stdout := ""; ended := Uncaught UnicodeEncodeError |}
      | Raise e => {| disk := fs'; stdout := ""; ended := Uncaught e |}
      end
  | _ =>
      {| disk := fs;
         stdout := println "Usage: python xccov_to_lcov.py <input.json> <output.lcov>" "";
         ended := Exited 1 |}
  end.

(** * parse_swiftlint.py

    The script reads [swiftlint-before.json], counts the violations by rule
    and prints a Markdown report.  All of it runs under [try], and
    [except Exception as e] prints [e] and a closing line, so what matters
    of an exception is where it was raised and the text Python gives it.
    That text quotes no data unescaped, so the two [print]s under [except]
    cannot fail; a [print] under [try] raises when the output stream cannot
    encode what it is given. *)

Module Swiftlint.

(** The places where the script can raise. *)
Inductive failure : Type :=
| CannotOpen (path : string)
| CannotDecode (text : string)
| NotIterable (v : json)
| NoLength (v : json)
| NoAttribute (v : json) (attribute : string)
| Unhashable (v : json)
| NotSliceable (v : json)
| CannotEncode (text : string).

Inductive attempt (A : Type) : Type :=
| Done (a : A)
| Failed (e : failure).
Arguments Done {A} a.
Arguments Failed {A} e.

(** [not v] is true of these values. *)
Definition falsy (v : json) : bool :=
  match v with
  | JNull => true
  | JBool b => negb b
  | JInt n => (n =? 0)%Z
  | JFloat x => PrimFloat.eqb x PrimFloat.zero
  | JStr s => String.eqb s ""
  | JList items => match items with [] => true | _ => false end
  | JDict entries => match entries with [] => true | _ => false end
  end.

(** A [list] and a [dict] cannot be the key of a [dict]. *)
Definition hashable (v : json) : bool :=
  match v with
  | JList _ | JDict _ => false
  | _ => true
  end.

(** [s[:n]]: the first [n] characters. *)
Definition take (n : nat) (s : string) : string :=
  String.concat "" (firstn n (characters s)).

(** [print(s)] under [try]. *)
Definition print (s : string) (out : string) : string * option failure :=
  if encodable s then (println s out, None)
  else (out, Some (CannotEncode s)).

(** [s.replace(old, new)] for a non-empty [old]: the occurrences of [old]
    are found from the left and do not overlap; [skip] counts the characters
    of an occurrence still to pass over. *)
Fixpoint replace_from (old new : string) (skip : nat) (s : string) : string :=
  match s with
  | EmptyString => ""
  | String c rest =>
      match skip with
      | S k => replace_from old new k rest
      | O =>
          if starts_with old s
          then new ++ replace_from old new (String.length old - 1) rest
          else String c (replace_from old new 0 rest)
      end
  end.

Definition replace (old new s : string) : string := replace_from old new 0 s.

Definition runner_prefix : string :=
  "/Users/runner/work/swiftui-showcase/swiftui-showcase/".

(** [v == 'warning'] *)
Definition is_warning (v : json) : bool :=
  match v with
  | JStr s => String.eqb s "warning"
  | _ => false
  end.

(** One entry of [violation_details]. *)
Record detail : Type := {
  file : string;
  line : json;
  rule : json;
  severity : json;
  reason : json
}.

(** [d.get(key, default)] on the entries of a [dict]. *)
Definition field (d : list (string * json)) (key : string) (default : json) : json :=
  match lookup key d with
  | Some x => x
  | None => default
  end.

(** [sorted(by_rule.items(), key=lambda x: x[1], reverse=True)]: the counts
    in descending order, rules with the same count in the order of the
    [dict].  An item is put in front of the first item whose count is not
    greater than its own. *)
Fixpoint insert_rule (x : json * Z) (sorted : list (json * Z)) : list (json * Z) :=
  match sorted with
  | [] => [x]
  | y :: rest =>
      if (snd x <? snd y)%Z then y :: insert_rule x rest else x :: sorted
  end.

Definition sorted_rules (items : list (json * Z)) : list (json * Z) :=
  fold_right insert_rule [] items.

(** The sum of the counts of a tally. *)
Definition count_total (by_rule : list (json * Z)) : Z :=
  fold_right (fun item total => (snd item + total)%Z) 0%Z by_rule.

(** Whether [old] occurs in [s]. *)
Fixpoint occurs (old s : string) : bool :=
  starts_with old s
  || match s with
     | EmptyString => false
     | String _ rest => occurs old rest
     end.

(** A violation the loop can take in: an object whose [rule_id], when
    present, is not a list or an object and whose [file], when present, is a
    string. *)
Definition collectable (v : json) : bool :=
  match v with
  | JDict d =>
      hashable (field d "rule_id" (JStr "unknown"))
      && match field d "file" (JStr "") with JStr _ => true | _ => false end
  | _ => false
  end.

Section Script.

(** Python's own: [str()] of floats and containers, [==] among [None] and
    numbers (where [1 == True == 1.0]), and the text of an exception. *)
Variable py_repr : json -> string.
Variable py_eq : json -> json -> bool.
Variable failure_text : failure -> string.
Variable json_load : string -> option json.

(** Whether a key of [by_rule] is the key looked up: a [str] equals a
    [str] of the same characters and nothing else. *)
Definition same_key (stored probe : json) : bool :=
  match stored, probe with
  | JStr a, JStr b => String.eqb a b
  | JStr _, _ => false
  | _, JStr _ => false
  | _, _ => py_eq stored probe
  end.

(** [by_rule[rule] = by_rule.get(rule, 0) + 1]: the count of the key that
    is there goes up by one, the key staying where and what it is; a new key
    goes to the end with count 1. *)
Fixpoint bump (rule : json) (by_rule : list (json * Z)) : list (json * Z) :=
  match by_rule with
  | [] => [(rule, 1%Z)]
  | (k, n) :: rest =>
      if same_key k rule then (k, (n + 1)%Z) :: rest
      else (k, n) :: bump rule rest
  end.

(** Lines 17-31: the body of the loop over the violations. *)
Definition collect_one (v : json) (by_rule : list (json * Z))
  : attempt (list (json * Z) * detail) :=
  match v with
  | JDict d =>
      let rule := field d "rule_id" (JStr "unknown") in
      if hashable rule then
        let by_rule := bump rule by_rule in
        match field d "file" (JStr "") with
        | JStr s =>
            Done (by_rule,
                  {| file := replace runner_prefix "" s;
                     line := field d "line" (JStr "?");
                     rule := rule;
                     severity := field d "severity" (JStr "warning");
                     reason := field d "reason" (JStr "No description") |})
        | other => Failed (NoAttribute other "replace")
        end
      else Failed (Unhashable rule)
  | _ => Failed (NoAttribute v "get")
  end.

(** Lines 16-31: the loop, [violation_details] growing at its end. *)
Fixpoint collect (violations : list json) (by_rule : list (json * Z))
         (violation_details : list detail)
  : attempt (list (json * Z) * list detail) :=
  match violations with
  | [] => Done (by_rule, violation_details)
  | v :: rest =>
      match collect_one v by_rule with
      | Failed e => Failed e
      | Done (by_rule, d) => collect rest by_rule (violation_details ++ [d])
      end
  end.

(** [v[:80]] *)
Definition slice80 (v : json) : attempt json :=
  match v with
  | JStr s => Done (JStr (take 80 s))
  | JList items => Done (JList (firstn 80 items))
  | _ => Failed (NotSliceable v)
  end.

Definition rule_link (r : json) : string :=
  "[`" ++ format py_repr r
  ++ "`](https://realm.github.io/SwiftLint/rule-directory.html#"
  ++ format py_repr r ++ ")".

(** Lines 40-42: the text of a row of the table. *)
Definition row (v : detail) : attempt string :=
  let severity_emoji := if is_warning (severity v) then "⚠️" else "🚫" in
  match slice80 (reason v) with
  | Failed e => Failed e
  | Done shown =>
      Done ("| `" ++ file v ++ ":" ++ format py_repr (line v) ++ "` | "
            ++ rule_link (rule v) ++ " | "
            ++ severity_emoji ++ " " ++ format py_repr (severity v) ++ " | "
            ++ format py_repr shown ++ " |")
  end.

(** A loop that prints a row per entry, up to the first that raises. *)
Fixpoint print_rows (vs : list detail) (out : string) : string * option failure :=
  match vs with
  | [] => (out, None)
  | v :: rest =>
      match row v with
      | Failed e => (out, Some e)
      | Done text =>
          match print text out with
          | (out, Some e) => (out, Some e)
          | (out, None) => print_rows rest out
          end
      end
  end.

(** Line 60: the text of a line of the summary. *)
Definition summary_line (item : json * Z) : string :=
  "- " ++ rule_link (fst item) ++ ": **" ++ str_of_int (snd item) ++ "** fix"
  ++ (if (1 <? snd item)%Z then "es" else "").

Definition table_head (out : string) : string * option failure :=
  match print "| File:Line | Rule | Severity | Description |" out with
  | (out, Some e) => (out, Some e)
  | (out, None) => print "|-----------|------|----------|-------------|" out
  end.

(** Lines 44-53: the block under [<details>], printed when there are more
    than ten entries. *)
Definition print_details (violation_details : list detail) (out : string)
  : string * option failure :=
  if (10 <? length violation_details)%nat then
    match print (nl ++ "<details>") out with
    | (out, Some e) => (out, Some e)
    | (out, None) =>
        match print ("<summary>📋 View all "
                     ++ str_of_int (Z.of_nat (length violation_details))
                     ++ " SwiftLint fixes</summary>" ++ nl) out with
        | (out, Some e) => (out, Some e)
        | (out, None) =>
            match table_head out with
            | (out, Some e) => (out, Some e)
            | (out, None) =>
                match print_rows violation_details out with
                | (out, Some e) => (out, Some e)
                | (out, None) => print (nl ++ "</details>") out
                end
            end
        end
    end
  else (out, None).

(** Lines 58-60: the loop over the sorted rules. *)
Fixpoint print_rules (items : list (json * Z)) (out : string)
  : string * option failure :=
  match items with
  | [] => (out, None)
  | item :: rest =>
      match print (summary_line item) out with
      | (out, Some e) => (out, Some e)
      | (out, None) => print_rules rest out
      end
  end.

(** Lines 55-60. *)
Definition print_summary (by_rule : list (json * Z)) (out : string)
  : string * option failure :=
  match print (nl ++ "### 📊 Rules Summary" ++ nl) out with
  | (out, Some e) => (out, Some e)
  | (out, None) => print_rules (sorted_rules by_rule) out
  end.

(** The lines of a report in the order of the script: the heading with
    the number of violations, the table of the first ten, the block of all
    of them when there are more than ten, the summary. *)
Definition table_head_lines : list string :=
  ["| File:Line | Rule | Severity | Description |";
   "|-----------|------|----------|-------------|"].

Definition heading_lines (n : Z) : list string :=
  ("### 🔧 SwiftLint Fixes (" ++ str_of_int n ++ " violations)")
  :: "" :: table_head_lines.

Definition details_lines (rows : list string) : list string :=
  if (10 <? length rows)%nat then
    "" :: "<details>"
    :: ("<summary>📋 View all " ++ str_of_int (Z.of_nat (length rows))
        ++ " SwiftLint fixes</summary>")
    :: "" :: (table_head_lines ++ rows ++ [""; "</details>"])%list
  else [].

Definition summary_lines (by_rule : list (json * Z)) : list string :=
  "" :: "### 📊 Rules Summary" :: "" :: map summary_line (sorted_rules by_rule).

Definition closing_lines (e : failure) : list string :=
  ["Error parsing SwiftLint output: " ++ failure_text e;
   "No SwiftLint violations detected"].

(** Lines 12-60: what follows the test of [violations]. *)
Definition print_report (violations : json) (out : string) : string * option failure :=
  match iter violations with
  | Raise _ => (out, Some (NotIterable violations))
  | Return items =>
      match collect items [] [] with
      | Failed e => (out, Some e)
      | Done (by_rule, violation_details) =>
          match len violations with
          | Raise _ => (out, Some (NoLength violations))
          | Return n =>
              match print ("### 🔧 SwiftLint Fixes (" ++ str_of_int n
                           ++ " violations)" ++ nl) out with
              | (out, Some e) => (out, Some e)
              | (out, None) =>
                  match table_head out with
                  | (out, Some e) => (out, Some e)
                  | (out, None) =>
                      match print_rows (firstn 10 violation_details) out with
                      | (out, Some e) => (out, Some e)
                      | (out, None) =>
                          match print_details violation_details out with
                          | (out, Some e) => (out, Some e)
                          | (out, None) => print_summary by_rule out
                          end
                      end
                  end
              end
          end
      end
  end.

(** Lines 5-60: the block under [try].  [sys.exit(0)] ends the script
    there: [SystemExit] is not an [Exception]. *)
Definition try_block (fs : filesystem) : string * option failure :=
  match contents fs "swiftlint-before.json" with
  | None => ("", Some (CannotOpen "swiftlint-before.json"))
  | Some text =>
      match json_load text with
      | None => ("", Some (CannotDecode text))
      | Some violations =>
          if falsy violations
          then print "No SwiftLint violations detected" ""
          else print_report violations ""
      end
  end.

(** The whole script: what it prints.  Its exit status is 0 on every
    path. *)
Definition parse_swiftlint (fs : filesystem) : string :=
  match try_block fs with
  | (out, None) => out
  | (out, Some e) =>
      println "No SwiftLint violations detected"
        (println ("Error parsing SwiftLint output: " ++ failure_text e) out)
  end.

End Script.

End Swiftlint.

(** ** Shapes of lines *)

(** The tags of the nine kinds of tagged line; the tenth kind of line is the
    end marker. *)
Definition lcov_tags : list string :=
  ["TN:"; "SF:"; "FN:"; "FNDA:"; "FNF:"; "FNH:"; "DA:"; "LF:"; "LH:"].

Definition recognised (l : string) : bool :=
  existsb (fun tag => starts_with tag l) lcov_tags || String.eqb l "end_of_record".

(** A string in which the character [c] does not occur. *)
Fixpoint free_of (c : ascii) (s : string) : bool :=
  match s with
  | EmptyString => true
  | String x rest => negb (Ascii.eqb x c) && free_of c rest
  end.

(** ** More concrete inputs *)

(** A decoder that knows the document [[]]. *)
Definition list_load (text : string) : option json :=
  if String.eqb text "[]" then Some (JList []) else None.

Definition disk_with_list : filesystem :=
  runner_disk (Some "[]") (Some "stale") None.

(** The second file of [missing_total_data]. *)
Definition missing_total_file : json :=
  JDict [("path", JStr "B.swift"); ("executableLines", JInt 5)].

(** A file whose one function has [true] for its execution count, and a
    document in which it comes before the file without [coveredLines], in
    the second of two targets. *)
Definition boolean_count_file : json :=
  JDict [("path", JStr "D.swift"); ("executableLines", JInt 2);
         ("coveredLines", JInt 1);
         ("functions", JList [
            JDict [("name", JStr "k()"); ("lineNumber", JInt 1);
                   ("executionCount", JBool true)]])].

Definition stopping_data : json :=
  JDict [("targets", JList [
    JDict [("files", JList [scenario_file_data])];
    JDict [("files", JList [boolean_count_file; missing_total_file; third_file_data])];
    JDict [("files", JList [bare_file_data])]])].

(** A function list whose execution counts are a boolean, a float and an
    integer. *)
Definition mixed_counts : json :=
  JList [JDict [("executionCount", JBool true)];
         JDict [("executionCount", JFloat 0.5)];
         JDict [("executionCount", JInt 0)]].

(** The file of the scenario with a key the schema does not name, its keys
    in another order. *)
Definition scenario_file_data_reordered : json :=
  JDict [
    ("functions", JList [
       JDict [("executionCount", JInt 2); ("name", JStr "f()"); ("lineNumber", JInt 3)];
       JDict [("lineNumber", JInt 8); ("name", JStr "g()"); ("executionCount", JInt 0)]]);
    ("lineCoverage", JFloat 0.75);
    ("coveredLines", JInt 7);
    ("executableLines", JInt 10);
    ("path", JStr "A.swift")
  ].

(** Three violations, two of one rule; the first lies under the runner's
    checkout directory, the third has only its rule. *)
Definition lint_violations : list json :=
  [JDict [("rule_id", JStr "todo"); ("file", JStr "B.swift"); ("line", JInt 9);
          ("severity", JStr "error"); ("reason", JStr "TODOs should be resolved")];
   JDict [("rule_id", JStr "line_length");
          ("file", JStr (Swiftlint.runner_prefix ++ "Sources/A.swift"));
          ("line", JInt 3); ("severity", JStr "warning");
          ("reason", JStr "Line should be 120 characters or less")];
   JDict [("rule_id", JStr "line_length")]].

Definition lint_tally : list (json * Z) :=
  [(JStr "todo", 1%Z); (JStr "line_length", 2%Z)].

Definition lint_details : list Swiftlint.detail :=
  [{| Swiftlint.file := "B.swift"; Swiftlint.line := JInt 9;
      Swiftlint.rule := JStr "todo"; Swiftlint.severity := JStr "error";
      Swiftlint.reason := JStr "TODOs should be resolved" |};
   {| Swiftlint.file := "Sources/A.swift"; Swiftlint.line := JInt 3;
      Swiftlint.rule := JStr "line_length"; Swiftlint.severity := JStr "warning";
      Swiftlint.reason := JStr "Line should be 120 characters or less" |};
   {| Swiftlint.file := ""; Swiftlint.line := JStr "?";
      Swiftlint.rule := JStr "line_length"; Swiftlint.severity := JStr "warning";
      Swiftlint.reason := JStr "No description" |}].

Definition lint_rows : list string :=
  ["| `B.swift:9` | [`todo`](https://realm.github.io/SwiftLint/rule-directory.html#todo) | 🚫 error | TODOs should be resolved |";
   "| `Sources/A.swift:3` | [`line_length`](https://realm.github.io/SwiftLint/rule-directory.html#line_length) | ⚠️ warning | Line should be 120 characters or less |";
   "| `:?` | [`line_length`](https://realm.github.io/SwiftLint/rule-directory.html#line_length) | ⚠️ warning | No description |"].

(** Two violations of which the second has [null] for its reason, and a
    list whose second item is not an object. *)
Definition lint_null_reason : list json :=
  [JDict [("rule_id", JStr "todo"); ("file", JStr "B.swift")];
   JDict [("rule_id", JStr "todo"); ("reason", JNull)]].

Definition lint_not_objects : list json :=
  [JDict [("rule_id", JStr "todo")]; JInt 7].

(** A reason of a hundred letters of two bytes each, and a row whose
    reason holds a surrogate without its partner. *)
Definition long_reason : string := String.concat "" (repeat "λ" 100).

Definition surrogate_reason : Swiftlint.detail :=
  {| Swiftlint.file := "B.swift"; Swiftlint.line := JInt 9;
     Swiftlint.rule := JStr "todo"; Swiftlint.severity := JStr "error";
     Swiftlint.reason := JStr ("TODO" ++ lone_surrogate) |}.

(** Stand-ins for [==] among [None] and numbers and for the text of an
    exception; no rule of the inputs above is a number. *)
Definition opaque_eq (a b : json) : bool := false.

Definition opaque_text (e : Swiftlint.failure) : string := "<error>".

(** The JSON text of a document whose strings need no escape; the text of
    a float is left to [repr]. *)
Fixpoint json_text (repr : json -> string) (v : json) : string :=
  match v with
  | JNull => "null"
  | JBool true => "true"
  | JBool false => "false"
  | JInt n => str_of_int n
  | JFloat _ => repr v
  | JStr s => dq ++ s ++ dq
  | JList items =>
      "[" ++ String.concat "," (map (json_text repr) items) ++ "]"
  | JDict entries =>
      "{" ++ String.concat ","
               (map (fun kv => json_key (fst kv) ++ json_text repr (snd kv)) entries)
      ++ "}"
  end.

(** A decoder that knows the three documents above, and the disk that
    holds the text of a document. *)
Definition lint_load (text : string) : option json :=
  find (fun doc => String.eqb (json_text opaque_repr doc) text)
       [JList lint_violations; JList lint_null_reason; JList lint_not_objects].

Definition lint_disk (doc : json) : filesystem :=
  runner_disk None None (Some (json_text opaque_repr doc)).

(** * Properties *)

(** ** Strings and lines *)

Lemma append_assoc (a b c : string) : (a ++ b) ++ c = a ++ (b ++ c).
Proof. induction a as [|x a IH]; simpl; [reflexivity | now rewrite IH]. Qed.

Lemma append_empty_r (a : string) : a ++ "" = a.
Proof. induction a as [|x a IH]; simpl; [reflexivity | now rewrite IH]. Qed.

(** Brings both sides of an equation between texts to one shape. *)
Ltac string_norm :=
  unfold nl; repeat (progress (cbn [append unlines]; rewrite ?append_assoc, ?append_empty_r)).

Lemma unlines_app (xs ys : list string) :
  unlines (xs ++ ys) = unlines xs ++ unlines ys.
Proof.
  induction xs as [|x xs IH]; simpl; [reflexivity|].
  now rewrite IH, !append_assoc.
Qed.

Lemma lines_cons (l rest : string) :
  one_line l = true -> lines (l ++ nl ++ rest) = l :: lines rest.
Proof.
  induction l as [|c l IH]; cbn [one_line lines append]; intros H; [reflexivity|].
  apply andb_true_iff in H as [Hc Hl].
  apply negb_true_iff in Hc. rewrite Hc, (IH Hl). reflexivity.
Qed.

Lemma lines_unlines (ls : list string) :
  forallb one_line ls = true -> lines (unlines ls) = ls.
Proof.
  induction ls as [|l ls IH]; cbn [forallb unlines]; intros H; [reflexivity|].
  apply andb_true_iff in H as [Hl Hls].
  now rewrite (lines_cons _ _ Hl), (IH Hls).
Qed.

Lemma one_line_app (a b : string) :
  one_line (a ++ b) = one_line a && one_line b.
Proof.
  induction a as [|c a IH]; simpl; [reflexivity|].
  now rewrite IH, andb_assoc.
Qed.

Lemma one_line_uint (d : Decimal.uint) :
  one_line (NilEmpty.string_of_uint d) = true.
Proof. induction d; simpl; auto. Qed.

Lemma one_line_str_of_int (n : Z) : one_line (str_of_int n) = true.
Proof.
  unfold str_of_int, NilZero.string_of_int.
  destruct (Z.to_int n) as [d|d]; unfold NilZero.string_of_uint;
    destruct d; simpl; auto using one_line_uint.
Qed.

(** ** What the stream can encode *)

Lemma utf8_from_start (lo hi lo' hi' : nat) (s : string) :
  utf8_from 0 lo hi s = utf8_from 0 lo' hi' s.
Proof. destruct s; reflexivity. Qed.

Lemma utf8_from_app (a b : string) :
  encodable b = true ->
  forall need lo hi,
    utf8_from need lo hi a = true -> utf8_from need lo hi (a ++ b) = true.
Proof.
  intros Hb. induction a as [|c a IH]; intros need lo hi Ha.
  - cbn [utf8_from] in Ha. apply Nat.eqb_eq in Ha. subst need.
    cbn [append]. now rewrite (utf8_from_start lo hi 128 191).
  - cbn [append utf8_from] in *.
    destruct need as [|k].
    + repeat match type of Ha with
             | (if ?t then _ else _) = true => destruct t
             end; try discriminate; now apply IH.
    + destruct ((lo <=? nat_of_ascii c)%nat && (nat_of_ascii c <=? hi)%nat);
        [|discriminate].
      cbn [andb] in *. now apply IH.
Qed.

Lemma encodable_app (a b : string) :
  encodable a = true -> encodable b = true -> encodable (a ++ b) = true.
Proof. intros Ha Hb. now apply utf8_from_app. Qed.

Lemma encodable_uint (d : Decimal.uint) :
  encodable (NilEmpty.string_of_uint d) = true.
Proof.
  induction d; try reflexivity;
    cbn [NilEmpty.string_of_uint];
    match goal with
    | |- encodable (String ?c ?s) = true =>
        change (String c s) with (String c "" ++ s)
    end;
    now apply encodable_app.
Qed.

Lemma encodable_str_of_int (n : Z) : encodable (str_of_int n) = true.
Proof.
  unfold str_of_int, NilZero.string_of_int.
  destruct (Z.to_int n) as [d|d]; unfold NilZero.string_of_uint.
  - destruct d; try reflexivity; apply encodable_uint.
  - change (String "-" ?s) with (String "-" "" ++ s).
    apply encodable_app; [reflexivity|].
    destruct d; try reflexivity; apply encodable_uint.
Qed.

(** Pieces that can be encoded make a text that can. *)
Ltac encodable_pieces :=
  repeat first
    [ assumption
    | apply encodable_str_of_int
    | reflexivity
    | apply encodable_app ].

(** ** Reading against the schema *)

Ltac break_read H :=
  repeat match type of H with
         | match ?x with _ => _ end = Some _ =>
             let E := fresh "E" in destruct x eqn:E; try discriminate H
         end.

Lemma as_function_inv (func : json) (f : FunctionCoverage) :
  as_function func = Some f ->
  exists d, func = JDict d
    /\ lookup "name" d = Some (JStr (name f))
    /\ lookup "lineNumber" d = Some (JInt (lineNumber f))
    /\ lookup "executionCount" d = Some (JInt (executionCount f)).
Proof.
  unfold as_function. intros H. break_read H.
  injection H as <-. eexists. repeat split; eassumption.
Qed.

Lemma as_sequence_inv {A} (read : json -> option A) (field : option json) (l : list A) :
  as_sequence read field = Some l ->
  exists items, as_list read items = Some l
    /\ (field = None /\ items = [] \/ field = Some (JList items)).
Proof.
  unfold as_sequence. intros H. break_read H.
  - exists items. split; [assumption | now right].
  - exists []. split; [assumption | now left].
Qed.

Lemma as_file_inv (file_data : json) (f : FileCoverage) :
  as_file file_data = Some f ->
  exists d, file_data = JDict d
    /\ lookup "path" d = Some (JStr (path f))
    /\ lookup "executableLines" d = Some (JInt (executableLines f))
    /\ lookup "coveredLines" d = Some (JInt (coveredLines f))
    /\ as_sequence as_function (lookup "functions" d) = Some (functions f).
Proof.
  unfold as_file. intros H. break_read H.
  injection H as <-. eexists. repeat split; eassumption.
Qed.

Lemma as_list_length {A} (read : json -> option A) (items : list json) (l : list A) :
  as_list read items = Some l -> length items = length l.
Proof.
  revert l. induction items as [|x items IH]; simpl; intros l H.
  - now injection H as <-.
  - break_read H. injection H as <-. simpl. f_equal. now apply IH.
Qed.

(** ** The converter on a report that follows the schema

    On such a report every [out.write] of the converter writes one line of
    the records, so the conversion is the writing of these lines in order,
    up to the first the stream cannot encode. *)

Lemma bind_lift_return {A B} (a : A) (k : A -> io B) (out : string) :
  bind (lift (Return a)) k out = k a out.
Proof. reflexivity. Qed.

Lemma write_lines_app (xs ys : list string) (out : string) :
  write_lines (xs ++ ys) out
  = bind (write_lines xs) (fun _ => write_lines ys) out.
Proof.
  revert out. induction xs as [|x xs IH]; intros out; cbn [app write_lines].
  - reflexivity.
  - unfold bind at 1 2 3. destruct (write (x ++ nl) out) as [o [u|e]]; [|reflexivity].
    rewrite IH. reflexivity.
Qed.

Lemma write_line (s l : string) (out : string) :
  s = l ++ nl -> write s out = write_lines [l] out.
Proof.
  intros ->. cbn [write_lines]. unfold bind, ret.
  now destruct (write (l ++ nl) out) as [o [[]|e]].
Qed.

Lemma bind_lines (m : io unit) (k : unit -> io unit) (xs ys : list string)
      (out : string) :
  (forall o, m o = write_lines xs o) ->
  (forall u o, k u o = write_lines ys o) ->
  bind m k out = write_lines (xs ++ ys) out.
Proof.
  intros Hm Hk. rewrite write_lines_app. unfold bind. rewrite Hm.
  destruct (write_lines xs out) as [o [u|e]]; auto.
Qed.

Lemma bind_line (m : io unit) (k : unit -> io unit) (l : string) (ys : list string)
      (out : string) :
  (forall o, m o = write_lines [l] o) ->
  (forall u o, k u o = write_lines ys o) ->
  bind m k out = write_lines (l :: ys) out.
Proof. intros Hm Hk. now apply (bind_lines m k [l] ys). Qed.

(** The lines are written up to the first that cannot be encoded. *)
Lemma write_lines_written (ls : list string) (out : string) :
  write_lines ls out
  = (out ++ unlines (written ls),
     if forallb (fun l => encodable (l ++ nl)) ls then Return tt
     else Raise UnicodeEncodeError).
Proof.
  revert out. induction ls as [|l ls IH]; intros out;
    cbn [write_lines written forallb unlines].
  - unfold ret. now rewrite append_empty_r.
  - unfold bind, write. destruct (encodable (l ++ nl)); cbn [andb unlines].
    + rewrite IH. now rewrite !append_assoc.
    + now rewrite append_empty_r.
Qed.

Lemma encodable_line (l : string) : encodable l = true -> encodable (l ++ nl) = true.
Proof. intros H. now apply encodable_app. Qed.

Lemma written_all (ls : list string) :
  forallb encodable ls = true -> written ls = ls.
Proof.
  induction ls as [|l ls IH]; cbn [forallb written]; intros H.
  - reflexivity.
  - apply andb_true_iff in H as [Hl Hls].
    now rewrite (encodable_line l Hl), (IH Hls).
Qed.

(** Lines that can all be encoded are all written. *)
Lemma write_lines_text (ls : list string) :
  forallb encodable ls = true ->
  forall out, write_lines ls out = (out ++ unlines ls, Return tt).
Proof.
  induction ls as [|l ls IH]; cbn [forallb write_lines unlines]; intros H out.
  - unfold ret. now rewrite append_empty_r.
  - apply andb_true_iff in H as [Hl Hls].
    unfold bind, write.
    rewrite (encodable_app l nl Hl eq_refl), (IH Hls).
    now rewrite !append_assoc.
Qed.

Section Refinement.

Variable py_repr : json -> string.

(** A loop whose body writes the lines of each item writes the lines of
    all of them, in order. *)
Lemma for_each_write_lines {A} (read : json -> option A) (body : json -> io unit)
      (g : A -> list string) :
  (forall x a out, read x = Some a -> body x out = write_lines (g a) out) ->
  forall items l out,
    as_list read items = Some l ->
    for_each items body out = write_lines (flat_map g l) out.
Proof.
  intros Hbody items. induction items as [|x items IH]; cbn [as_list]; intros l out H.
  - injection H as <-. reflexivity.
  - break_read H. injection H as <-. cbn [for_each flat_map].
    apply bind_lines.
    + intros o. now apply Hbody.
    + intros _ o. now apply IH.
Qed.

Lemma write_fn_lines (func : json) (f : FunctionCoverage) (out : string) :
  as_function func = Some f ->
  write_fn py_repr func out = write_lines [fn_line f; fnda_line f] out.
Proof.
  intros H. apply as_function_inv in H as (d & -> & Hn & Hl & Hc).
  unfold write_fn, getitem. rewrite Hn, Hl, Hc. rewrite !bind_lift_return.
  cbn [format]. apply bind_line.
  - intros o. apply write_line. unfold fn_line. now string_norm.
  - intros _ o. apply write_line. unfold fnda_line. now string_norm.
Qed.

Lemma write_da_lines (func : json) (f : FunctionCoverage) (out : string) :
  as_function func = Some f ->
  write_da py_repr func out = write_lines [da_line f] out.
Proof.
  intros H. apply as_function_inv in H as (d & -> & Hn & Hl & Hc).
  unfold write_da, getitem. rewrite Hl, Hc. rewrite !bind_lift_return.
  cbn [format]. apply write_line. unfold da_line. now string_norm.
Qed.

Lemma sum_covered_hits (items : list json) (fns : list FunctionCoverage) (total : Z) :
  as_list as_function items = Some fns ->
  sum_covered total items = Return (total + Z.of_nat (length (filter hit fns)))%Z.
Proof.
  revert fns total. induction items as [|x items IH]; simpl; intros fns total H.
  - injection H as <-. simpl. f_equal. lia.
  - break_read H. injection H as <-.
    apply as_function_inv in E as (d & -> & _ & _ & Hc).
    unfold getitem. rewrite Hc. simpl. unfold hit at 1.
    destruct (0 <? executionCount f)%Z; rewrite (IH _ _ eq_refl);
      simpl; f_equal; lia.
Qed.

(** One file: the writes of lines 20-48 are the lines of its record, one
    after the other. *)
Lemma write_record_lines (file_data : json) (f : FileCoverage) (out : string) :
  as_file file_data = Some f ->
  write_record py_repr file_data out = write_lines (record_lines f) out.
Proof.
  intros H. apply as_file_inv in H as (d & -> & Hp & He & Hc & Hf).
  apply as_sequence_inv in Hf as (items & Hitems & Hfield).
  assert (Hget : functions_of (JDict d) = Return (JList items)).
  { unfold functions_of, get.
    destruct Hfield as [[-> ->] | ->]; reflexivity. }
  assert (Hda : forall l, flat_map (fun fn => [da_line fn]) l = map da_line l)
    by (induction l; simpl; congruence).
  unfold write_record, getitem.
  rewrite Hp, He, Hc, !Hget.
  unfold record_lines. cbn [app].
  rewrite bind_lift_return. cbn [format].
  apply bind_line; [intros o; now apply write_line | intros _ o].
  apply bind_line;
    [intros o1; apply write_line; unfold sf_line; now string_norm | intros _ o1].
  rewrite bind_lift_return. cbn [iter]. rewrite bind_lift_return.
  apply bind_lines;
    [intros o2; apply (for_each_write_lines as_function); auto;
     intros x a o' Hx; now apply write_fn_lines
    | intros _ o2].
  rewrite bind_lift_return. cbn [len]. rewrite !bind_lift_return.
  cbn [iter]. rewrite bind_lift_return.
  rewrite (sum_covered_hits _ _ _ Hitems), (as_list_length _ _ _ Hitems).
  rewrite bind_lift_return. cbn [Z.add].
  apply bind_line; [intros o3; now apply write_line | intros _ o3].
  apply bind_line; [intros o4; now apply write_line | intros _ o4].
  rewrite bind_lift_return. cbn [iter]. rewrite bind_lift_return.
  rewrite <- Hda.
  apply bind_lines;
    [intros o5; apply (for_each_write_lines as_function); auto;
     intros x a o' Hx; now apply write_da_lines
    | intros _ o5].
  rewrite bind_lift_return. cbn [format].
  apply bind_line; [intros o6; now apply write_line | intros _ o6].
  rewrite bind_lift_return. cbn [format].
  apply bind_line; [intros o7; now apply write_line | intros _ o7].
  now apply write_line.
Qed.

Lemma write_target_lines (target : json) (t : Target) (out : string) :
  as_target target = Some t ->
  write_target py_repr target out
  = write_lines (flat_map record_lines (files t)) out.
Proof.
  destruct target as [| | | | | |entries]; try discriminate.
  unfold as_target. intros H. break_read H. injection H as <-.
  apply as_sequence_inv in E as (items & Hitems & Hfield).
  unfold write_target, get.
  assert (Hget : match lookup "files" entries with
                 | Some x => Return x
                 | None => Return (JList [])
                 end = Return (JList items))
    by (destruct Hfield as [[-> ->] | ->]; reflexivity).
  rewrite Hget. cbn [iter files]. rewrite !bind_lift_return.
  apply (for_each_write_lines as_file (write_record py_repr) record_lines); [|assumption].
  intros x a o Hx. now apply write_record_lines.
Qed.

Lemma flat_map_flat_map {A B C} (g : B -> list C) (h : A -> list B) (l : list A) :
  flat_map (fun a => flat_map g (h a)) l = flat_map g (flat_map h l).
Proof.
  induction l as [|a l IH]; simpl; [reflexivity|].
  now rewrite flat_map_app, IH.
Qed.

(** The whole report: the lines of every record, targets in order and files
    in order within each. *)
Lemma write_lcov_lines (data : json) (report : CoverageReport) (out : string) :
  as_report data = Some report ->
  write_lcov py_repr data out = write_lines (report_lines report) out.
Proof.
  destruct data as [| | | | | |entries]; try discriminate.
  unfold as_report. intros H.
  apply as_sequence_inv in H as (items & Hitems & Hfield).
  unfold write_lcov, get.
  assert (Hget : match lookup "targets" entries with
                 | Some x => Return x
                 | None => Return (JList [])
                 end = Return (JList items))
    by (destruct Hfield as [[-> ->] | ->]; reflexivity).
  rewrite Hget. cbn [iter]. rewrite !bind_lift_return.
  unfold report_lines, all_files. rewrite <- flat_map_flat_map.
  apply (for_each_write_lines as_target (write_target py_repr)); [|assumption].
  intros x a o Hx. now apply write_target_lines.
Qed.

End Refinement.

(** ** What can be encoded of a record *)

Lemma record_lines_encodable (f : FileCoverage) :
  printable_file f = true -> forallb encodable (record_lines f) = true.
Proof.
  unfold printable_file. intros H.
  apply andb_true_iff in H as [Hp Hn]. rewrite forallb_forall in Hn.
  apply forallb_forall. intros l Hl. unfold record_lines in Hl.
  repeat (apply in_app_or in Hl as [Hl|Hl]).
  - destruct Hl as [<- | [<- | []]]; [reflexivity|].
    unfold sf_line. encodable_pieces.
  - apply in_flat_map in Hl as (fn & Hfn & [<- | [<- | []]]);
      pose proof (Hn fn Hfn) as Hname; cbn beta in Hname;
      unfold fn_line, fnda_line; encodable_pieces.
  - destruct Hl as [<- | [<- | []]]; unfold fnf_line, fnh_line; encodable_pieces.
  - apply in_map_iff in Hl as (fn & <- & _). unfold da_line. encodable_pieces.
  - destruct Hl as [<- | [<- | [<- | []]]]; unfold lf_line, lh_line;
      encodable_pieces.
Qed.

Lemma report_lines_encodable (report : CoverageReport) :
  printable_report report = true -> forallb encodable (report_lines report) = true.
Proof.
  unfold printable_report, report_lines. intros H. rewrite forallb_forall in H.
  apply forallb_forall. intros l Hl.
  apply in_flat_map in Hl as (f & Hf & Hl).
  pose proof (record_lines_encodable f (H f Hf)) as Hrec.
  rewrite forallb_forall in Hrec. now apply Hrec.
Qed.

(** One file whose strings can be encoded: its record is written and the
    conversion of the file returns. *)
Lemma write_record_text (py_repr : json -> string) (file_data : json)
      (f : FileCoverage) (out : string) :
  as_file file_data = Some f ->
  printable_file f = true ->
  write_record py_repr file_data out = (out ++ record_text f, Return tt).
Proof.
  intros Hf Hp. rewrite (write_record_lines py_repr file_data f out Hf).
  now apply write_lines_text, record_lines_encodable.
Qed.

(** The whole report, when its strings can be encoded. *)
Lemma write_lcov_text (py_repr : json -> string) (data : json)
      (report : CoverageReport) (out : string) :
  as_report data = Some report ->
  printable_report report = true ->
  write_lcov py_repr data out = (out ++ report_text report, Return tt).
Proof.
  intros Hr Hp. rewrite (write_lcov_lines py_repr data report out Hr).
  now apply write_lines_text, report_lines_encodable.
Qed.

(** ** The lines of a record *)

Lemma forallb_app_true {A} (p : A -> bool) (xs ys : list A) :
  forallb p xs = true -> forallb p ys = true -> forallb p (xs ++ ys) = true.
Proof. intros Hx Hy. rewrite forallb_app, Hx, Hy. reflexivity. Qed.

Lemma fn_line_one_line (fn : FunctionCoverage) :
  one_line (name fn) = true -> one_line (fn_line fn) = true.
Proof.
  intros H. unfold fn_line.
  rewrite !one_line_app, one_line_str_of_int, H. reflexivity.
Qed.

Lemma fnda_line_one_line (fn : FunctionCoverage) :
  one_line (name fn) = true -> one_line (fnda_line fn) = true.
Proof.
  intros H. unfold fnda_line.
  rewrite !one_line_app, one_line_str_of_int, H. reflexivity.
Qed.

Lemma da_line_one_line (fn : FunctionCoverage) : one_line (da_line fn) = true.
Proof.
  unfold da_line. rewrite !one_line_app, !one_line_str_of_int. reflexivity.
Qed.

Lemma record_lines_one_line (f : FileCoverage) :
  plain_file f = true -> forallb one_line (record_lines f) = true.
Proof.
  unfold plain_file, record_lines. intros H.
  apply andb_true_iff in H as [Hp Hn]. rewrite forallb_forall in Hn.
  repeat apply forallb_app_true.
  - cbn [forallb]. unfold sf_line. rewrite one_line_app, Hp. reflexivity.
  - apply forallb_forall. intros l Hl.
    apply in_flat_map in Hl as (fn & Hfn & [<- | [<- | []]]).
    + apply fn_line_one_line, Hn, Hfn.
    + apply fnda_line_one_line, Hn, Hfn.
  - cbn [forallb]. unfold fnf_line, fnh_line, lf_line, lh_line.
    rewrite !one_line_app, !one_line_str_of_int. reflexivity.
  - apply forallb_forall. intros l Hl.
    apply in_map_iff in Hl as (fn & <- & _). apply da_line_one_line.
  - cbn [forallb]. unfold fnf_line, fnh_line, lf_line, lh_line.
    rewrite !one_line_app, !one_line_str_of_int. reflexivity.
Qed.

Lemma report_lines_one_line (report : CoverageReport) :
  plain_report report = true -> forallb one_line (report_lines report) = true.
Proof.
  unfold plain_report, report_lines. intros H. rewrite forallb_forall in H.
  apply forallb_forall. intros l Hl.
  apply in_flat_map in Hl as (f & Hf & Hl).
  pose proof (record_lines_one_line f (H f Hf)) as Hrec.
  rewrite forallb_forall in Hrec. now apply Hrec.
Qed.

(** Selecting lines from a record selects from each of its five parts. *)
Lemma filter_record_lines (p : string -> bool) (f : FileCoverage) :
  filter p (record_lines f)
  = (filter p ["TN:"; sf_line f]
     ++ flat_map (fun fn => filter p [fn_line fn; fnda_line fn]) (functions f)
     ++ filter p [fnf_line f; fnh_line f]
     ++ flat_map (fun fn => filter p [da_line fn]) (functions f)
     ++ filter p [lf_line f; lh_line f; "end_of_record"])%list.
Proof.
  unfold record_lines. rewrite !filter_app. do 1 f_equal.
  f_equal; [|f_equal; f_equal].
  - induction (functions f) as [|fn fns IH]; [reflexivity|].
    cbn [flat_map]. now rewrite filter_app, IH.
  - induction (functions f) as [|fn fns IH]; [reflexivity|].
    cbn [flat_map map]. rewrite <- IH. cbn [filter app].
    now destruct (p (da_line fn)).
Qed.

Lemma flat_map_singleton {A B} (g : A -> B) (h : A -> list B) (l : list A) :
  (forall a, h a = [g a]) -> flat_map h l = map g l.
Proof.
  intros H. induction l as [|a l IH]; simpl; [reflexivity|].
  now rewrite H, IH.
Qed.

Lemma flat_map_empty {A B} (h : A -> list B) (l : list A) :
  (forall a, h a = []) -> flat_map h l = [].
Proof.
  intros H. induction l as [|a l IH]; simpl; [reflexivity|].
  now rewrite H, IH.
Qed.

Lemma filter_flat_map {A B} (p : B -> bool) (h : A -> list B) (l : list A) :
  filter p (flat_map h l) = flat_map (fun a => filter p (h a)) l.
Proof.
  induction l as [|a l IH]; simpl; [reflexivity|].
  now rewrite filter_app, IH.
Qed.

Lemma fn_lines_of_record (f : FileCoverage) :
  filter (starts_with "FN:") (record_lines f) = map fn_line (functions f).
Proof.
  rewrite filter_record_lines.
  rewrite (flat_map_singleton fn_line) by reflexivity.
  rewrite (flat_map_empty (fun fn => filter _ [da_line fn])) by reflexivity.
  cbn. now rewrite app_nil_r.
Qed.

Lemma fnda_lines_of_record (f : FileCoverage) :
  filter (starts_with "FNDA:") (record_lines f) = map fnda_line (functions f).
Proof.
  rewrite filter_record_lines.
  rewrite (flat_map_singleton fnda_line) by reflexivity.
  rewrite (flat_map_empty (fun fn => filter _ [da_line fn])) by reflexivity.
  cbn. now rewrite app_nil_r.
Qed.

Lemma da_lines_of_record (f : FileCoverage) :
  filter (starts_with "DA:") (record_lines f) = map da_line (functions f).
Proof.
  rewrite filter_record_lines.
  rewrite (flat_map_empty (fun fn => filter _ [fn_line fn; fnda_line fn])) by reflexivity.
  rewrite (flat_map_singleton da_line) by reflexivity.
  cbn. now rewrite app_nil_r.
Qed.

Lemma sf_lines_of_record (f : FileCoverage) :
  filter (starts_with "SF:") (record_lines f) = [sf_line f].
Proof.
  rewrite filter_record_lines.
  rewrite (flat_map_empty (fun fn => filter _ [fn_line fn; fnda_line fn])) by reflexivity.
  rewrite (flat_map_empty (fun fn => filter _ [da_line fn])) by reflexivity.
  reflexivity.
Qed.

Lemma markers_of_record (f : FileCoverage) :
  filter (String.eqb "end_of_record") (record_lines f) = ["end_of_record"].
Proof.
  rewrite filter_record_lines.
  rewrite (flat_map_empty (fun fn => filter _ [fn_line fn; fnda_line fn])) by reflexivity.
  rewrite (flat_map_empty (fun fn => filter _ [da_line fn])) by reflexivity.
  reflexivity.
Qed.

Lemma emitted_record (py_repr : json -> string) (file_data : json) (f : FileCoverage) :
  as_file file_data = Some f ->
  printable_file f = true ->
  emitted (write_record py_repr file_data) = record_text f
  /\ result (write_record py_repr file_data) = Return tt.
Proof.
  intros H Hp. unfold emitted, result.
  now rewrite (write_record_text py_repr file_data f "" H Hp).
Qed.

Lemma emitted_report (py_repr : json -> string) (data : json) (report : CoverageReport) :
  as_report data = Some report ->
  printable_report report = true ->
  emitted (write_lcov py_repr data) = report_text report
  /\ result (write_lcov py_repr data) = Return tt.
Proof.
  intros H Hp. unfold emitted, result.
  now rewrite (write_lcov_text py_repr data report "" H Hp).
Qed.

Lemma lines_of_record (f : FileCoverage) :
  plain_file f = true -> lines (record_text f) = record_lines f.
Proof. intros H. apply lines_unlines, record_lines_one_line, H. Qed.

Lemma lines_of_report (report : CoverageReport) :
  plain_report report = true -> lines (report_text report) = report_lines report.
Proof. intros H. apply lines_unlines, report_lines_one_line, H. Qed.

Lemma length_all_files (report : CoverageReport) :
  length (all_files report) = list_sum (map (fun t => length (files t)) report).
Proof.
  unfold all_files. induction report as [|t ts IH]; simpl; [reflexivity|].
  now rewrite length_app, IH.
Qed.

(** ** Files *)

Lemma contents_store_same (fs : filesystem) (p text : string) :
  contents (store fs p text) p = Some text.
Proof. unfold contents, store. cbn [node data]. now rewrite Nat.eqb_refl. Qed.

Lemma contents_store_alias (fs : filesystem) (p q text : string) :
  node fs q = node fs p -> contents (store fs p text) q = Some text.
Proof.
  intros H. unfold contents, store. cbn [node data]. rewrite H.
  now rewrite Nat.eqb_refl.
Qed.

Lemma contents_store_other (fs : filesystem) (p q text : string) :
  node fs q <> node fs p -> contents (store fs p text) q = contents fs q.
Proof.
  intros H. apply Nat.eqb_neq in H. unfold contents, store. cbn [node data].
  now rewrite H.
Qed.

Lemma convert_unfold (py_repr : json -> string) (json_load : string -> option json)
      (json_path lcov_path : string) (fs : filesystem) (text : string) (data : json) :
  contents fs json_path = Some text ->
  json_load text = Some data ->
  writable fs lcov_path = true ->
  convert_xccov_to_lcov py_repr json_load json_path lcov_path fs
  = (store (store fs lcov_path "") lcov_path (emitted (write_lcov py_repr data)),
     result (write_lcov py_repr data)).
Proof.
  intros Hread Hload Hopen. unfold convert_xccov_to_lcov, emitted, result.
  rewrite Hread, Hload, Hopen. now destruct (write_lcov py_repr data "").
Qed.

(** ** The stream is only appended to *)

Lemma appends_ret {A} (a : A) : appends (ret a).
Proof. intros out. unfold ret, emitted, result. simpl. now rewrite append_empty_r. Qed.

Lemma appends_lift {A} (r : outcome A) : appends (lift r).
Proof. intros out. unfold lift, emitted, result. simpl. now rewrite append_empty_r. Qed.

Lemma appends_write (s : string) : appends (write s).
Proof.
  intros out. unfold write, emitted, result.
  destruct (encodable s); cbn [fst snd append]; [reflexivity|].
  now rewrite append_empty_r.
Qed.

Lemma appends_bind {A B} (m : io A) (k : A -> io B) :
  appends m -> (forall a, appends (k a)) -> appends (bind m k).
Proof.
  intros Hm Hk out. unfold emitted, result, bind.
  rewrite (Hm out), (Hm ""). cbn [append].
  destruct (result m) as [a|e].
  - rewrite (Hk a (out ++ emitted m)), (Hk a (emitted m)). cbn [fst snd].
    now rewrite append_assoc.
  - reflexivity.
Qed.

Lemma appends_for_each (xs : list json) (body : json -> io unit) :
  (forall x, appends (body x)) -> appends (for_each xs body).
Proof.
  intros Hbody. induction xs as [|x xs IH]; cbn [for_each].
  - apply appends_ret.
  - apply appends_bind; auto.
Qed.

Create HintDb appends.
#[local] Hint Resolve appends_ret appends_lift appends_write appends_for_each : appends.

Ltac appends_steps :=
  repeat first [ apply appends_bind; [|intros ?] | solve [auto with appends] ].

Lemma appends_write_fn (py_repr : json -> string) (func : json) :
  appends (write_fn py_repr func).
Proof. unfold write_fn. appends_steps. Qed.

Lemma appends_write_da (py_repr : json -> string) (func : json) :
  appends (write_da py_repr func).
Proof. unfold write_da. appends_steps. Qed.

Lemma appends_write_record (py_repr : json -> string) (file_data : json) :
  appends (write_record py_repr file_data).
Proof.
  unfold write_record.
  repeat first [ apply appends_bind; [|intros ?]
               | apply appends_for_each; intros ?
               | apply appends_write_fn | apply appends_write_da
               | solve [auto with appends] ].
Qed.

Lemma appends_write_target (py_repr : json -> string) (target : json) :
  appends (write_target py_repr target).
Proof.
  unfold write_target. appends_steps.
  apply appends_for_each, appends_write_record.
Qed.

Lemma appends_write_lcov (py_repr : json -> string) (data : json) :
  appends (write_lcov py_repr data).
Proof.
  unfold write_lcov. appends_steps.
  apply appends_for_each, appends_write_target.
Qed.

(** ** Missing fields *)

Lemma lacks_inv (entry : json) (k : string) :
  lacks entry k = true -> exists d, entry = JDict d /\ lookup k d = None.
Proof.
  unfold lacks. destruct entry as [| | | | | |d]; try discriminate.
  destruct (lookup k d) eqn:E; [discriminate|]. eauto.
Qed.

Lemma items_under_inv (key : string) (v x : json) :
  In x (items_under key v) ->
  exists d, v = JDict d /\ lookup key d = Some (JList (items_under key v)).
Proof.
  unfold items_under. destruct v as [| | | | | |d]; try easy.
  destruct (lookup key d) as [[| | | | |items|]|] eqn:E; try easy.
  intros _. exists d. now split.
Qed.

(** *** An entry that lacks a field stops the conversion *)

Lemma fails_raise {A} (e : exception) : fails (@lift A (Raise e)).
Proof. intros out. unfold lift. eauto. Qed.

Lemma fails_bind_left {A B} (m : io A) (k : A -> io B) :
  fails m -> fails (bind m k).
Proof.
  intros Hm out. unfold bind. destruct (Hm out) as (out' & e & ->). eauto.
Qed.

Lemma fails_bind_right {A B} (m : io A) (k : A -> io B) :
  (forall a, fails (k a)) -> fails (bind m k).
Proof.
  intros Hk out. unfold bind. destruct (m out) as [out' [a|e]]; [apply Hk | eauto].
Qed.

Lemma fails_after_return {A B} (a : A) (k : A -> io B) :
  fails (k a) -> fails (bind (lift (Return a)) k).
Proof. intros Hk out. rewrite bind_lift_return. apply Hk. Qed.

Lemma fails_for_each (xs : list json) (body : json -> io unit) (x : json) :
  In x xs -> fails (body x) -> fails (for_each xs body).
Proof.
  intros Hin Hx. induction xs as [|y xs IH]; [easy|].
  cbn [for_each]. destruct Hin as [-> | Hin].
  - now apply fails_bind_left.
  - apply fails_bind_right. intros _. now apply IH.
Qed.

(** Goes down a chain of [bind]s to the subscript that raises. *)
Ltac find_missing_key :=
  first
    [ solve [ apply fails_bind_left; unfold getitem;
              match goal with
              | H : lookup _ _ = None |- _ => rewrite H
              end;
              apply fails_raise ]
    | apply fails_bind_right; intro; find_missing_key ].

Lemma write_fn_fails (py_repr : json -> string) (func : json) (k : string) :
  In k function_required -> lacks func k = true -> fails (write_fn py_repr func).
Proof.
  intros Hk Hlacks. apply lacks_inv in Hlacks as (d & -> & Hnone).
  unfold write_fn. destruct Hk as [<- | [<- | [<- | []]]]; find_missing_key.
Qed.

Lemma write_record_fails (py_repr : json -> string) (file_data : json) (k : string) :
  file_misses file_data k -> fails (write_record py_repr file_data).
Proof.
  intros [[Hk Hlacks] | (Hk & func & Hfunc & Hlacks)].
  - apply lacks_inv in Hlacks as (d & -> & Hnone).
    unfold write_record. destruct Hk as [<- | [<- | [<- | []]]]; find_missing_key.
  - destruct (items_under_inv _ _ _ Hfunc) as (d & -> & Hitems).
    assert (Hget : functions_of (JDict d)
                   = Return (JList (items_under "functions" (JDict d))))
      by (unfold functions_of, get; now rewrite Hitems).
    unfold write_record. rewrite !Hget.
    do 3 (apply fails_bind_right; intro).
    apply fails_after_return. cbn [iter]. apply fails_after_return.
    apply fails_bind_left.
    apply (fails_for_each _ _ func Hfunc). now apply (write_fn_fails py_repr func k).
Qed.

Lemma write_target_fails (py_repr : json -> string) (target file_data : json)
      (k : string) :
  In file_data (items_under "files" target) ->
  file_misses file_data k ->
  fails (write_target py_repr target).
Proof.
  intros Hin Hmiss. destruct (items_under_inv _ _ _ Hin) as (d & -> & Hitems).
  unfold write_target, get. rewrite Hitems.
  apply fails_after_return. cbn [iter]. apply fails_after_return.
  apply (fails_for_each _ _ file_data Hin). now apply (write_record_fails py_repr _ k).
Qed.

Lemma file_entries_inv (data entry : json) :
  In entry (file_entries data) ->
  exists target, In target (items_under "targets" data)
                 /\ In entry (items_under "files" target).
Proof. unfold file_entries. intros H. now apply in_flat_map in H. Qed.

Lemma absent_field_misses (data : json) (k : string) :
  absent_field data k ->
  exists target file_data,
    In target (items_under "targets" data)
    /\ In file_data (items_under "files" target)
    /\ file_misses file_data k.
Proof.
  intros [(Hk & entry & Hentry & Hlacks) | (Hk & entry & Hentry & Hlacks)].
  - apply file_entries_inv in Hentry as (target & Ht & Hf).
    exists target, entry. repeat split; auto. left. auto.
  - unfold function_entries in Hentry.
    apply in_flat_map in Hentry as (file_data & Hfile & Hfunc).
    apply file_entries_inv in Hfile as (target & Ht & Hf).
    exists target, file_data. repeat split; auto. right. eauto.
Qed.

Lemma write_lcov_fails (py_repr : json -> string) (data : json) (k : string) :
  absent_field data k -> fails (write_lcov py_repr data).
Proof.
  intros H. apply absent_field_misses in H as (target & file_data & Ht & Hf & Hmiss).
  destruct (items_under_inv _ _ _ Ht) as (d & -> & Hitems).
  unfold write_lcov, get. rewrite Hitems.
  apply fails_after_return. cbn [iter]. apply fails_after_return.
  apply (fails_for_each _ _ target Ht).
  now apply (write_target_fails py_repr target file_data k).
Qed.

(** *** Nothing but a missing key stops the conversion of a document of
    the right shape *)

Lemma misses_write (P : string -> Prop) (s : string) :
  encodable s = true -> returns_or_misses P (write s).
Proof. intros Hs out. unfold write. rewrite Hs. eauto. Qed.

Lemma misses_bind (P : string -> Prop) (m : io unit) (k : unit -> io unit) :
  returns_or_misses P m -> returns_or_misses P (k tt) ->
  returns_or_misses P (bind m k).
Proof.
  intros Hm Hk out. unfold bind.
  destruct (Hm out) as (out1 & [-> | (key & Hkey & ->)]); [apply Hk | eauto].
Qed.

Lemma misses_after_return {A} (P : string -> Prop) (a : A) (k : A -> io unit) :
  returns_or_misses P (k a) -> returns_or_misses P (bind (lift (Return a)) k).
Proof. intros Hk out. rewrite bind_lift_return. apply Hk. Qed.

Lemma misses_key {A} (P : string -> Prop) (key : string) (k : A -> io unit) :
  P key -> returns_or_misses P (bind (lift (Raise (KeyError key))) k).
Proof. intros Hkey out. exists out. right. exists key. now split. Qed.

Lemma misses_for_each (P : string -> Prop) (xs : list json) (body : json -> io unit) :
  (forall x, In x xs -> returns_or_misses P (body x)) ->
  returns_or_misses P (for_each xs body).
Proof.
  induction xs as [|x xs IH]; intros H; cbn [for_each].
  - intros out. exists out. now left.
  - apply misses_bind; [apply H; now left|]. apply IH. intros y Hy. apply H. now right.
Qed.

Lemma misses_weaken (P Q : string -> Prop) (m : io unit) :
  (forall k, P k -> Q k) -> returns_or_misses P m -> returns_or_misses Q m.
Proof.
  intros HPQ Hm out. destruct (Hm out) as (out' & [-> | (k & Hk & ->)]); eauto 6.
Qed.

Lemma sequence_shape_items (shape : json -> bool) (key : string)
      (d : list (string * json)) :
  sequence_shape shape (lookup key d) = true ->
  get (JDict d) key (JList []) = Return (JList (items_under key (JDict d)))
  /\ forallb shape (items_under key (JDict d)) = true.
Proof.
  unfold sequence_shape, get, items_under.
  destruct (lookup key d) as [[]|]; intros H; try discriminate; auto.
Qed.

(** Takes a field of an entry: absent, the key is reported; present, the
    shape says what the value is. *)
Ltac take_field d key H :=
  unfold getitem;
  let v := fresh "v" in
  let E := fresh "E" in
  destruct (lookup key d) as [v|] eqn:E;
  [ cbn [absent_or] in H; apply misses_after_return
  | apply misses_key ].

Lemma write_fn_misses (py_repr : json -> string) (func : json) :
  function_shape py_repr func = true ->
  returns_or_misses (fun k => In k function_required /\ lacks func k = true)
                    (write_fn py_repr func).
Proof.
  destruct func as [| | | | | |d]; try discriminate.
  unfold function_shape. intros H.
  apply andb_true_iff in H as [H Hc]. apply andb_true_iff in H as [Hn Hl].
  unfold write_fn, lacks, function_required.
  take_field d "name" Hn; [|rewrite E; cbn [In]; auto].
  take_field d "lineNumber" Hl; [|rewrite E0; cbn [In]; auto].
  take_field d "executionCount" Hc; [|rewrite E1; cbn [In]; auto].
  apply andb_true_iff in Hc as [_ Hc].
  apply misses_bind; apply misses_write; encodable_pieces.
Qed.

Lemma write_da_misses (py_repr : json -> string) (func : json) :
  function_shape py_repr func = true ->
  returns_or_misses (fun k => In k function_required /\ lacks func k = true)
                    (write_da py_repr func).
Proof.
  destruct func as [| | | | | |d]; try discriminate.
  unfold function_shape. intros H.
  apply andb_true_iff in H as [H Hc]. apply andb_true_iff in H as [Hn Hl].
  unfold write_da, lacks, function_required.
  take_field d "lineNumber" Hl; [|rewrite E; cbn [In]; auto].
  take_field d "executionCount" Hc; [|rewrite E0; cbn [In]; auto].
  apply andb_true_iff in Hc as [_ Hc].
  apply misses_write; encodable_pieces.
Qed.

Lemma sum_covered_misses (py_repr : json -> string) (items : list json) :
  forallb (function_shape py_repr) items = true ->
  forall total,
    (exists n, sum_covered total items = Return n)
    \/ (exists func, In func items /\ lacks func "executionCount" = true
                     /\ sum_covered total items = Raise (KeyError "executionCount")).
Proof.
  induction items as [|x items IH]; cbn [forallb]; intros H total.
  - left. cbn. eauto.
  - apply andb_true_iff in H as [Hx Hitems].
    destruct x as [| | | | | |d]; try discriminate.
    unfold function_shape in Hx.
    apply andb_true_iff in Hx as [_ Hc].
    cbn [sum_covered getitem].
    destruct (lookup "executionCount" d) as [v|] eqn:E.
    + cbn [absent_or] in Hc. apply andb_true_iff in Hc as [Hnum _].
      assert (Hgt : exists b, gt_zero v = Return b)
        by (destruct v; try discriminate; cbn; eauto).
      destruct Hgt as [b ->].
      destruct (IH Hitems (if b then (total + 1)%Z else total))
        as [[n Hn] | (func & Hin & Hl & Hr)]; destruct b;
        try (left; eauto; fail);
        right; exists func; repeat split; auto; now right.
    + right. exists (JDict d). repeat split; [now left | cbn; now rewrite E].
Qed.

Lemma write_record_misses (py_repr : json -> string) (file_data : json) :
  file_shape py_repr file_data = true ->
  returns_or_misses (file_misses file_data) (write_record py_repr file_data).
Proof.
  destruct file_data as [| | | | | |d]; try discriminate.
  unfold file_shape. intros H.
  apply andb_true_iff in H as [H Hf]. apply andb_true_iff in H as [H Hc].
  apply andb_true_iff in H as [Hp He].
  apply sequence_shape_items in Hf as [Hget Hshapes].
  set (items := items_under "functions" (JDict d)) in *.
  assert (Hfile : forall k, In k file_required -> lookup k d = None ->
                            file_misses (JDict d) k).
  { intros k Hk Hnone. left. split; [assumption|]. cbn. now rewrite Hnone. }
  assert (Hfunc : forall k, (exists func, In func items /\ In k function_required
                                           /\ lacks func k = true) ->
                            file_misses (JDict d) k).
  { intros k (func & Hin & Hk & Hl). right. split; [assumption|]. eauto. }
  unfold write_record, functions_of. rewrite !Hget.
  take_field d "path" Hp; [|apply Hfile; cbn; auto].
  apply misses_bind; [apply misses_write; reflexivity|].
  apply misses_bind; [apply misses_write; encodable_pieces|].
  apply misses_after_return. cbn [iter]. apply misses_after_return.
  apply misses_bind.
  { apply misses_for_each. intros x Hx.
    eapply misses_weaken; [|apply write_fn_misses].
    - intros k [Hk Hl]. apply Hfunc. eauto.
    - rewrite forallb_forall in Hshapes. now apply Hshapes. }
  apply misses_after_return. cbn [len]. apply misses_after_return.
  apply misses_after_return. cbn [iter]. apply misses_after_return.
  destruct (sum_covered_misses py_repr items Hshapes 0%Z)
    as [[n ->] | (func & Hin & Hl & ->)].
  2:{ apply misses_key. apply Hfunc. exists func. cbn. auto 7. }
  apply misses_after_return.
  apply misses_bind; [apply misses_write; encodable_pieces|].
  apply misses_bind; [apply misses_write; encodable_pieces|].
  apply misses_after_return. cbn [iter]. apply misses_after_return.
  apply misses_bind.
  { apply misses_for_each. intros x Hx.
    eapply misses_weaken; [|apply write_da_misses].
    - intros k [Hk Hl]. apply Hfunc. eauto.
    - rewrite forallb_forall in Hshapes. now apply Hshapes. }
  take_field d "executableLines" He; [|apply Hfile; cbn; auto].
  apply misses_bind; [apply misses_write; encodable_pieces|].
  take_field d "coveredLines" Hc; [|apply Hfile; cbn; auto].
  apply misses_bind; [apply misses_write; encodable_pieces|].
  apply misses_write. reflexivity.
Qed.

Lemma write_target_misses (py_repr : json -> string) (target : json) :
  target_shape py_repr target = true ->
  returns_or_misses
    (fun k => exists file_data, In file_data (items_under "files" target)
                                /\ file_misses file_data k)
    (write_target py_repr target).
Proof.
  destruct target as [| | | | | |d]; try discriminate.
  unfold target_shape. intros Hf.
  apply sequence_shape_items in Hf as [Hget Hshapes].
  unfold write_target. rewrite Hget.
  apply misses_after_return. cbn [iter]. apply misses_after_return.
  apply misses_for_each. intros x Hx.
  eapply misses_weaken; [|apply write_record_misses].
  - intros k Hk. eauto.
  - rewrite forallb_forall in Hshapes. now apply Hshapes.
Qed.

Lemma absent_field_of_file (data target file_data : json) (k : string) :
  In target (items_under "targets" data) ->
  In file_data (items_under "files" target) ->
  file_misses file_data k ->
  absent_field data k.
Proof.
  intros Ht Hf Hmiss.
  assert (Hentry : In file_data (file_entries data))
    by (apply in_flat_map; eauto).
  destruct Hmiss as [[Hk Hlacks] | (Hk & func & Hfunc & Hlacks)].
  - left. eauto.
  - right. split; [assumption|]. exists func. split; [|assumption].
    apply in_flat_map. eauto.
Qed.

Lemma write_lcov_misses (py_repr : json -> string) (data : json) :
  report_shape py_repr data = true ->
  returns_or_misses (absent_field data) (write_lcov py_repr data).
Proof.
  destruct data as [| | | | | |d]; try discriminate.
  unfold report_shape. intros Ht.
  apply sequence_shape_items in Ht as [Hget Hshapes].
  unfold write_lcov. rewrite Hget.
  apply misses_after_return. cbn [iter]. apply misses_after_return.
  apply misses_for_each. intros x Hx.
  eapply misses_weaken; [|apply write_target_misses].
  - intros k (file_data & Hfile & Hmiss).
    now apply (absent_field_of_file _ x file_data).
  - rewrite forallb_forall in Hshapes. now apply Hshapes.
Qed.

(** * The claims *)

(** C1.  The scenario of section 8.  When the input file holds the
    scenario's document (a text that [json.load] decodes to the value
    [scenario_data]) and the output path can be opened, the conversion
    returns and the output file holds exactly the thirteen lines [TN:],
    [SF:A.swift], [FN:3,f()], [FNDA:2,f()], [FN:8,g()], [FNDA:0,g()],
    [FNF:2], [FNH:1], [DA:3,2], [DA:8,0], [LF:10], [LH:7], [end_of_record],
    each ended by a line feed, in that order and nothing else, whatever the
    file held before. *)
Theorem scenario_output
        (py_repr : json -> string) (json_load : string -> option json)
        (json_path lcov_path : string) (fs : filesystem) (text : string) :
  contents fs json_path = Some text ->
  json_load text = Some scenario_data ->
  writable fs lcov_path = true ->
  let run := convert_xccov_to_lcov py_repr json_load json_path lcov_path fs in
  snd run = Return tt
  /\ contents (fst run) lcov_path = Some scenario_bytes
  /\ write_lcov py_repr scenario_data "" = (scenario_bytes, Return tt)
  /\ scenario_bytes = unlines scenario_lines
  /\ length scenario_lines = 13.
Proof.
  intros Hread Hload Hopen run. unfold run.
  rewrite (convert_unfold _ _ _ _ _ _ _ Hread Hload Hopen).
  cbn [fst snd]. rewrite contents_store_same.
  repeat split.
Qed.

(** C2, amended.  For a report that follows the schema and whose paths and
    function names hold no line feed and nothing the output stream cannot
    encode, the conversion succeeds, the number of
    [end_of_record] lines of the output is the sum over the targets of their
    numbers of files, the [SF:] lines are those of the files walked target by
    target and file by file, and the lines of the output are the records of
    these files one after the other in that order. *)
Theorem records_follow_input_order
        (py_repr : json -> string) (data : json) (report : CoverageReport) :
  as_report data = Some report ->
  plain_report report = true ->
  printable_report report = true ->
  result (write_lcov py_repr data) = Return tt
  /\ occurrences "end_of_record" (emitted (write_lcov py_repr data))
     = list_sum (map (fun t => length (files t)) report)
  /\ tagged "SF:" (emitted (write_lcov py_repr data))
     = map sf_line (flat_map files report)
  /\ lines (emitted (write_lcov py_repr data))
     = flat_map record_lines (flat_map files report).
Proof.
  intros Hdata Hplain Hprint.
  destruct (emitted_report py_repr data report Hdata Hprint) as [-> ->].
  unfold occurrences, tagged. rewrite (lines_of_report report Hplain).
  unfold report_lines. rewrite !filter_flat_map.
  repeat split.
  - rewrite (flat_map_singleton (fun _ => "end_of_record")) by apply markers_of_record.
    rewrite length_map. apply length_all_files.
  - now rewrite (flat_map_singleton sf_line) by apply sf_lines_of_record.
Qed.

(** C3, amended.  For a file that follows the schema and whose path and
    function names hold no line feed and nothing the output stream cannot
    encode, the [FN:] lines of the record are the
    function entries of the functions in input order, the [FNDA:] lines are
    their hit counts in the same order; so there are as many of each as
    functions, and the j-th of each carries the name of the j-th function. *)
Theorem function_entries_follow_input_order
        (py_repr : json -> string) (file_data : json) (f : FileCoverage) :
  as_file file_data = Some f ->
  plain_file f = true ->
  printable_file f = true ->
  tagged "FN:" (emitted (write_record py_repr file_data))
  = map (fun fn => "FN:" ++ str_of_int (lineNumber fn) ++ "," ++ name fn) (functions f)
  /\ tagged "FNDA:" (emitted (write_record py_repr file_data))
     = map (fun fn => "FNDA:" ++ str_of_int (executionCount fn) ++ "," ++ name fn)
           (functions f)
  /\ length (tagged "FN:" (emitted (write_record py_repr file_data)))
     = length (functions f)
  /\ length (tagged "FNDA:" (emitted (write_record py_repr file_data)))
     = length (functions f).
Proof.
  intros Hfile Hplain Hprint.
  destruct (emitted_record py_repr file_data f Hfile Hprint) as [-> _].
  unfold tagged. rewrite (lines_of_record f Hplain).
  rewrite fn_lines_of_record, fnda_lines_of_record, !length_map.
  repeat split.
Qed.

(** C4.  For a file that follows the schema, the lines that the conversion
    of the file sends to the stream are, in order and up to the first line
    that the stream cannot encode: the header and the function entries, then
    [FNF:] with the number of entries of the function list, then [FNH:] with
    the number of entries whose [executionCount] is greater than 0, then the
    line entries and the line summary.  So a function summary that is
    written holds these two counts, and it is written, with the whole
    record, when the stream can encode the path and the function names.  An
    entry with [executionCount] 0 counts for [FNF] and not for [FNH]. *)
Theorem function_summary_counts
        (py_repr : json -> string) (file_data : json) (f : FileCoverage) :
  as_file file_data = Some f ->
  let found := Z.of_nat (length (functions f)) in
  let hits :=
    Z.of_nat (length (filter (fun fn => (0 <? executionCount fn)%Z) (functions f))) in
  emitted (write_record py_repr file_data)
  = unlines (written
      (["TN:"; sf_line f]
       ++ flat_map (fun fn => [fn_line fn; fnda_line fn]) (functions f)
       ++ [("FNF:" ++ str_of_int found)%string; ("FNH:" ++ str_of_int hits)%string]
       ++ map da_line (functions f)
       ++ [lf_line f; lh_line f; "end_of_record"])%list)
  /\ (printable_file f = true ->
      emitted (write_record py_repr file_data)
      = unlines (["TN:"; sf_line f]
                 ++ flat_map (fun fn => [fn_line fn; fnda_line fn]) (functions f))
        ++ "FNF:" ++ str_of_int found ++ nl
        ++ "FNH:" ++ str_of_int hits ++ nl
        ++ unlines (map da_line (functions f)
                    ++ [lf_line f; lh_line f; "end_of_record"])).
Proof.
  intros Hfile found hits. split.
  - unfold emitted. rewrite (write_record_lines py_repr file_data f "" Hfile).
    rewrite write_lines_written. reflexivity.
  - intros Hprint.
    destruct (emitted_record py_repr file_data f Hfile Hprint) as [-> _].
    unfold record_text, record_lines. rewrite !unlines_app.
    unfold fnf_line, fnh_line. fold hit. fold found hits. now string_norm.
Qed.

(** C5, amended.  For a file that follows the schema and whose path and
    function names the output stream can encode, whatever its functions and
    their execution counts and whether or not [coveredLines] exceeds
    [executableLines], the conversion of the file succeeds and the record
    ends with [LF:] and the file's [executableLines], [LH:] and the file's
    [coveredLines], and the end marker. *)
Theorem line_summary_verbatim
        (py_repr : json -> string) (file_data : json) (f : FileCoverage) :
  as_file file_data = Some f ->
  printable_file f = true ->
  result (write_record py_repr file_data) = Return tt
  /\ emitted (write_record py_repr file_data)
     = unlines (["TN:"; sf_line f]
                ++ flat_map (fun fn => [fn_line fn; fnda_line fn]) (functions f)
                ++ [fnf_line f; fnh_line f]
                ++ map da_line (functions f))
       ++ "LF:" ++ str_of_int (executableLines f) ++ nl
       ++ "LH:" ++ str_of_int (coveredLines f) ++ nl
       ++ "end_of_record" ++ nl.
Proof.
  intros Hfile Hprint.
  destruct (emitted_record py_repr file_data f Hfile Hprint) as [-> ->].
  split; [reflexivity|].
  unfold record_text, record_lines. rewrite !unlines_app.
  unfold lf_line, lh_line. now string_norm.
Qed.

(** C6, amended.  For a file that follows the schema and whose path and
    function names hold no line feed and nothing the output stream cannot
    encode, the [DA:] lines of the record are, in
    input order, one per function with its [lineNumber] and its
    [executionCount]; other keys of the file do not enter. *)
Theorem line_entries_from_functions
        (py_repr : json -> string) (file_data : json) (f : FileCoverage) :
  as_file file_data = Some f ->
  plain_file f = true ->
  printable_file f = true ->
  tagged "DA:" (emitted (write_record py_repr file_data))
  = map (fun fn => "DA:" ++ str_of_int (lineNumber fn) ++ ","
                   ++ str_of_int (executionCount fn)) (functions f)
  /\ length (tagged "DA:" (emitted (write_record py_repr file_data)))
     = length (functions f).
Proof.
  intros Hfile Hplain Hprint.
  destruct (emitted_record py_repr file_data f Hfile Hprint) as [-> _].
  unfold tagged. rewrite (lines_of_record f Hplain).
  rewrite da_lines_of_record, length_map. split; reflexivity.
Qed.

(** C7, amended.  For a file that follows the schema, has no functions and
    whose path holds no line feed and nothing the output stream cannot
    encode, the record is exactly the seven lines
    [TN:], [SF:] with the path, [FNF:0], [FNH:0], [LF:] and [LH:] with the
    totals, and [end_of_record]; none of them is an [FN:], [FNDA:] or [DA:]
    line. *)
Theorem record_without_functions
        (py_repr : json -> string) (file_data : json) (f : FileCoverage) :
  as_file file_data = Some f ->
  functions f = [] ->
  one_line (path f) = true ->
  encodable (path f) = true ->
  lines (emitted (write_record py_repr file_data))
  = ["TN:"; "SF:" ++ path f; "FNF:0"; "FNH:0";
     "LF:" ++ str_of_int (executableLines f);
     "LH:" ++ str_of_int (coveredLines f); "end_of_record"]
  /\ tagged "FN:" (emitted (write_record py_repr file_data)) = []
  /\ tagged "FNDA:" (emitted (write_record py_repr file_data)) = []
  /\ tagged "DA:" (emitted (write_record py_repr file_data)) = [].
Proof.
  intros Hfile Hnone Hpath Hcode.
  assert (Hplain : plain_file f = true)
    by (unfold plain_file; now rewrite Hpath, Hnone).
  assert (Hprint : printable_file f = true)
    by (unfold printable_file; now rewrite Hcode, Hnone).
  destruct (emitted_record py_repr file_data f Hfile Hprint) as [-> _].
  unfold tagged. rewrite (lines_of_record f Hplain).
  rewrite fn_lines_of_record, fnda_lines_of_record, da_lines_of_record.
  unfold record_lines, fnf_line, fnh_line. rewrite Hnone.
  repeat split.
Qed.

(** C8.  The bytes written are a function of the input alone.  Two runs
    that find the same text in the input file (and the same answer from
    [open] for the output path) end the same way and, when the output is
    opened at all, leave the same bytes in it, whatever else the file system
    held and whatever the output file held before; and the block under
    [with] appends the same bytes and ends the same way whatever the stream
    already holds. *)
Theorem conversion_deterministic
        (py_repr : json -> string) (json_load : string -> option json)
        (json_path lcov_path : string) (fs fs' : filesystem) :
  contents fs json_path = contents fs' json_path ->
  writable fs lcov_path = writable fs' lcov_path ->
  let run := convert_xccov_to_lcov py_repr json_load json_path lcov_path in
  snd (run fs) = snd (run fs')
  /\ (fst (run fs) = fs /\ fst (run fs') = fs'
      \/ exists bytes,
           fst (run fs) = store (store fs lcov_path "") lcov_path bytes
           /\ fst (run fs') = store (store fs' lcov_path "") lcov_path bytes
           /\ contents (fst (run fs)) lcov_path = Some bytes
           /\ contents (fst (run fs')) lcov_path = Some bytes)
  /\ (forall data out,
        write_lcov py_repr data out
        = (out ++ emitted (write_lcov py_repr data), result (write_lcov py_repr data))).
Proof.
  intros Hread Hopen run. unfold run, convert_xccov_to_lcov.
  rewrite <- Hread, <- Hopen.
  split; [|split; [|intros data out; apply appends_write_lcov]].
  - destruct (contents fs json_path) as [text|]; [|reflexivity].
    destruct (json_load text) as [data|]; [|reflexivity].
    destruct (writable fs lcov_path); [|reflexivity].
    now destruct (write_lcov py_repr data "").
  - destruct (contents fs json_path) as [text|]; [|now left].
    destruct (json_load text) as [data|]; [|now left].
    destruct (writable fs lcov_path); [|now left].
    right. destruct (write_lcov py_repr data "") as [bytes r]. exists bytes.
    cbn [fst]. rewrite !contents_store_same. repeat split.
Qed.

(** C9, amended.  For every document in which some file entry lacks
    [path], [executableLines] or [coveredLines], or some function entry
    lacks [name], [lineNumber] or [executionCount], the conversion raises:
    it does not return, so no entry is skipped and no default stands in for
    the field.  When moreover nothing else can stop the conversion (the
    document and the entries are objects, [targets], [files] and
    [functions] are lists where present, the execution counts present are
    numbers, and the stream can encode the values written), what is raised is
    [KeyError] with the name of a required field that an entry of the
    document lacks. *)
Theorem missing_field_raises_key_error (py_repr : json -> string) (data : json) :
  (exists k, absent_field data k) ->
  (exists out e, write_lcov py_repr data "" = (out, Raise e))
  /\ (report_shape py_repr data = true ->
      exists out k,
        write_lcov py_repr data "" = (out, Raise (KeyError k))
        /\ absent_field data k).
Proof.
  intros [k0 Habsent].
  destruct (write_lcov_fails py_repr data k0 Habsent "") as (out & e & Hfails).
  split; [eauto|]. intros Hshape.
  destruct (write_lcov_misses py_repr data Hshape "")
    as (out' & [Hret | (k & Hk & Hraise)]).
  - rewrite Hfails in Hret. discriminate.
  - eauto.
Qed.

(** C10.  The input is opened, read and decoded before the output is
    opened: when the input file cannot be read, or its text is not JSON, the
    conversion raises and the file system is the one it started from, so the
    output file was not created, truncated or written. *)
Theorem input_failure_leaves_output_untouched
        (py_repr : json -> string) (json_load : string -> option json)
        (json_path lcov_path : string) (fs : filesystem) :
  contents fs json_path = None
  \/ (exists text, contents fs json_path = Some text /\ json_load text = None) ->
  exists e,
    convert_xccov_to_lcov py_repr json_load json_path lcov_path fs = (fs, Raise e)
    /\ (e = OSError \/ e = JSONDecodeError).
Proof.
  intros [Hread | (text & Hread & Hload)]; unfold convert_xccov_to_lcov; rewrite Hread.
  - exists OSError. auto.
  - rewrite Hload. exists JSONDecodeError. auto.
Qed.

(** * The claims on concrete inputs *)

Example scenario_reads : as_report scenario_data = Some scenario_report.
Proof. reflexivity. Qed.

Example scenario_lines_read : lines scenario_bytes = scenario_lines.
Proof. reflexivity. Qed.

(** The scenario through the files: the output file, which held other
    bytes, holds the thirteen lines afterwards and the input is as it was. *)
Example scenario_on_disk :
  let (fs, r) := convert_xccov_to_lcov opaque_repr scenario_load
                   "coverage.json" "coverage.lcov" disk_with_old_output in
  r = Return tt
  /\ contents fs "coverage.lcov" = Some scenario_bytes
  /\ contents fs "coverage.json" = Some scenario_text.
Proof. vm_compute. repeat split. Qed.

(** A missing [coveredLines] in the second file: the first record and the
    second up to its [LF:] line are written, then [KeyError] is raised. *)
Example missing_total_partial_output :
  write_lcov opaque_repr missing_total_data ""
  = (scenario_bytes
     ++ unlines ["TN:"; "SF:B.swift"; "FNF:0"; "FNH:0"; "LF:5"],
     Raise (KeyError "coveredLines")).
Proof. vm_compute. reflexivity. Qed.

(** C1, witness: the scenario's document on a disk whose output file
    holds other bytes. *)
Lemma scenario_output_witness :
  let run := convert_xccov_to_lcov opaque_repr scenario_load
               "coverage.json" "coverage.lcov" disk_with_old_output in
  snd run = Return tt
  /\ contents (fst run) "coverage.lcov" = Some scenario_bytes
  /\ write_lcov opaque_repr scenario_data "" = (scenario_bytes, Return tt)
  /\ scenario_bytes = unlines scenario_lines
  /\ length scenario_lines = 13.
Proof.
  apply (scenario_output opaque_repr scenario_load "coverage.json" "coverage.lcov"
           disk_with_old_output scenario_text);
    reflexivity.
Defined.

(** C2, witness: three files in two targets. *)
Lemma records_follow_input_order_witness :
  as_report two_targets_data = Some two_targets_report
  /\ plain_report two_targets_report = true
  /\ printable_report two_targets_report = true
  /\ result (write_lcov opaque_repr two_targets_data) = Return tt
  /\ occurrences "end_of_record" (emitted (write_lcov opaque_repr two_targets_data))
     = list_sum (map (fun t => length (files t)) two_targets_report)
  /\ tagged "SF:" (emitted (write_lcov opaque_repr two_targets_data))
     = map sf_line (flat_map files two_targets_report)
  /\ lines (emitted (write_lcov opaque_repr two_targets_data))
     = flat_map record_lines (flat_map files two_targets_report).
Proof.
  split; [reflexivity | split; [reflexivity | split; [reflexivity|]]].
  apply (records_follow_input_order opaque_repr two_targets_data two_targets_report);
    reflexivity.
Defined.

(** C2, as stated, fails: one file whose path goes on, after a line feed,
    with the text of the marker gives two [end_of_record] lines. *)
Lemma marker_count_counterexample :
  ~ (forall (py_repr : json -> string) (data : json) (report : CoverageReport),
       as_report data = Some report ->
       occurrences "end_of_record" (emitted (write_lcov py_repr data))
       = list_sum (map (fun t => length (files t)) report)).
Proof.
  intros H.
  specialize (H opaque_repr marker_in_path_data _ eq_refl).
  vm_compute in H. discriminate H.
Qed.

(** A path that the stream cannot encode, without any line feed: the
    conversion raises at the [SF:] line, and the output holds [TN:] and no
    marker, for one file. *)
Example unencodable_path_stops_the_record :
  as_report surrogate_path_data <> None
  /\ write_lcov opaque_repr surrogate_path_data ""
     = (unlines ["TN:"], Raise UnicodeEncodeError)
  /\ write_record opaque_repr surrogate_path ""
     = (unlines ["TN:"], Raise UnicodeEncodeError)
  /\ write_record opaque_repr surrogate_path_bare ""
     = (unlines ["TN:"], Raise UnicodeEncodeError).
Proof. vm_compute. repeat split. discriminate. Qed.

(** C3, witness: the file of the scenario. *)
Lemma function_entries_follow_input_order_witness :
  as_file scenario_file_data = Some scenario_file
  /\ plain_file scenario_file = true
  /\ printable_file scenario_file = true
  /\ tagged "FN:" (emitted (write_record opaque_repr scenario_file_data))
     = ["FN:3,f()"; "FN:8,g()"]
  /\ tagged "FNDA:" (emitted (write_record opaque_repr scenario_file_data))
     = ["FNDA:2,f()"; "FNDA:0,g()"]
  /\ length (tagged "FN:" (emitted (write_record opaque_repr scenario_file_data))) = 2
  /\ length (tagged "FNDA:" (emitted (write_record opaque_repr scenario_file_data))) = 2.
Proof.
  split; [reflexivity | split; [reflexivity | split; [reflexivity|]]].
  apply (function_entries_follow_input_order opaque_repr scenario_file_data scenario_file);
    reflexivity.
Defined.

(** C3, as stated, fails: one function whose name goes on, after a line
    feed, with the text of a function entry gives a record with more [FN:]
    lines than functions. *)
Lemma function_entry_count_counterexample :
  ~ (forall (py_repr : json -> string) (file_data : json) (f : FileCoverage),
       as_file file_data = Some f ->
       length (tagged "FN:" (emitted (write_record py_repr file_data)))
       = length (functions f)).
Proof.
  intros H.
  specialize (H opaque_repr entry_in_name _ eq_refl).
  vm_compute in H. discriminate H.
Qed.

(** C4, witness: the file of the scenario, two functions of which one is
    hit. *)
Lemma function_summary_counts_witness :
  as_file scenario_file_data = Some scenario_file
  /\ emitted (write_record opaque_repr scenario_file_data)
     = unlines (written
         ["TN:"; "SF:A.swift"; "FN:3,f()"; "FNDA:2,f()"; "FN:8,g()"; "FNDA:0,g()";
          "FNF:" ++ "2"; "FNH:" ++ "1";
          "DA:3,2"; "DA:8,0"; "LF:10"; "LH:7"; "end_of_record"])
  /\ (printable_file scenario_file = true ->
      emitted (write_record opaque_repr scenario_file_data)
      = unlines ["TN:"; "SF:A.swift"; "FN:3,f()"; "FNDA:2,f()"; "FN:8,g()"; "FNDA:0,g()"]
        ++ "FNF:" ++ "2" ++ nl
        ++ "FNH:" ++ "1" ++ nl
        ++ unlines ["DA:3,2"; "DA:8,0"; "LF:10"; "LH:7"; "end_of_record"]).
Proof.
  split; [reflexivity|].
  apply (function_summary_counts opaque_repr scenario_file_data scenario_file).
  reflexivity.
Defined.

(** The same on a file whose path the stream cannot encode: the one line
    [TN:] is written and no function summary. *)
Example function_summary_not_reached :
  emitted (write_record opaque_repr surrogate_path) = unlines ["TN:"]
  /\ printable_file
       {| path := "A" ++ lone_surrogate ++ ".swift";
          executableLines := 1; coveredLines := 1;
          functions := [{| name := "f()"; lineNumber := 3; executionCount := 2 |}] |}
     = false.
Proof. vm_compute. split; reflexivity. Qed.

(** C5, witness: a file with more covered lines than executable ones. *)
Lemma line_summary_verbatim_witness :
  as_file bare_file_data = Some bare_file
  /\ printable_file bare_file = true
  /\ (executableLines bare_file < coveredLines bare_file)%Z
  /\ result (write_record opaque_repr bare_file_data) = Return tt
  /\ emitted (write_record opaque_repr bare_file_data)
     = unlines ["TN:"; "SF:Empty.swift"; "FNF:0"; "FNH:0"]
       ++ "LF:" ++ "4" ++ nl ++ "LH:" ++ "9" ++ nl ++ "end_of_record" ++ nl.
Proof.
  split; [reflexivity | split; [reflexivity | split; [reflexivity|]]].
  apply (line_summary_verbatim opaque_repr bare_file_data bare_file);
    reflexivity.
Defined.

(** C5, as stated, fails: a file that follows the schema, with more covered
    lines than executable ones, whose path holds a surrogate without its
    partner does not convert: the stream raises at the [SF:] line, and no
    [LF:] or [LH:] line is written. *)
Lemma line_summary_counterexample :
  ~ (forall (py_repr : json -> string) (file_data : json) (f : FileCoverage),
       as_file file_data = Some f ->
       result (write_record py_repr file_data) = Return tt
       /\ emitted (write_record py_repr file_data)
          = unlines (["TN:"; sf_line f]
                     ++ flat_map (fun fn => [fn_line fn; fnda_line fn]) (functions f)
                     ++ [fnf_line f; fnh_line f]
                     ++ map da_line (functions f))
            ++ "LF:" ++ str_of_int (executableLines f) ++ nl
            ++ "LH:" ++ str_of_int (coveredLines f) ++ nl
            ++ "end_of_record" ++ nl).
Proof.
  intros H.
  destruct (H opaque_repr surrogate_path_bare _ eq_refl) as [Hret _].
  vm_compute in Hret. discriminate Hret.
Qed.

(** C6, witness: the file of the scenario. *)
Lemma line_entries_from_functions_witness :
  as_file scenario_file_data = Some scenario_file
  /\ plain_file scenario_file = true
  /\ printable_file scenario_file = true
  /\ tagged "DA:" (emitted (write_record opaque_repr scenario_file_data))
     = ["DA:3,2"; "DA:8,0"]
  /\ length (tagged "DA:" (emitted (write_record opaque_repr scenario_file_data))) = 2.
Proof.
  split; [reflexivity | split; [reflexivity | split; [reflexivity|]]].
  apply (line_entries_from_functions opaque_repr scenario_file_data scenario_file);
    reflexivity.
Defined.

(** C6, as stated, fails: a file without functions whose path goes on, after
    a line feed, with the text of a line entry gives a record with a [DA:]
    line that no function produced. *)
Lemma line_entry_count_counterexample :
  ~ (forall (py_repr : json -> string) (file_data : json) (f : FileCoverage),
       as_file file_data = Some f ->
       length (tagged "DA:" (emitted (write_record py_repr file_data)))
       = length (functions f)).
Proof.
  intros H.
  specialize (H opaque_repr entry_in_path _ eq_refl).
  vm_compute in H. discriminate H.
Qed.

(** C7, witness: a file without a [functions] key. *)
Lemma record_without_functions_witness :
  as_file bare_file_data = Some bare_file
  /\ functions bare_file = []
  /\ one_line (path bare_file) = true
  /\ encodable (path bare_file) = true
  /\ lines (emitted (write_record opaque_repr bare_file_data))
     = ["TN:"; "SF:Empty.swift"; "FNF:0"; "FNH:0"; "LF:4"; "LH:9"; "end_of_record"]
  /\ tagged "FN:" (emitted (write_record opaque_repr bare_file_data)) = []
  /\ tagged "FNDA:" (emitted (write_record opaque_repr bare_file_data)) = []
  /\ tagged "DA:" (emitted (write_record opaque_repr bare_file_data)) = [].
Proof.
  split; [reflexivity | split; [reflexivity | split; [reflexivity | split; [reflexivity|]]]].
  apply (record_without_functions opaque_repr bare_file_data bare_file);
    reflexivity.
Defined.

(** C7, as stated, fails: the record of a file with an empty function list
    holds a [DA:] line when the path brings one after a line feed. *)
Lemma empty_record_counterexample :
  ~ (forall (py_repr : json -> string) (file_data : json) (f : FileCoverage),
       as_file file_data = Some f ->
       functions f = [] ->
       tagged "DA:" (emitted (write_record py_repr file_data)) = []).
Proof.
  intros H.
  specialize (H opaque_repr entry_in_path _ eq_refl eq_refl).
  vm_compute in H. discriminate H.
Qed.

(** C8, witness: the scenario's document on a disk where the output file
    exists with other bytes and on one where it does not exist. *)
Lemma conversion_deterministic_witness :
  let run := convert_xccov_to_lcov opaque_repr scenario_load
               "coverage.json" "coverage.lcov" in
  snd (run disk_with_old_output) = snd (run disk_without_output)
  /\ (fst (run disk_with_old_output) = disk_with_old_output
      /\ fst (run disk_without_output) = disk_without_output
      \/ exists bytes,
           fst (run disk_with_old_output)
           = store (store disk_with_old_output "coverage.lcov" "") "coverage.lcov" bytes
           /\ fst (run disk_without_output)
              = store (store disk_without_output "coverage.lcov" "") "coverage.lcov" bytes
           /\ contents (fst (run disk_with_old_output)) "coverage.lcov" = Some bytes
           /\ contents (fst (run disk_without_output)) "coverage.lcov" = Some bytes)
  /\ (forall data out,
        write_lcov opaque_repr data out
        = (out ++ emitted (write_lcov opaque_repr data),
           result (write_lcov opaque_repr data))).
Proof.
  apply (conversion_deterministic opaque_repr scenario_load
           "coverage.json" "coverage.lcov" disk_with_old_output disk_without_output);
    reflexivity.
Defined.

Lemma missing_covered_lines : absent_field numeric_path_data "coveredLines".
Proof.
  left. split.
  - simpl. auto.
  - eexists. split; [left; reflexivity | reflexivity].
Qed.

(** C9, witness: a file entry without [coveredLines] whose path is a
    number. *)
Lemma missing_field_raises_key_error_witness :
  (exists out e, write_lcov opaque_repr numeric_path_data "" = (out, Raise e))
  /\ (report_shape opaque_repr numeric_path_data = true ->
      exists out k,
        write_lcov opaque_repr numeric_path_data "" = (out, Raise (KeyError k))
        /\ absent_field numeric_path_data k).
Proof.
  apply (missing_field_raises_key_error opaque_repr numeric_path_data).
  exists "coveredLines". exact missing_covered_lines.
Defined.

Example numeric_path_raises_key_error :
  report_shape opaque_repr numeric_path_data = true
  /\ write_lcov opaque_repr numeric_path_data ""
     = (unlines ["TN:"; "SF:5"; "FNF:0"; "FNH:0"; "LF:1"],
        Raise (KeyError "coveredLines")).
Proof. vm_compute. split; reflexivity. Qed.

(** C9, as stated, fails: a file entry without its line totals whose
    [functions] is [null] makes the conversion raise [TypeError], which
    names no field. *)
Lemma missing_field_counterexample :
  ~ (forall (py_repr : json -> string) (data : json),
       (exists k, absent_field data k) ->
       exists out k, write_lcov py_repr data "" = (out, Raise (KeyError k))).
Proof.
  intros H.
  destruct (H opaque_repr null_functions_data) as (out & k & Hrun).
  - exists "executableLines". left. split.
    + simpl. auto.
    + eexists. split; [left; reflexivity | reflexivity].
  - vm_compute in Hrun. discriminate Hrun.
Qed.

(** The same with a path that the stream cannot encode: the entry lacks
    [coveredLines], and the conversion raises [UnicodeEncodeError] at the
    [SF:] line, before the field is looked up. *)
Example unencodable_path_hides_the_missing_field :
  lacks (JDict [("path", JStr ("A" ++ lone_surrogate ++ ".swift"));
                ("executableLines", JInt 1)]) "coveredLines" = true
  /\ write_lcov opaque_repr surrogate_path_missing_total ""
     = (unlines ["TN:"], Raise UnicodeEncodeError).
Proof. vm_compute. split; reflexivity. Qed.

Example null_functions_raises_type_error :
  write_lcov opaque_repr null_functions_data ""
  = (unlines ["TN:"; "SF:A.swift"], Raise TypeError).
Proof. vm_compute. reflexivity. Qed.

(** C10, witness: an input file that is not JSON, an output file that
    exists. *)
Lemma input_failure_leaves_output_untouched_witness :
  contents disk_with_garbage "coverage.json" = Some "not json"
  /\ scenario_load "not json" = None
  /\ exists e,
       convert_xccov_to_lcov opaque_repr scenario_load
         "coverage.json" "coverage.lcov" disk_with_garbage
       = (disk_with_garbage, Raise e)
       /\ (e = OSError \/ e = JSONDecodeError).
Proof.
  split; [reflexivity | split; [reflexivity|]].
  apply (input_failure_leaves_output_untouched opaque_repr scenario_load).
  right. exists "not json". split; reflexivity.
Defined.

(** * Further properties of the converter *)

(** ** What a run does to the files *)

(** A run leaves the names as they are and every file but the one behind
    the output path. *)
Lemma convert_frame (py_repr : json -> string) (json_load : string -> option json)
      (json_path lcov_path : string) (fs : filesystem) :
  let fs' := fst (convert_xccov_to_lcov py_repr json_load json_path lcov_path fs) in
  node fs' = node fs
  /\ writable fs' = writable fs
  /\ forall p, node fs p <> node fs lcov_path -> contents fs' p = contents fs p.
Proof.
  unfold convert_xccov_to_lcov.
  destruct (contents fs json_path) as [text|]; [|now repeat split].
  destruct (json_load text) as [data|]; [|now repeat split].
  destruct (writable fs lcov_path); [|now repeat split].
  destruct (write_lcov py_repr data "") as [out r].
  cbn [fst]. repeat split. intros p Hp.
  rewrite contents_store_other; [|exact Hp].
  now rewrite contents_store_other.
Qed.


(** X2.  When the two paths name two files, a second run on what the first
    run left ends as the first did and leaves every file as the first run
    left it. *)
Theorem second_run_changes_nothing
        (py_repr : json -> string) (json_load : string -> option json)
        (json_path lcov_path : string) (fs : filesystem) :
  node fs json_path <> node fs lcov_path ->
  let run := convert_xccov_to_lcov py_repr json_load json_path lcov_path in
  snd (run (fst (run fs))) = snd (run fs)
  /\ forall p, contents (fst (run (fst (run fs)))) p = contents (fst (run fs)) p.
Proof.
  intros Hp run. unfold run, convert_xccov_to_lcov.
  destruct (contents fs json_path) as [text|] eqn:Hread;
    [|cbn [fst]; rewrite Hread; now split].
  destruct (json_load text) as [doc|] eqn:Hload;
    [|cbn [fst]; rewrite Hread, Hload; now split].
  destruct (writable fs lcov_path) eqn:Hopen;
    [|cbn [fst]; rewrite Hread, Hload, Hopen; now split].
  destruct (write_lcov py_repr doc "") as [out r] eqn:Hrun.
  cbn [fst snd].
  rewrite !contents_store_other by exact Hp.
  rewrite Hread, Hload. cbn [store writable]. rewrite Hopen, Hrun. cbn [fst snd].
  split; [reflexivity|]. intros p.
  unfold contents, store. cbn [node data].
  now destruct (Nat.eqb (node fs p) (node fs lcov_path)).
Qed.

(** X3.  A document that is not an object (a list, a string, a number,
    [null]) makes the conversion raise [AttributeError] at its first step;
    by then the output file has been created or truncated, so it is left
    empty. *)
Theorem non_object_document_empties_the_output
        (py_repr : json -> string) (json_load : string -> option json)
        (json_path lcov_path : string) (fs : filesystem) (text : string) (data : json) :
  contents fs json_path = Some text ->
  json_load text = Some data ->
  writable fs lcov_path = true ->
  (forall d, data <> JDict d) ->
  let run := convert_xccov_to_lcov py_repr json_load json_path lcov_path fs in
  snd run = Raise AttributeError
  /\ contents (fst run) lcov_path = Some "".
Proof.
  intros Hread Hload Hopen Hdata run. unfold run.
  rewrite (convert_unfold _ _ _ _ _ _ _ Hread Hload Hopen).
  cbn [fst snd]. rewrite contents_store_same.
  destruct data; try (now split). now destruct (Hdata entries).
Qed.

(** ** What a failure leaves in the output *)

Lemma output_of_app (body : json -> io unit) (xs ys : list json) :
  output_of body (xs ++ ys) = output_of body xs ++ output_of body ys.
Proof.
  induction xs as [|x xs IH]; cbn [app output_of fold_right append].
  - reflexivity.
  - fold (output_of body (xs ++ ys)). fold (output_of body xs).
    now rewrite IH, append_assoc.
Qed.

(** A loop whose body returns at every item writes what the body writes
    for each, in order. *)
Lemma for_each_returns (body : json -> io unit) (xs : list json) :
  (forall x, appends (body x)) ->
  Forall (fun x => result (body x) = Return tt) xs ->
  forall out, for_each xs body out = (out ++ output_of body xs, Return tt).
Proof.
  intros Happ Hxs. induction Hxs as [|x xs Hx _ IH]; intros out.
  - cbn [for_each output_of fold_right]. unfold ret. now rewrite append_empty_r.
  - cbn [for_each output_of fold_right]. fold (output_of body xs).
    unfold bind. rewrite (Happ x out), Hx, IH. now rewrite append_assoc.
Qed.

(** A loop that returns has a body that returned at every item. *)
Lemma for_each_returned (body : json -> io unit) (xs : list json) :
  (forall x, appends (body x)) ->
  result (for_each xs body) = Return tt ->
  Forall (fun x => result (body x) = Return tt) xs.
Proof.
  intros Happ. unfold result at 1. generalize "" as out.
  induction xs as [|x xs IH]; intros out H; [constructor|].
  cbn [for_each] in H. unfold bind in H. rewrite (Happ x out) in H.
  destruct (result (body x)) as [[]|e] eqn:Hx; [|discriminate].
  constructor; [exact Hx | now apply (IH _ H)].
Qed.

(** A loop whose body raises at one item, after items at which it returns:
    what these wrote, then what the failing body wrote; the items after it
    are not visited. *)
Lemma for_each_stops (body : json -> io unit) (xs ys : list json) (x : json)
      (partial : string) (e : exception) :
  (forall x, appends (body x)) ->
  Forall (fun x => result (body x) = Return tt) xs ->
  body x "" = (partial, Raise e) ->
  forall out,
    for_each (xs ++ x :: ys) body out
    = (out ++ output_of body xs ++ partial, Raise e).
Proof.
  intros Happ Hxs Hx. induction Hxs as [|y xs Hy _ IH]; intros out.
  - cbn [app for_each output_of fold_right append]. unfold bind.
    rewrite (Happ x out). unfold emitted, result. now rewrite Hx.
  - cbn [app for_each output_of fold_right]. fold (output_of body xs).
    unfold bind. rewrite (Happ y out), Hy, IH. now rewrite !append_assoc.
Qed.

(** A target that converts wrote the records of the items of its [files]
    list, and nothing else. *)
Lemma write_target_returned (py_repr : json -> string) (target : json) :
  result (write_target py_repr target) = Return tt ->
  emitted (write_target py_repr target)
  = output_of (write_record py_repr) (items_under "files" target).
Proof.
  assert (Hrecord : forall x, appends (write_record py_repr x))
    by (intros x; apply appends_write_record).
  assert (Hloop : forall items,
             result (for_each items (write_record py_repr)) = Return tt ->
             emitted (for_each items (write_record py_repr))
             = output_of (write_record py_repr) items).
  { intros items H. apply (for_each_returned _ _ Hrecord) in H.
    unfold emitted. now rewrite (for_each_returns _ _ Hrecord H ""). }
  destruct target as [| | | | | |dt]; try discriminate.
  unfold result, emitted, write_target, bind, lift, get, items_under.
  destruct (lookup "files" dt) as [v|]; [|reflexivity].
  destruct v as [| | | |s|items|entries]; try discriminate; cbn [iter].
  - unfold chars. destruct (characters s) as [|c rest]; [reflexivity|discriminate].
  - apply Hloop.
  - destruct entries as [|[k v] rest]; [reflexivity|discriminate].
Qed.

(** X4.  The conversion stops at the first file it cannot convert: when the
    targets before the file's target and the files before it in its target
    all convert, the output is what these files wrote, in order (for each
    target the items of its [files] list, then the files before the failing
    one), followed by what was written for the failing file; nothing is
    written for the files and targets after it, and the error is the one
    that file raised. *)
Theorem conversion_stops_at_the_first_failure
        (py_repr : json -> string)
        (d dt : list (string * json))
        (targets_before targets_after files_before files_after : list json)
        (failing : json) (partial : string) (e : exception) :
  lookup "targets" d = Some (JList (targets_before ++ JDict dt :: targets_after)) ->
  Forall (fun t => result (write_target py_repr t) = Return tt) targets_before ->
  lookup "files" dt = Some (JList (files_before ++ failing :: files_after)) ->
  Forall (fun x => result (write_record py_repr x) = Return tt) files_before ->
  write_record py_repr failing "" = (partial, Raise e) ->
  write_lcov py_repr (JDict d) ""
  = (output_of (write_record py_repr)
       (flat_map (items_under "files") targets_before ++ files_before)
     ++ partial,
     Raise e).
Proof.
  intros Htargets Hts Hfiles Hfs Hfail.
  assert (Hrecord : forall x, appends (write_record py_repr x))
    by (intros x; apply appends_write_record).
  assert (Htarget : forall x, appends (write_target py_repr x))
    by (intros x; apply appends_write_target).
  assert (Hfailing : write_target py_repr (JDict dt) ""
                     = (output_of (write_record py_repr) files_before ++ partial,
                        Raise e)).
  { unfold write_target, bind, lift, get. rewrite Hfiles. cbn [iter].
    now rewrite (for_each_stops _ files_before files_after failing partial e
                   Hrecord Hfs Hfail ""). }
  unfold write_lcov, bind, lift, get. rewrite Htargets. cbn [iter].
  rewrite (for_each_stops _ targets_before targets_after (JDict dt) _ e
             Htarget Hts Hfailing "").
  cbn [append]. f_equal. rewrite output_of_app, append_assoc. f_equal.
  clear - Hts. induction Hts as [|t ts Ht _ IH]; [reflexivity|].
  cbn [flat_map]. rewrite output_of_app, <- IH.
  cbn [output_of fold_right].
  now rewrite (write_target_returned py_repr t Ht).
Qed.

(** ** The function summary on any input *)

Lemma sum_covered_bounds (items : list json) (total n : Z) :
  sum_covered total items = Return n ->
  (total <= n <= total + Z.of_nat (length items))%Z.
Proof.
  revert total. induction items as [|x items IH]; intros total H.
  - injection H as <-. simpl. lia.
  - cbn [sum_covered] in H.
    destruct (getitem x "executionCount") as [v|]; [|discriminate].
    destruct (gt_zero v) as [[|]|]; [| |discriminate];
      apply IH in H; cbn [length]; lia.
Qed.

Lemma len_iter (v : json) (items : list json) (total : Z) :
  iter v = Return items -> len v = Return total ->
  total = Z.of_nat (length items).
Proof.
  destruct v; try discriminate; cbn [iter len]; intros Hi Hl;
    injection Hi as <-; injection Hl as <-.
  - unfold chars. now rewrite length_map.
  - reflexivity.
  - now rewrite length_map.
Qed.

(** X5.  Whatever the values of the function list are (integers, booleans,
    floats), whenever the two counts of the function summary are computed,
    the number of hit functions lies between 0 and the number of functions
    found. *)
Theorem hit_count_within_found
        (fns : json) (items : list json) (found hits : Z) :
  iter fns = Return items ->
  len fns = Return found ->
  sum_covered 0 items = Return hits ->
  (0 <= hits <= found)%Z.
Proof.
  intros Hiter Hlen Hsum.
  rewrite (len_iter fns items found Hiter Hlen).
  apply sum_covered_bounds in Hsum. lia.
Qed.

(** ** What the output keeps of the report *)

(** X6.  The grouping of the files into targets leaves no trace: two
    documents that follow the schema and list the same files in the same
    order, grouped into targets in any way, are converted to the same
    bytes. *)
Theorem grouping_into_targets_is_flattened
        (py_repr : json -> string) (data data' : json)
        (report report' : CoverageReport) :
  as_report data = Some report ->
  as_report data' = Some report' ->
  flat_map files report = flat_map files report' ->
  write_lcov py_repr data "" = write_lcov py_repr data' "".
Proof.
  intros H H' Hsame.
  rewrite (write_lcov_lines py_repr data report "" H).
  rewrite (write_lcov_lines py_repr data' report' "" H').
  unfold report_lines, all_files. now rewrite Hsame.
Qed.

Lemma length_record_lines (f : FileCoverage) :
  length (record_lines f) = 7 + 3 * length (functions f).
Proof.
  unfold record_lines. rewrite !length_app, length_map. cbn [length].
  assert (H : length (flat_map (fun fn => [fn_line fn; fnda_line fn]) (functions f))
              = 2 * length (functions f)).
  { induction (functions f) as [|fn fns IH]; cbn [flat_map length app]; lia. }
  rewrite H. lia.
Qed.

Lemma record_lines_recognised (f : FileCoverage) :
  forallb recognised (record_lines f) = true.
Proof.
  unfold record_lines. rewrite !forallb_app.
  assert (Hfn : forallb recognised
                  (flat_map (fun fn => [fn_line fn; fnda_line fn]) (functions f)) = true).
  { induction (functions f) as [|fn fns IH]; [reflexivity|].
    cbn [flat_map app forallb]. now rewrite IH. }
  assert (Hda : forallb recognised (map da_line (functions f)) = true).
  { induction (functions f) as [|fn fns IH]; [reflexivity|].
    cbn [map forallb]. now rewrite IH. }
  rewrite Hfn, Hda. reflexivity.
Qed.

(** X7.  For a report that follows the schema and whose paths and function
    names hold no line feed and nothing the output stream cannot encode, the
    output has seven lines per file and three
    more per function, and every line either begins with one of the nine
    tags [TN:], [SF:], [FN:], [FNDA:], [FNF:], [FNH:], [DA:], [LF:], [LH:]
    or is [end_of_record]. *)
Theorem output_line_structure
        (py_repr : json -> string) (data : json) (report : CoverageReport) :
  as_report data = Some report ->
  plain_report report = true ->
  printable_report report = true ->
  length (lines (emitted (write_lcov py_repr data)))
  = list_sum (map (fun f => 7 + 3 * length (functions f)) (flat_map files report))
  /\ forallb recognised (lines (emitted (write_lcov py_repr data))) = true.
Proof.
  intros Hdata Hplain Hprint.
  destruct (emitted_report py_repr data report Hdata Hprint) as [-> _].
  rewrite (lines_of_report report Hplain).
  unfold report_lines, all_files. clear.
  induction (flat_map files report) as [|f fs IH]; [now split|].
  cbn [flat_map map list_sum]. rewrite length_app, forallb_app.
  destruct IH as [-> ->].
  now rewrite length_record_lines, record_lines_recognised.
Qed.

(** X8.  For a report that follows the schema, the output is empty exactly
    when the report has no file: no targets, or targets without files. *)
Theorem empty_output_iff_no_files
        (py_repr : json -> string) (data : json) (report : CoverageReport) :
  as_report data = Some report ->
  (emitted (write_lcov py_repr data) = "" <-> flat_map files report = []).
Proof.
  intros Hdata. unfold emitted.
  rewrite (write_lcov_lines py_repr data report "" Hdata), write_lines_written.
  cbn [fst append]. unfold report_lines, all_files.
  destruct (flat_map files report) as [|f fs]; [now split|].
  split; [|discriminate]. cbn. discriminate.
Qed.

(** ** Reading the report back from the output *)

Lemma free_of_app (c : ascii) (a b : string) :
  free_of c (a ++ b) = free_of c a && free_of c b.
Proof.
  induction a as [|x a IH]; simpl; [reflexivity|].
  now rewrite IH, andb_assoc.
Qed.

Lemma comma_free_uint (d : Decimal.uint) :
  free_of "," (NilEmpty.string_of_uint d) = true.
Proof. induction d; simpl; auto. Qed.

Lemma comma_free_str_of_int (n : Z) : free_of "," (str_of_int n) = true.
Proof.
  unfold str_of_int, NilZero.string_of_int.
  destruct (Z.to_int n) as [d|d]; unfold NilZero.string_of_uint;
    destruct d; simpl; auto using comma_free_uint.
Qed.

(** Two texts cut at the first occurrence of a character agree part by
    part. *)
Lemma split_at_first (c : ascii) (a b n m : string) :
  free_of c a = true -> free_of c b = true ->
  a ++ String c n = b ++ String c m -> a = b /\ n = m.
Proof.
  revert b. induction a as [|x a IH]; intros [|y b]; cbn [free_of append];
    intros Ha Hb H.
  - injection H as ->. now split.
  - injection H as <- _. rewrite Ascii.eqb_refl in Hb. discriminate.
  - injection H as -> _. rewrite Ascii.eqb_refl in Ha. discriminate.
  - injection H as -> H.
    apply andb_true_iff in Ha as [_ Ha]. apply andb_true_iff in Hb as [_ Hb].
    destruct (IH b Ha Hb H) as [-> ->]. now split.
Qed.

Lemma str_of_int_inj (n m : Z) : str_of_int n = str_of_int m -> n = m.
Proof.
  unfold str_of_int. intros H. apply DecimalZ.to_int_inj.
  assert (Hnz : forall z, Z.to_int z <> Decimal.Pos Decimal.Nil
                          /\ Z.to_int z <> Decimal.Neg Decimal.Nil).
  { intros [|p|p]; cbn [Z.to_int]; split; try discriminate;
      intros E; injection E as E; now apply DecimalPos.Unsigned.to_uint_nonnil in E. }
  apply (f_equal NilZero.int_of_string) in H.
  destruct (Hnz n) as [Hn1 Hn2]. destruct (Hnz m) as [Hm1 Hm2].
  rewrite !NilZero.isi in H by assumption. now injection H.
Qed.

Lemma fn_line_inj (a b : FunctionCoverage) :
  fn_line a = fn_line b -> lineNumber a = lineNumber b /\ name a = name b.
Proof.
  unfold fn_line. cbn [append]. intros H. injection H as H.
  apply split_at_first in H as [Hl Hn]; auto using comma_free_str_of_int.
  split; [now apply str_of_int_inj | assumption].
Qed.

Lemma fnda_line_inj (a b : FunctionCoverage) :
  fnda_line a = fnda_line b -> executionCount a = executionCount b.
Proof.
  unfold fnda_line. cbn [append]. intros H. injection H as H.
  apply split_at_first in H as [Hc _]; auto using comma_free_str_of_int.
  now apply str_of_int_inj.
Qed.

Lemma app_same_length {A} (xs xs' ys ys' : list A) :
  length xs = length xs' -> (xs ++ ys = xs' ++ ys')%list -> xs = xs' /\ ys = ys'.
Proof.
  revert xs'. induction xs as [|x xs IH]; intros [|x' xs']; simpl;
    intros Hlen H; try discriminate.
  - now split.
  - injection H as -> H. injection Hlen as Hlen.
    destruct (IH xs' Hlen H) as [-> ->]. now split.
Qed.

Lemma cons_inj {A} (x y : A) (l l' : list A) :
  x :: l = y :: l' -> x = y /\ l = l'.
Proof. intros H. injection H as -> ->. now split. Qed.

Lemma function_entries_inj (fns fns' : list FunctionCoverage) :
  flat_map (fun fn => [fn_line fn; fnda_line fn]) fns
  = flat_map (fun fn => [fn_line fn; fnda_line fn]) fns' ->
  fns = fns'.
Proof.
  revert fns'. induction fns as [|a fns IH]; intros [|b fns']; cbn [flat_map app];
    intros H; try discriminate; [reflexivity|].
  apply cons_inj in H as [Hfn H]. apply cons_inj in H as [Hfnda H].
  apply fn_line_inj in Hfn as [Hl Hn]. apply fnda_line_inj in Hfnda.
  rewrite (IH fns' H). f_equal.
  destruct a, b; cbn in *; congruence.
Qed.

Lemma record_lines_inj (f f' : FileCoverage) :
  record_lines f = record_lines f' -> f = f'.
Proof.
  intros H.
  assert (Hlen : length (functions f) = length (functions f')).
  { apply (f_equal (@length string)) in H. rewrite !length_record_lines in H. lia. }
  unfold record_lines in H. cbn [app] in H.
  apply cons_inj in H as [_ H]. apply cons_inj in H as [Hsf H].
  apply app_same_length in H as [Hfns H].
  2:{ clear - Hlen. revert Hlen. generalize (functions f') as l'.
      induction (functions f) as [|a l IH]; intros [|b l']; simpl; intros Hlen;
        try discriminate; [reflexivity|].
      injection Hlen as Hlen. now rewrite (IH l' Hlen). }
  apply function_entries_inj in Hfns.
  cbn [app] in H.
  apply cons_inj in H as [_ H]. apply cons_inj in H as [_ H].
  apply app_same_length in H as [_ H]; [|now rewrite !length_map].
  apply cons_inj in H as [Hlf H]. apply cons_inj in H as [Hlh _].
  unfold sf_line in Hsf. unfold lf_line in Hlf. unfold lh_line in Hlh.
  cbn [append] in Hsf, Hlf, Hlh.
  injection Hsf as Hsf. injection Hlf as Hlf. injection Hlh as Hlh.
  apply str_of_int_inj in Hlf, Hlh.
  destruct f, f'; cbn in *; congruence.
Qed.

(** X9.  Nothing the record is made of is lost: two files that follow the
    schema, whose paths and function names hold no line feed and nothing
    the output stream cannot encode, and whose
    records are the same bytes have the same path, the same totals and the
    same functions with the same names, line numbers and execution counts,
    in the same order. *)
Theorem record_determines_the_file
        (py_repr : json -> string) (file_data file_data' : json)
        (f f' : FileCoverage) :
  as_file file_data = Some f ->
  as_file file_data' = Some f' ->
  plain_file f = true ->
  plain_file f' = true ->
  printable_file f = true ->
  printable_file f' = true ->
  emitted (write_record py_repr file_data) = emitted (write_record py_repr file_data') ->
  f = f'.
Proof.
  intros Hf Hf' Hplain Hplain' Hprint Hprint' Hsame.
  destruct (emitted_record py_repr file_data f Hf Hprint) as [E _].
  destruct (emitted_record py_repr file_data' f' Hf' Hprint') as [E' _].
  rewrite E, E' in Hsame.
  apply (f_equal lines) in Hsame.
  rewrite (lines_of_record f Hplain), (lines_of_record f' Hplain') in Hsame.
  now apply record_lines_inj.
Qed.

(** ** The command line *)

(** X10.  The script changes no file but the one that its second argument
    names.  With a number of arguments other than two it leaves the file
    system as it found it, prints the usage line and exits with status 1;
    with two arguments every path that names another file than the second
    argument does reads as before. *)
Theorem main_changes_only_its_second_argument
        (py_repr : json -> string) (json_load : string -> option json)
        (argv : list string) (fs : filesystem) :
  let r := main py_repr json_load argv fs in
  (length argv <> 3 ->
   disk r = fs
   /\ stdout r = "Usage: python xccov_to_lcov.py <input.json> <output.lcov>" ++ nl
   /\ status (ended r) = 1%Z)
  /\ (forall script json_path lcov_path p,
        argv = [script; json_path; lcov_path] ->
        node fs p <> node fs lcov_path ->
        contents (disk r) p = contents fs p).
Proof.
  unfold main.
  destruct argv as [|a0 [|json_path [|lcov_path [|extra rest]]]];
    try (split; [intros _; repeat split | intros ? ? ? ? H; discriminate H]).
  destruct (convert_frame py_repr json_load json_path lcov_path fs) as (_ & _ & Hc).
  destruct (convert_xccov_to_lcov py_repr json_load json_path lcov_path fs)
    as [fs' [u|e]]; cbn [fst] in Hc.
  - destruct (encodable ("Converted " ++ json_path ++ " to " ++ lcov_path));
      cbn [disk]; (split; [intros H; now destruct H|]);
      intros ? ? ? p H; injection H as _ _ <-; apply Hc.
  - cbn [disk]. split; [intros H; now destruct H|].
    intros ? ? ? p H. injection H as _ _ <-. apply Hc.
Qed.

(** X11.  The exit status is 0 exactly when the script got two arguments,
    the conversion of the first into the second returned and the output
    stream can encode the message.  With two arguments [json_path] and
    [lcov_path], the script prints [Converted json_path to lcov_path] and a
    line feed when the status is 0, and prints nothing and ends with status
    1 when it is not. *)
Theorem main_status_zero_iff_converted
        (py_repr : json -> string) (json_load : string -> option json)
        (argv : list string) (fs : filesystem) :
  let r := main py_repr json_load argv fs in
  (status (ended r) = 0%Z
   <-> exists script json_path lcov_path,
         argv = [script; json_path; lcov_path]
         /\ snd (convert_xccov_to_lcov py_repr json_load json_path lcov_path fs)
            = Return tt
         /\ encodable ("Converted " ++ json_path ++ " to " ++ lcov_path) = true)
  /\ (forall script json_path lcov_path,
        argv = [script; json_path; lcov_path] ->
        (status (ended r) = 0%Z ->
         stdout r = "Converted " ++ json_path ++ " to " ++ lcov_path ++ nl)
        /\ (status (ended r) <> 0%Z ->
            stdout r = "" /\ status (ended r) = 1%Z)).
Proof.
  unfold main.
  destruct argv as [|a0 [|json_path [|lcov_path [|extra rest]]]];
    try (split; [split; [discriminate | intros H; decompose record H; discriminate]
                | intros ? ? ? H; discriminate H]).
  destruct (convert_xccov_to_lcov py_repr json_load json_path lcov_path fs)
    as [fs' [[]|e]] eqn:E.
  - destruct (encodable ("Converted " ++ json_path ++ " to " ++ lcov_path)) eqn:Hm;
      cbn [ended stdout status snd]; split.
    + split; [intros _ | reflexivity].
      exists a0, json_path, lcov_path. rewrite E. now repeat split.
    + intros ? ? ? H. injection H as _ <- <-.
      split; [intros _ | intros H; now destruct H].
      unfold println. now string_norm.
    + split; [discriminate|].
      intros (a & b & c & Hargv & _ & Hcode). injection Hargv as _ <- <-.
      rewrite Hm in Hcode. discriminate.
    + intros ? ? ? H. split; [discriminate | now split].
  - cbn [ended stdout status snd]. split.
    + split; [discriminate|].
      intros (a & b & c & Hargv & Hret & _). injection Hargv as _ <- <-.
      rewrite E in Hret. discriminate.
    + intros ? ? ? H. split; [discriminate | now split].
Qed.

(** X12.  From the command line to the bytes: with two arguments, an input
    file whose document follows the schema, paths and function names that
    the output stream can encode, an output path that opens and a message
    that the standard output can encode, the script ends with status 0
    after printing its message, and the output file holds the records of the
    report's files, targets in order and files in order, and nothing
    else. *)
Theorem main_writes_the_report
        (py_repr : json -> string) (json_load : string -> option json)
        (script json_path lcov_path : string) (fs : filesystem)
        (text : string) (data : json) (report : CoverageReport) :
  contents fs json_path = Some text ->
  json_load text = Some data ->
  as_report data = Some report ->
  printable_report report = true ->
  writable fs lcov_path = true ->
  encodable ("Converted " ++ json_path ++ " to " ++ lcov_path) = true ->
  let r := main py_repr json_load [script; json_path; lcov_path] fs in
  ended r = Finished
  /\ stdout r = "Converted " ++ json_path ++ " to " ++ lcov_path ++ nl
  /\ contents (disk r) lcov_path
     = Some (unlines (flat_map record_lines (flat_map files report))).
Proof.
  intros Hread Hload Hreport Hprint Hopen Hmessage r. unfold r, main.
  rewrite (convert_unfold _ _ _ _ _ _ _ Hread Hload Hopen).
  destruct (emitted_report py_repr data report Hreport Hprint) as [-> ->].
  rewrite Hmessage. cbn [disk stdout ended]. rewrite contents_store_same.
  repeat split. unfold println. now string_norm.
Qed.

(** * Properties of parse_swiftlint.py *)

(** ** The tally by rule *)

Lemma bump_total (py_eq : json -> json -> bool) (rule : json)
      (by_rule : list (json * Z)) :
  Swiftlint.count_total (Swiftlint.bump py_eq rule by_rule)
  = (Swiftlint.count_total by_rule + 1)%Z.
Proof.
  induction by_rule as [|[k n] rest IH]; cbn [Swiftlint.bump].
  - reflexivity.
  - destruct (Swiftlint.same_key py_eq k rule);
      cbn [Swiftlint.count_total fold_right snd] in *; [lia|].
    fold (Swiftlint.count_total (Swiftlint.bump py_eq rule rest)).
    fold (Swiftlint.count_total rest). lia.
Qed.

Lemma bump_positive (py_eq : json -> json -> bool) (rule : json)
      (by_rule : list (json * Z)) :
  Forall (fun item => (1 <= snd item)%Z) by_rule ->
  Forall (fun item => (1 <= snd item)%Z) (Swiftlint.bump py_eq rule by_rule).
Proof.
  induction by_rule as [|[k n] rest IH]; cbn [Swiftlint.bump]; intros H.
  - constructor; [cbn; lia | constructor].
  - inversion H as [|x l Hn Hrest]; subst. cbn [snd] in Hn.
    destruct (Swiftlint.same_key py_eq k rule); constructor; cbn [snd]; auto; lia.
Qed.

(** The keys of a bumped tally: those it had, then perhaps the new one. *)
Lemma bump_keys (py_eq : json -> json -> bool) (rule : json)
      (by_rule : list (json * Z)) :
  map fst (Swiftlint.bump py_eq rule by_rule) = map fst by_rule
  \/ (map fst (Swiftlint.bump py_eq rule by_rule) = (map fst by_rule ++ [rule])%list
      /\ Forall (fun k => Swiftlint.same_key py_eq k rule = false) (map fst by_rule)).
Proof.
  induction by_rule as [|[k n] rest IH]; cbn [Swiftlint.bump].
  - right. split; [reflexivity | constructor].
  - destruct (Swiftlint.same_key py_eq k rule) eqn:E; [now left|].
    cbn [map fst]. destruct IH as [-> | [-> Hrest]]; [now left|].
    right. split; [reflexivity|]. now constructor.
Qed.

Lemma distinct_keys_snoc (py_eq : json -> json -> bool) (keys : list json) (rule : json) :
  ForallOrdPairs (fun a b => Swiftlint.same_key py_eq a b = false) keys ->
  Forall (fun k => Swiftlint.same_key py_eq k rule = false) keys ->
  ForallOrdPairs (fun a b => Swiftlint.same_key py_eq a b = false) (keys ++ [rule])%list.
Proof.
  induction keys as [|k keys IH]; intros Hpairs Hnew; cbn [app].
  - constructor; constructor.
  - inversion Hpairs as [|x l Hk Hrest]; subst.
    inversion Hnew as [|x l Hkr Hnew']; subst.
    constructor; [|now apply IH].
    apply Forall_app. split; [assumption | now constructor].
Qed.

Lemma collect_one_tally (py_eq : json -> json -> bool) (v : json)
      (by_rule by_rule' : list (json * Z)) (d : Swiftlint.detail) :
  Swiftlint.collect_one py_eq v by_rule = Swiftlint.Done (by_rule', d) ->
  by_rule' = Swiftlint.bump py_eq (Swiftlint.rule d) by_rule.
Proof.
  unfold Swiftlint.collect_one. intros H.
  destruct v as [| | | | | |entries]; try discriminate.
  destruct (Swiftlint.hashable _); [|discriminate].
  destruct (Swiftlint.field entries "file" (JStr "")); try discriminate.
  now injection H as <- <-.
Qed.

Lemma collect_tally (py_eq : json -> json -> bool) (violations : list json) :
  forall (by_rule by_rule' : list (json * Z)) (details details' : list Swiftlint.detail),
    Swiftlint.collect py_eq violations by_rule details
    = Swiftlint.Done (by_rule', details') ->
    Swiftlint.count_total by_rule'
    = (Swiftlint.count_total by_rule + Z.of_nat (length violations))%Z
    /\ length details' = length details + length violations
    /\ (Forall (fun item => (1 <= snd item)%Z) by_rule ->
        Forall (fun item => (1 <= snd item)%Z) by_rule')
    /\ (ForallOrdPairs (fun a b => Swiftlint.same_key py_eq a b = false)
                       (map fst by_rule) ->
        ForallOrdPairs (fun a b => Swiftlint.same_key py_eq a b = false)
                       (map fst by_rule')).
Proof.
  induction violations as [|v rest IH]; intros by_rule by_rule' details details' H;
    cbn [Swiftlint.collect] in H.
  - injection H as <- <-. cbn [length]. repeat split; auto; lia.
  - destruct (Swiftlint.collect_one py_eq v by_rule) as [[by_rule1 d]|] eqn:E;
      [|discriminate].
    apply collect_one_tally in E. subst by_rule1.
    apply IH in H as (Htotal & Hlen & Hpos & Hkeys).
    rewrite bump_total in Htotal. rewrite length_app in Hlen. cbn [length] in *.
    repeat split; try lia.
    + intros Hp. now apply Hpos, bump_positive.
    + intros Hd. apply Hkeys.
      destruct (bump_keys py_eq (Swiftlint.rule d) by_rule) as [-> | [-> Hnew]];
        [assumption | now apply distinct_keys_snoc].
Qed.

(** X13.  When the loop over the violations ends, the tally [by_rule] has
    counted each violation once: its counts add up to the number of
    violations, each count is at least 1, no two of its keys are the same
    rule, and [violation_details] has one entry per violation. *)
Theorem tally_counts_every_violation
        (py_eq : json -> json -> bool) (violations : list json)
        (by_rule : list (json * Z)) (violation_details : list Swiftlint.detail) :
  Swiftlint.collect py_eq violations [] [] = Swiftlint.Done (by_rule, violation_details) ->
  Swiftlint.count_total by_rule = Z.of_nat (length violations)
  /\ length violation_details = length violations
  /\ Forall (fun item => (1 <= snd item)%Z) by_rule
  /\ ForallOrdPairs (fun a b => Swiftlint.same_key py_eq a b = false) (map fst by_rule).
Proof.
  intros H. apply collect_tally in H as (Htotal & Hlen & Hpos & Hkeys).
  repeat split; auto. apply Hkeys. constructor.
Qed.

(** ** The order of the summary *)





(** ** The report *)

Lemma print_text (s out : string) :
  encodable s = true -> Swiftlint.print s out = (out ++ s ++ nl, None).
Proof. intros H. unfold Swiftlint.print, println. now rewrite H. Qed.

Lemma print_rows_done (py_repr : json -> string)
      (vs : list Swiftlint.detail) (rows : list string) :
  Forall2 (fun v text => Swiftlint.row py_repr v = Swiftlint.Done text) vs rows ->
  forallb encodable rows = true ->
  forall out, Swiftlint.print_rows py_repr vs out = (out ++ unlines rows, None).
Proof.
  induction 1 as [|v text vs rows Hrow _ IH]; cbn [forallb]; intros Henc out;
    cbn [Swiftlint.print_rows].
  - cbn [unlines]. now rewrite append_empty_r.
  - apply andb_true_iff in Henc as [Htext Hrows].
    rewrite Hrow, (print_text _ _ Htext), (IH Hrows).
    cbn [unlines]. now rewrite !append_assoc.
Qed.

(** The loop over the rows ends at the first row that cannot be formatted
    or that the stream cannot encode. *)
Lemma print_rows_stops (py_repr : json -> string)
      (before after : list Swiftlint.detail) (bad : Swiftlint.detail)
      (rows : list string) (e : Swiftlint.failure) :
  Forall2 (fun v text => Swiftlint.row py_repr v = Swiftlint.Done text) before rows ->
  forallb encodable rows = true ->
  Swiftlint.row py_repr bad = Swiftlint.Failed e
  \/ (exists text, Swiftlint.row py_repr bad = Swiftlint.Done text
                   /\ encodable text = false
                   /\ e = Swiftlint.CannotEncode text) ->
  forall out,
    Swiftlint.print_rows py_repr (before ++ bad :: after) out
    = (out ++ unlines rows, Some e).
Proof.
  intros Hrows Henc Hbad. revert Henc.
  induction Hrows as [|v text vs rows Hrow _ IH]; cbn [forallb]; intros Henc out;
    cbn [app Swiftlint.print_rows].
  - cbn [unlines]. rewrite append_empty_r.
    destruct Hbad as [-> | (text & -> & Hcode & ->)]; [reflexivity|].
    unfold Swiftlint.print. now rewrite Hcode.
  - apply andb_true_iff in Henc as [Htext Henc].
    rewrite Hrow, (print_text _ _ Htext), (IH Henc).
    cbn [unlines]. now rewrite !append_assoc.
Qed.

Lemma print_rules_lines (py_repr : json -> string) (items : list (json * Z)) :
  forallb encodable (map (Swiftlint.summary_line py_repr) items) = true ->
  forall out,
    Swiftlint.print_rules py_repr items out
    = (out ++ unlines (map (Swiftlint.summary_line py_repr) items), None).
Proof.
  induction items as [|item items IH]; cbn [map forallb]; intros Henc out;
    cbn [Swiftlint.print_rules unlines].
  - now rewrite append_empty_r.
  - apply andb_true_iff in Henc as [Hitem Henc].
    rewrite (print_text _ _ Hitem), (IH Henc). now rewrite !append_assoc.
Qed.

Lemma print_summary_lines (py_repr : json -> string)
      (by_rule : list (json * Z)) (out : string) :
  forallb encodable (Swiftlint.summary_lines py_repr by_rule) = true ->
  Swiftlint.print_summary py_repr by_rule out
  = (out ++ unlines (Swiftlint.summary_lines py_repr by_rule), None).
Proof.
  unfold Swiftlint.print_summary, Swiftlint.summary_lines. intros Henc.
  change (forallb encodable (map (Swiftlint.summary_line py_repr)
                                 (Swiftlint.sorted_rules by_rule)) = true) in Henc.
  rewrite print_text by reflexivity.
  rewrite (print_rules_lines py_repr _ Henc). now string_norm.
Qed.

Lemma table_head_lines_text (out : string) :
  Swiftlint.table_head out = (out ++ unlines Swiftlint.table_head_lines, None).
Proof.
  unfold Swiftlint.table_head. rewrite !print_text by reflexivity.
  unfold Swiftlint.table_head_lines. now string_norm.
Qed.

Lemma print_details_lines (py_repr : json -> string)
      (vs : list Swiftlint.detail) (rows : list string) (out : string) :
  Forall2 (fun v text => Swiftlint.row py_repr v = Swiftlint.Done text) vs rows ->
  forallb encodable rows = true ->
  Swiftlint.print_details py_repr vs out
  = (out ++ unlines (Swiftlint.details_lines rows), None).
Proof.
  intros Hrows Henc. unfold Swiftlint.print_details, Swiftlint.details_lines.
  rewrite <- (Forall2_length Hrows).
  destruct (10 <? length vs)%nat.
  - rewrite print_text by reflexivity.
    rewrite print_text by encodable_pieces.
    rewrite table_head_lines_text, (print_rows_done py_repr vs rows Hrows Henc).
    rewrite print_text by reflexivity.
    cbn [unlines]. rewrite !unlines_app. now string_norm.
  - cbn [unlines]. now rewrite append_empty_r.
Qed.

Lemma Forall2_firstn {A B} (R : A -> B -> Prop) (n : nat) (xs : list A) (ys : list B) :
  Forall2 R xs ys -> Forall2 R (firstn n xs) (firstn n ys).
Proof.
  intros H. revert n. induction H as [|x y xs ys Hxy _ IH]; intros [|n];
    cbn [firstn]; constructor; auto.
Qed.

Lemma forallb_firstn {A} (p : A -> bool) (n : nat) (xs : list A) :
  forallb p xs = true -> forallb p (firstn n xs) = true.
Proof.
  revert n. induction xs as [|x xs IH]; intros [|n]; cbn [firstn forallb]; auto.
  intros H. apply andb_true_iff in H as [-> H]. now apply IH.
Qed.

(** X15.  A document that is a list of violations the loop takes in, all of
    whose rows can be formatted, with rows and summary lines that the output
    stream can encode, is printed as: the heading with the number of
    violations, the table of the first ten in input order, the [<details>]
    block with all of them when they are more than ten, and the summary by
    rule; nothing else is printed. *)
Theorem report_layout
        (py_repr : json -> string) (py_eq : json -> json -> bool)
        (failure_text : Swiftlint.failure -> string)
        (json_load : string -> option json)
        (fs : filesystem) (text : string) (violations : list json)
        (by_rule : list (json * Z)) (violation_details : list Swiftlint.detail)
        (rows : list string) :
  contents fs "swiftlint-before.json" = Some text ->
  json_load text = Some (JList violations) ->
  violations <> [] ->
  Swiftlint.collect py_eq violations [] [] = Swiftlint.Done (by_rule, violation_details) ->
  Forall2 (fun v row => Swiftlint.row py_repr v = Swiftlint.Done row)
          violation_details rows ->
  forallb encodable rows = true ->
  forallb encodable (Swiftlint.summary_lines py_repr by_rule) = true ->
  Swiftlint.parse_swiftlint py_repr py_eq failure_text json_load fs
  = unlines (Swiftlint.heading_lines (Z.of_nat (length violations))
             ++ firstn 10 rows
             ++ Swiftlint.details_lines rows
             ++ Swiftlint.summary_lines py_repr by_rule).
Proof.
  intros Hread Hload Hsome Hcollect Hrows Henc Hsummary.
  unfold Swiftlint.parse_swiftlint, Swiftlint.try_block.
  rewrite Hread, Hload.
  destruct violations as [|v0 rest]; [contradiction|].
  cbn [Swiftlint.falsy]. unfold Swiftlint.print_report.
  cbn [iter len]. rewrite Hcollect.
  rewrite print_text by encodable_pieces.
  rewrite table_head_lines_text.
  rewrite (print_rows_done py_repr _ _ (Forall2_firstn _ 10 _ _ Hrows)
             (forallb_firstn _ 10 _ Henc)).
  rewrite (print_details_lines py_repr _ _ _ Hrows Henc).
  rewrite (print_summary_lines py_repr _ _ Hsummary).
  rewrite !unlines_app. unfold Swiftlint.heading_lines, Swiftlint.table_head_lines.
  now string_norm.
Qed.

(** ** Failures *)

(** X16.  A row among the first ten that cannot be formatted, or that the
    output stream cannot encode, ends the report there: the heading and the
    rows before it stay printed, then come the error line and the line that
    says no violations were detected; the summary by rule is not printed. *)
Theorem unprintable_row_ends_the_report
        (py_repr : json -> string) (py_eq : json -> json -> bool)
        (failure_text : Swiftlint.failure -> string)
        (json_load : string -> option json)
        (fs : filesystem) (text : string) (violations : list json)
        (by_rule : list (json * Z))
        (before after : list Swiftlint.detail) (bad : Swiftlint.detail)
        (rows : list string) (e : Swiftlint.failure) :
  contents fs "swiftlint-before.json" = Some text ->
  json_load text = Some (JList violations) ->
  Swiftlint.collect py_eq violations [] []
  = Swiftlint.Done (by_rule, (before ++ bad :: after)%list) ->
  length before < 10 ->
  Forall2 (fun v row => Swiftlint.row py_repr v = Swiftlint.Done row) before rows ->
  forallb encodable rows = true ->
  Swiftlint.row py_repr bad = Swiftlint.Failed e
  \/ (exists shown, Swiftlint.row py_repr bad = Swiftlint.Done shown
                    /\ encodable shown = false
                    /\ e = Swiftlint.CannotEncode shown) ->
  Swiftlint.parse_swiftlint py_repr py_eq failure_text json_load fs
  = unlines (Swiftlint.heading_lines (Z.of_nat (length violations))
             ++ rows
             ++ Swiftlint.closing_lines failure_text e).
Proof.
  intros Hread Hload Hcollect Hlen Hrows Henc Hbad.
  unfold Swiftlint.parse_swiftlint, Swiftlint.try_block.
  rewrite Hread, Hload.
  destruct violations as [|v0 rest].
  { cbn [Swiftlint.collect] in Hcollect. injection Hcollect as _ Hnil.
    now destruct before. }
  cbn [Swiftlint.falsy]. unfold Swiftlint.print_report.
  cbn [iter len]. rewrite Hcollect.
  rewrite print_text by encodable_pieces.
  rewrite table_head_lines_text.
  assert (Hfirst : firstn 10 (before ++ bad :: after)%list
                   = (before ++ bad :: firstn (9 - length before) after)%list).
  { rewrite firstn_app, firstn_all2 by lia.
    replace (10 - length before) with (S (9 - length before)) by lia.
    reflexivity. }
  rewrite Hfirst, (print_rows_stops py_repr _ _ _ _ _ Hrows Henc Hbad).
  rewrite !unlines_app.
  unfold Swiftlint.heading_lines, Swiftlint.table_head_lines, Swiftlint.closing_lines.
  unfold println. now string_norm.
Qed.

Lemma collect_one_collectable (py_eq : json -> json -> bool) (v : json)
      (by_rule : list (json * Z)) :
  (Swiftlint.collectable v = true ->
   exists d, Swiftlint.collect_one py_eq v by_rule
             = Swiftlint.Done (Swiftlint.bump py_eq (Swiftlint.rule d) by_rule, d))
  /\ (Swiftlint.collectable v = false ->
      exists e, Swiftlint.collect_one py_eq v by_rule = Swiftlint.Failed e).
Proof.
  unfold Swiftlint.collectable, Swiftlint.collect_one.
  destruct v as [| | | | | |entries];
    try (split; [discriminate | eauto]).
  destruct (Swiftlint.hashable _); cbn [andb];
    [|split; [discriminate | eauto]].
  destruct (Swiftlint.field entries "file" (JStr ""));
    (split; [try discriminate | try discriminate; eauto]).
  intros _.
  exists {| Swiftlint.file := Swiftlint.replace Swiftlint.runner_prefix "" s;
            Swiftlint.line := Swiftlint.field entries "line" (JStr "?");
            Swiftlint.rule := Swiftlint.field entries "rule_id" (JStr "unknown");
            Swiftlint.severity := Swiftlint.field entries "severity" (JStr "warning");
            Swiftlint.reason := Swiftlint.field entries "reason" (JStr "No description") |}.
  reflexivity.
Qed.

Lemma collect_uncollectable (py_eq : json -> json -> bool) (violations : list json) :
  forallb Swiftlint.collectable violations = false ->
  forall by_rule details,
  exists e v by_rule',
    Swiftlint.collect py_eq violations by_rule details = Swiftlint.Failed e
    /\ In v violations
    /\ Swiftlint.collect_one py_eq v by_rule' = Swiftlint.Failed e.
Proof.
  induction violations as [|v rest IH]; cbn [forallb]; intros H by_rule details;
    [discriminate|].
  cbn [Swiftlint.collect].
  destruct (Swiftlint.collectable v) eqn:Hv; cbn [andb] in H.
  - destruct (collect_one_collectable py_eq v by_rule) as [Hdone _].
    destruct (Hdone Hv) as [d ->].
    destruct (IH H (Swiftlint.bump py_eq (Swiftlint.rule d) by_rule)
                (details ++ [d])%list) as (e & w & b & Hfail & Hin & Hone).
    exists e, w, b. repeat split; auto. now right.
  - destruct (collect_one_collectable py_eq v by_rule) as [_ Hfail].
    destruct (Hfail Hv) as [e He]. rewrite He.
    exists e, v, by_rule. repeat split; auto. now left.
Qed.

(** X17.  One violation the loop cannot take in (an item that is not an
    object, a [rule_id] that is a list or an object, a [file] that is not a
    string) hides all the others: nothing of the report is printed, only the
    error of that item and the line that says no violations were
    detected. *)
Theorem one_bad_violation_hides_the_rest
        (py_repr : json -> string) (py_eq : json -> json -> bool)
        (failure_text : Swiftlint.failure -> string)
        (json_load : string -> option json)
        (fs : filesystem) (text : string) (violations : list json) :
  contents fs "swiftlint-before.json" = Some text ->
  json_load text = Some (JList violations) ->
  forallb Swiftlint.collectable violations = false ->
  exists e v by_rule,
    In v violations
    /\ Swiftlint.collect_one py_eq v by_rule = Swiftlint.Failed e
    /\ Swiftlint.parse_swiftlint py_repr py_eq failure_text json_load fs
       = unlines (Swiftlint.closing_lines failure_text e).
Proof.
  intros Hread Hload Hbad.
  destruct (collect_uncollectable py_eq violations Hbad [] [])
    as (e & v & by_rule & Hfail & Hin & Hone).
  exists e, v, by_rule. repeat split; auto.
  unfold Swiftlint.parse_swiftlint, Swiftlint.try_block.
  rewrite Hread, Hload.
  destruct violations as [|v0 rest]; [discriminate|].
  cbn [Swiftlint.falsy]. unfold Swiftlint.print_report.
  cbn [iter]. rewrite Hfail.
  unfold Swiftlint.closing_lines, println. now string_norm.
Qed.

(** ** The path shown *)

Lemma replace_absent (old new s : string) :
  Swiftlint.occurs old s = false -> Swiftlint.replace old new s = s.
Proof.
  unfold Swiftlint.replace. induction s as [|c s IH]; [reflexivity|].
  cbn [Swiftlint.occurs]. intros H. apply orb_false_iff in H as [Hhere Hrest].
  cbn [Swiftlint.replace_from]. rewrite Hhere. now rewrite (IH Hrest).
Qed.

Lemma replace_runner_prefix (rest : string) :
  Swiftlint.replace Swiftlint.runner_prefix "" (Swiftlint.runner_prefix ++ rest)
  = Swiftlint.replace Swiftlint.runner_prefix "" rest.
Proof. reflexivity. Qed.

(** X18.  The path shown for a violation is its [file] without the
    runner's checkout directory in front: a path under that directory is
    shown relative to it, a path in which the directory does not occur is
    shown as it is. *)
Theorem shown_path_is_relative
        (py_eq : json -> json -> bool) (d : list (string * json))
        (by_rule by_rule' : list (json * Z)) (v : Swiftlint.detail)
        (s shown : string) :
  Swiftlint.collect_one py_eq (JDict d) by_rule = Swiftlint.Done (by_rule', v) ->
  lookup "file" d = Some (JStr s) ->
  Swiftlint.occurs Swiftlint.runner_prefix shown = false ->
  s = Swiftlint.runner_prefix ++ shown \/ s = shown ->
  Swiftlint.file v = shown.
Proof.
  unfold Swiftlint.collect_one, Swiftlint.field. intros H Hfile Hfree Hs.
  rewrite Hfile in H.
  destruct (Swiftlint.hashable _); [|discriminate].
  injection H as _ <-. cbn [Swiftlint.file].
  destruct Hs as [-> | ->].
  - rewrite replace_runner_prefix. now apply replace_absent.
  - now apply replace_absent.
Qed.

(** ** The columns of a row *)

Lemma concat_cons (x : string) (xs : list string) :
  String.concat "" (x :: xs) = x ++ String.concat "" xs.
Proof.
  destruct xs; cbn [String.concat append]; [now rewrite append_empty_r | reflexivity].
Qed.

Lemma concat_app (xs ys : list string) :
  String.concat "" (xs ++ ys) = String.concat "" xs ++ String.concat "" ys.
Proof.
  induction xs as [|x xs IH]; [reflexivity|].
  rewrite <- app_comm_cons, !concat_cons, IH. now rewrite append_assoc.
Qed.

Lemma characters_cons (c : ascii) (rest : string) :
  characters (String c rest)
  = match characters rest with
    | [] => [String c ""]
    | next :: more =>
        if begins_inside next then String c next :: more
        else String c "" :: next :: more
    end.
Proof. reflexivity. Qed.

(** The characters of a text, put together again, are the text. *)
Lemma concat_characters (s : string) : String.concat "" (characters s) = s.
Proof.
  induction s as [|c s IH]; [reflexivity|].
  rewrite characters_cons. destruct (characters s) as [|next more].
  - cbn [String.concat] in IH. now subst s.
  - rewrite concat_cons in IH.
    destruct (begins_inside next); rewrite !concat_cons; cbn [append];
      now rewrite IH.
Qed.

Lemma characters_head (c : ascii) (rest : string) :
  exists tail more, characters (String c rest) = String c tail :: more.
Proof.
  rewrite characters_cons. destruct (characters rest) as [|next more]; [eauto|].
  destruct (begins_inside next); eauto.
Qed.

(** Each of the characters of a text is a byte with the bytes that continue
    it, and each but the first begins at its first byte. *)
Lemma characters_pieces (s : string) :
  match characters s with
  | [] => True
  | first :: more =>
      one_character first = true /\ forallb begins_character more = true
  end.
Proof.
  induction s as [|c s IH]; [exact I|].
  rewrite characters_cons. destruct (characters s) as [|next more].
  - split; reflexivity.
  - destruct IH as [Hnext Hmore]. destruct (begins_inside next) eqn:Hinside.
    + split; [|exact Hmore]. destruct next as [|x tail]; [discriminate|].
      cbn [one_character all_continue begins_inside] in *.
      now rewrite Hinside, Hnext.
    + split; [reflexivity|]. cbn [forallb]. rewrite Hmore.
      unfold begins_character. now rewrite Hnext, Hinside.
Qed.

Lemma characters_piece (tail : string) :
  forall (c : ascii) (rest : string) (more : list string),
    all_continue tail = true ->
    characters rest = more ->
    begins_inside rest = false ->
    characters (String c (tail ++ rest)) = String c tail :: more.
Proof.
  induction tail as [|c' tail IH]; intros c rest more Htail Hrest Hinside.
  - cbn [append]. rewrite characters_cons, Hrest.
    destruct more as [|next more']; [reflexivity|].
    destruct rest as [|x rest']; [discriminate|].
    destruct (characters_head x rest') as (t & m & E).
    rewrite E in Hrest. injection Hrest as <- <-.
    cbn [begins_inside] in *. now rewrite Hinside.
  - cbn [all_continue] in Htail. apply andb_true_iff in Htail as [Hc' Htail].
    cbn [append]. rewrite characters_cons.
    rewrite (IH c' rest more Htail Hrest Hinside).
    cbn [begins_inside]. now rewrite Hc'.
Qed.

(** Characters put together are found again. *)
Lemma characters_concat (pieces : list string) :
  match pieces with
  | [] => True
  | first :: more =>
      one_character first = true /\ forallb begins_character more = true
  end ->
  characters (String.concat "" pieces) = pieces.
Proof.
  destruct pieces as [|p more]; [reflexivity|]. intros [Hp Hmore].
  revert p Hp Hmore. induction more as [|q more IH]; intros p Hp Hmore.
  - destruct p as [|c tail]; [discriminate|]. cbn [String.concat].
    rewrite <- (append_empty_r tail) at 1.
    now apply characters_piece.
  - cbn [forallb] in Hmore. apply andb_true_iff in Hmore as [Hq Hmore].
    unfold begins_character in Hq. apply andb_true_iff in Hq as [Hq Hstart].
    apply negb_true_iff in Hstart.
    rewrite concat_cons. destruct p as [|c tail]; [discriminate|].
    cbn [append]. apply characters_piece.
    + exact Hp.
    + now apply IH.
    + rewrite concat_cons. destruct q as [|x t]; [discriminate|]. exact Hstart.
Qed.

(** [s[:n]] holds the first [n] characters of [s], and [s] begins with
    it. *)
Lemma characters_take (n : nat) (s : string) :
  characters (Swiftlint.take n s) = firstn n (characters s).
Proof.
  unfold Swiftlint.take. apply characters_concat.
  pose proof (characters_pieces s) as H.
  destruct (characters s) as [|first more]; destruct n as [|n]; cbn [firstn]; auto.
  destruct H as [Hfirst Hmore]. split; [exact Hfirst|].
  now apply forallb_firstn.
Qed.

Lemma take_prefix (n : nat) (s : string) :
  s = Swiftlint.take n s ++ String.concat "" (skipn n (characters s)).
Proof.
  unfold Swiftlint.take.
  now rewrite <- concat_app, firstn_skipn, concat_characters.
Qed.

(** X19.  When the reason of a violation is a string, the last column of
    its row shows the first 80 characters of it (characters, not bytes), all
    of it when it has no more, after the path and line, the link to the rule
    and the severity. *)
Theorem row_shows_the_start_of_the_reason
        (py_repr : json -> string) (v : Swiftlint.detail) (s : string) :
  Swiftlint.reason v = JStr s ->
  exists shown rest,
    s = shown ++ rest
    /\ characters shown = firstn 80 (characters s)
    /\ Swiftlint.row py_repr v
       = Swiftlint.Done
           ("| `" ++ Swiftlint.file v ++ ":" ++ format py_repr (Swiftlint.line v)
            ++ "` | " ++ Swiftlint.rule_link py_repr (Swiftlint.rule v)
            ++ " | " ++ (if Swiftlint.is_warning (Swiftlint.severity v)
                         then "⚠️" else "🚫")
            ++ " " ++ format py_repr (Swiftlint.severity v)
            ++ " | " ++ shown ++ " |").
Proof.
  intros Hreason.
  exists (Swiftlint.take 80 s), (String.concat "" (skipn 80 (characters s))).
  split; [apply take_prefix|]. split; [apply characters_take|].
  unfold Swiftlint.row. rewrite Hreason. reflexivity.
Qed.

(** X20.  A violation that has none of the keys the script reads is
    counted under the rule [unknown] and shown with an empty path, the line
    [?], the severity [warning] and the reason [No description]. *)
Theorem violation_without_keys_gets_the_defaults
        (py_repr : json -> string) (py_eq : json -> json -> bool)
        (d : list (string * json)) (by_rule : list (json * Z)) :
  lookup "rule_id" d = None ->
  lookup "file" d = None ->
  lookup "line" d = None ->
  lookup "severity" d = None ->
  lookup "reason" d = None ->
  exists v,
    Swiftlint.collect_one py_eq (JDict d) by_rule
    = Swiftlint.Done (Swiftlint.bump py_eq (JStr "unknown") by_rule, v)
    /\ Swiftlint.row py_repr v
       = Swiftlint.Done
           ("| `:?` | [`unknown`](https://realm.github.io/SwiftLint/rule-directory.html#unknown)"
            ++ " | ⚠️ warning | No description |").
Proof.
  intros Hrule Hfile Hline Hseverity Hreason.
  unfold Swiftlint.collect_one, Swiftlint.field.
  rewrite Hrule, Hfile, Hline, Hseverity, Hreason. cbn [Swiftlint.hashable].
  eexists. split; reflexivity.
Qed.

(** * The further properties on concrete inputs *)

Example lint_text_of_null_reason :
  json_text opaque_repr (JList lint_null_reason)
  = "[{" ++ json_key "rule_id" ++ dq ++ "todo" ++ dq ++ ","
    ++ json_key "file" ++ dq ++ "B.swift" ++ dq ++ "},{"
    ++ json_key "rule_id" ++ dq ++ "todo" ++ dq ++ ","
    ++ json_key "reason" ++ "null}]".
Proof. reflexivity. Qed.


(** Two names of one file: with [coverage.json] as input and
    [./coverage.json] as output the run overwrites its input, and a second
    run finds no JSON there. *)
Example output_path_names_the_input :
  let run := convert_xccov_to_lcov opaque_repr scenario_load
               "coverage.json" "./coverage.json" in
  "coverage.json" <> "./coverage.json"
  /\ snd (run disk_with_old_output) = Return tt
  /\ contents (fst (run disk_with_old_output)) "coverage.json" = Some scenario_bytes
  /\ snd (run (fst (run disk_with_old_output))) = Raise JSONDecodeError.
Proof. vm_compute. repeat split. discriminate. Qed.

(** X2, witness: the scenario converted twice. *)
Lemma second_run_changes_nothing_witness :
  let run := convert_xccov_to_lcov opaque_repr scenario_load
               "coverage.json" "coverage.lcov" in
  snd (run (fst (run disk_with_old_output))) = snd (run disk_with_old_output)
  /\ forall p, contents (fst (run (fst (run disk_with_old_output)))) p
               = contents (fst (run disk_with_old_output)) p.
Proof.
  apply (second_run_changes_nothing opaque_repr scenario_load
           "coverage.json" "coverage.lcov" disk_with_old_output).
  vm_compute. discriminate.
Defined.

(** X3, witness: a document that is the empty list. *)
Lemma non_object_document_empties_the_output_witness :
  let run := convert_xccov_to_lcov opaque_repr list_load
               "coverage.json" "coverage.lcov" disk_with_list in
  snd run = Raise AttributeError
  /\ contents (fst run) "coverage.lcov" = Some "".
Proof.
  apply (non_object_document_empties_the_output opaque_repr list_load
           "coverage.json" "coverage.lcov" disk_with_list "[]" (JList []));
    try reflexivity.
  discriminate.
Defined.

(** X4, witness: a target with one file, then a target whose second file
    has no [coveredLines], after a file whose execution count is [true]. *)
Lemma conversion_stops_at_the_first_failure_witness :
  write_lcov opaque_repr stopping_data ""
  = (output_of (write_record opaque_repr)
       (flat_map (items_under "files") [JDict [("files", JList [scenario_file_data])]]
        ++ [boolean_count_file])
     ++ unlines ["TN:"; "SF:B.swift"; "FNF:0"; "FNH:0"; "LF:5"],
     Raise (KeyError "coveredLines")).
Proof.
  apply (conversion_stops_at_the_first_failure opaque_repr
           [("targets", JList [
               JDict [("files", JList [scenario_file_data])];
               JDict [("files", JList [boolean_count_file; missing_total_file;
                                       third_file_data])];
               JDict [("files", JList [bare_file_data])]])]
           [("files", JList [boolean_count_file; missing_total_file; third_file_data])]
           [JDict [("files", JList [scenario_file_data])]]
           [JDict [("files", JList [bare_file_data])]]
           [boolean_count_file] [third_file_data] missing_total_file);
    try reflexivity; repeat constructor.
Defined.

Example stopping_output :
  as_file boolean_count_file = None
  /\ write_lcov opaque_repr stopping_data ""
     = (scenario_bytes
        ++ unlines ["TN:"; "SF:D.swift"; "FN:1,k()"; "FNDA:True,k()"; "FNF:1"; "FNH:1";
                    "DA:1,True"; "LF:2"; "LH:1"; "end_of_record";
                    "TN:"; "SF:B.swift"; "FNF:0"; "FNH:0"; "LF:5"],
        Raise (KeyError "coveredLines")).
Proof. vm_compute. split; reflexivity. Qed.

(** X5, witness: a boolean and a float count as hit, a zero does not. *)
Lemma hit_count_within_found_witness :
  iter mixed_counts
  = Return [JDict [("executionCount", JBool true)];
            JDict [("executionCount", JFloat 0.5)];
            JDict [("executionCount", JInt 0)]]
  /\ len mixed_counts = Return 3%Z
  /\ (0 <= 2 <= 3)%Z.
Proof.
  split; [reflexivity | split; [reflexivity|]].
  apply (hit_count_within_found mixed_counts
           [JDict [("executionCount", JBool true)];
            JDict [("executionCount", JFloat 0.5)];
            JDict [("executionCount", JInt 0)]] 3 2);
    reflexivity.
Defined.

(** X6, witness: three files in two targets and in one. *)
Lemma grouping_into_targets_is_flattened_witness :
  write_lcov opaque_repr two_targets_data ""
  = write_lcov opaque_repr one_target_data "".
Proof.
  apply (grouping_into_targets_is_flattened opaque_repr
           two_targets_data one_target_data two_targets_report one_target_report);
    reflexivity.
Defined.

(** X7, witness: three files with two, no and one function. *)
Lemma output_line_structure_witness :
  length (lines (emitted (write_lcov opaque_repr two_targets_data))) = 30
  /\ forallb recognised (lines (emitted (write_lcov opaque_repr two_targets_data)))
     = true.
Proof.
  apply (output_line_structure opaque_repr two_targets_data two_targets_report);
    reflexivity.
Defined.

(** X8, witness: a document without [targets]. *)
Lemma empty_output_iff_no_files_witness :
  emitted (write_lcov opaque_repr (JDict [])) = "" <-> flat_map files [] = [].
Proof.
  apply (empty_output_iff_no_files opaque_repr (JDict []) []). reflexivity.
Defined.

(** X9, witness: the file of the scenario and the same file written with
    its keys in another order and a key more. *)
Lemma record_determines_the_file_witness :
  emitted (write_record opaque_repr scenario_file_data)
  = emitted (write_record opaque_repr scenario_file_data_reordered)
  /\ scenario_file = scenario_file.
Proof.
  split; [reflexivity|].
  apply (record_determines_the_file opaque_repr
           scenario_file_data scenario_file_data_reordered
           scenario_file scenario_file);
    reflexivity.
Defined.

(** X10, witness: a wrong number of arguments, the third naming a file
    that exists; and the scenario from the command line, which leaves its
    input as it was. *)
Lemma main_changes_only_its_second_argument_witness :
  (let r := main opaque_repr scenario_load
              ["xccov_to_lcov.py"; "coverage.json"; "out.lcov"; "coverage.lcov"]
              disk_with_old_output in
   disk r = disk_with_old_output
   /\ stdout r = "Usage: python xccov_to_lcov.py <input.json> <output.lcov>" ++ nl
   /\ status (ended r) = 1%Z)
  /\ contents (disk (main opaque_repr scenario_load
                       ["xccov_to_lcov.py"; "coverage.json"; "coverage.lcov"]
                       disk_with_old_output)) "coverage.json"
     = contents disk_with_old_output "coverage.json".
Proof.
  split.
  - destruct (main_changes_only_its_second_argument opaque_repr scenario_load
                ["xccov_to_lcov.py"; "coverage.json"; "out.lcov"; "coverage.lcov"]
                disk_with_old_output) as [Hwrong _].
    apply Hwrong. discriminate.
  - destruct (main_changes_only_its_second_argument opaque_repr scenario_load
                ["xccov_to_lcov.py"; "coverage.json"; "coverage.lcov"]
                disk_with_old_output) as [_ Hframe].
    apply (Hframe "xccov_to_lcov.py" "coverage.json" "coverage.lcov");
      [reflexivity | vm_compute; discriminate].
Defined.

(** X11, witness: the scenario from the command line. *)
Lemma main_status_zero_iff_converted_witness :
  let argv := ["xccov_to_lcov.py"; "coverage.json"; "coverage.lcov"] in
  let r := main opaque_repr scenario_load argv disk_with_old_output in
  (status (ended r) = 0%Z
   <-> exists script json_path lcov_path,
         argv = [script; json_path; lcov_path]
         /\ snd (convert_xccov_to_lcov opaque_repr scenario_load json_path lcov_path
                   disk_with_old_output)
            = Return tt
         /\ encodable ("Converted " ++ json_path ++ " to " ++ lcov_path) = true)
  /\ (forall script json_path lcov_path,
        argv = [script; json_path; lcov_path] ->
        (status (ended r) = 0%Z ->
         stdout r = "Converted " ++ json_path ++ " to " ++ lcov_path ++ nl)
        /\ (status (ended r) <> 0%Z ->
            stdout r = "" /\ status (ended r) = 1%Z)).
Proof.
  exact (main_status_zero_iff_converted opaque_repr scenario_load
           ["xccov_to_lcov.py"; "coverage.json"; "coverage.lcov"]
           disk_with_old_output).
Defined.

Example command_line_runs :
  status (ended (main opaque_repr scenario_load
                   ["xccov_to_lcov.py"; "coverage.json"; "coverage.lcov"]
                   disk_with_old_output)) = 0%Z
  /\ stdout (main opaque_repr scenario_load
               ["xccov_to_lcov.py"; "coverage.json"; "coverage.lcov"]
               disk_with_old_output)
     = "Converted coverage.json to coverage.lcov" ++ nl
  /\ ended (main opaque_repr scenario_load
              ["xccov_to_lcov.py"; "missing.json"; "coverage.lcov"]
              disk_with_old_output) = Uncaught OSError
  /\ ended (main opaque_repr scenario_load
              ["xccov_to_lcov.py"; "coverage.json"; "out" ++ lone_surrogate]
              disk_with_old_output) = Uncaught UnicodeEncodeError.
Proof. vm_compute. repeat split. Qed.

(** X12, witness: the scenario from the command line. *)
Lemma main_writes_the_report_witness :
  let r := main opaque_repr scenario_load
             ["xccov_to_lcov.py"; "coverage.json"; "coverage.lcov"]
             disk_with_old_output in
  ended r = Finished
  /\ stdout r = "Converted " ++ "coverage.json" ++ " to " ++ "coverage.lcov" ++ nl
  /\ contents (disk r) "coverage.lcov"
     = Some (unlines (flat_map record_lines (flat_map files scenario_report))).
Proof.
  apply (main_writes_the_report opaque_repr scenario_load
           "xccov_to_lcov.py" "coverage.json" "coverage.lcov"
           disk_with_old_output scenario_text scenario_data scenario_report);
    reflexivity.
Defined.

Example lint_collects :
  Swiftlint.collect opaque_eq lint_violations [] []
  = Swiftlint.Done (lint_tally, lint_details).
Proof. reflexivity. Qed.

Example lint_summary_order :
  Swiftlint.sorted_rules lint_tally = [(JStr "line_length", 2%Z); (JStr "todo", 1%Z)].
Proof. reflexivity. Qed.

(** X13, witness: three violations of two rules. *)
Lemma tally_counts_every_violation_witness :
  Swiftlint.count_total lint_tally = Z.of_nat (length lint_violations)
  /\ length lint_details = length lint_violations
  /\ Forall (fun item => (1 <= snd item)%Z) lint_tally
  /\ ForallOrdPairs (fun a b => Swiftlint.same_key opaque_eq a b = false)
                    (map fst lint_tally).
Proof.
  apply (tally_counts_every_violation opaque_eq lint_violations lint_tally lint_details).
  reflexivity.
Defined.

(** X15, witness: the report of the three violations. *)
Lemma report_layout_witness :
  Swiftlint.parse_swiftlint opaque_repr opaque_eq opaque_text lint_load
    (lint_disk (JList lint_violations))
  = unlines (Swiftlint.heading_lines 3
             ++ lint_rows
             ++ []
             ++ ["";
                 "### 📊 Rules Summary";
                 "";
                 "- [`line_length`](https://realm.github.io/SwiftLint/rule-directory.html#line_length): **2** fixes";
                 "- [`todo`](https://realm.github.io/SwiftLint/rule-directory.html#todo): **1** fix"]).
Proof.
  apply (report_layout opaque_repr opaque_eq opaque_text lint_load
           (lint_disk (JList lint_violations))
           (json_text opaque_repr (JList lint_violations))
           lint_violations lint_tally lint_details lint_rows);
    try reflexivity.
  - discriminate.
  - repeat constructor.
Defined.

(** X16, witness: the second of two violations has [null] for its
    reason. *)
Lemma unprintable_row_ends_the_report_witness :
  Swiftlint.parse_swiftlint opaque_repr opaque_eq opaque_text lint_load
    (lint_disk (JList lint_null_reason))
  = unlines (Swiftlint.heading_lines 2
             ++ ["| `B.swift:?` | [`todo`](https://realm.github.io/SwiftLint/rule-directory.html#todo) | ⚠️ warning | No description |"]
             ++ Swiftlint.closing_lines opaque_text (Swiftlint.NotSliceable JNull)).
Proof.
  apply (unprintable_row_ends_the_report opaque_repr opaque_eq opaque_text lint_load
           (lint_disk (JList lint_null_reason))
           (json_text opaque_repr (JList lint_null_reason))
           lint_null_reason [(JStr "todo", 2%Z)]
           [{| Swiftlint.file := "B.swift"; Swiftlint.line := JStr "?";
               Swiftlint.rule := JStr "todo"; Swiftlint.severity := JStr "warning";
               Swiftlint.reason := JStr "No description" |}]
           []
           {| Swiftlint.file := ""; Swiftlint.line := JStr "?";
              Swiftlint.rule := JStr "todo"; Swiftlint.severity := JStr "warning";
              Swiftlint.reason := JNull |});
    try reflexivity.
  - cbn. lia.
  - repeat constructor.
  - left. reflexivity.
Defined.

(** A row that the stream cannot encode ends the loop as well. *)
Example unencodable_row_stops_the_rows :
  exists shown,
    Swiftlint.row opaque_repr surrogate_reason = Swiftlint.Done shown
    /\ encodable shown = false
    /\ Swiftlint.print_rows opaque_repr [surrogate_reason] ""
       = ("", Some (Swiftlint.CannotEncode shown)).
Proof. eexists. split; [reflexivity|]. split; reflexivity. Qed.

(** X17, witness: a list whose second item is the number 7. *)
Lemma one_bad_violation_hides_the_rest_witness :
  exists e v by_rule,
    In v lint_not_objects
    /\ Swiftlint.collect_one opaque_eq v by_rule = Swiftlint.Failed e
    /\ Swiftlint.parse_swiftlint opaque_repr opaque_eq opaque_text lint_load
         (lint_disk (JList lint_not_objects))
       = unlines (Swiftlint.closing_lines opaque_text e).
Proof.
  apply (one_bad_violation_hides_the_rest opaque_repr opaque_eq opaque_text lint_load
           (lint_disk (JList lint_not_objects))
           (json_text opaque_repr (JList lint_not_objects))
           lint_not_objects);
    reflexivity.
Defined.

(** X18, witness: a file under the runner's checkout directory. *)
Lemma shown_path_is_relative_witness :
  Swiftlint.file
    {| Swiftlint.file := "Sources/A.swift"; Swiftlint.line := JInt 3;
       Swiftlint.rule := JStr "line_length"; Swiftlint.severity := JStr "warning";
       Swiftlint.reason := JStr "Line should be 120 characters or less" |}
  = "Sources/A.swift".
Proof.
  apply (shown_path_is_relative opaque_eq
           [("rule_id", JStr "line_length");
            ("file", JStr (Swiftlint.runner_prefix ++ "Sources/A.swift"));
            ("line", JInt 3); ("severity", JStr "warning");
            ("reason", JStr "Line should be 120 characters or less")]
           [(JStr "todo", 1%Z)] [(JStr "todo", 1%Z); (JStr "line_length", 1%Z)]
           _ (Swiftlint.runner_prefix ++ "Sources/A.swift") "Sources/A.swift");
    try reflexivity.
  left. reflexivity.
Defined.

(** X19, witness: a reason of a hundred letters of two bytes each. *)
Lemma row_shows_the_start_of_the_reason_witness :
  exists shown rest,
    long_reason = shown ++ rest
    /\ characters shown = firstn 80 (characters long_reason)
    /\ Swiftlint.row opaque_repr
         {| Swiftlint.file := "B.swift"; Swiftlint.line := JInt 9;
            Swiftlint.rule := JStr "todo"; Swiftlint.severity := JStr "error";
            Swiftlint.reason := JStr long_reason |}
       = Swiftlint.Done
           ("| `" ++ "B.swift" ++ ":" ++ "9"
            ++ "` | " ++ Swiftlint.rule_link opaque_repr (JStr "todo")
            ++ " | " ++ "🚫"
            ++ " " ++ "error"
            ++ " | " ++ shown ++ " |").
Proof.
  apply (row_shows_the_start_of_the_reason opaque_repr
           {| Swiftlint.file := "B.swift"; Swiftlint.line := JInt 9;
              Swiftlint.rule := JStr "todo"; Swiftlint.severity := JStr "error";
              Swiftlint.reason := JStr long_reason |}).
  reflexivity.
Defined.

(** Eighty of the hundred letters are shown, in 160 bytes. *)
Example long_reason_shown :
  length (characters long_reason) = 100
  /\ Swiftlint.take 80 long_reason = String.concat "" (repeat "λ" 80)
  /\ String.length (Swiftlint.take 80 long_reason) = 160.
Proof. vm_compute. repeat split. Qed.

(** X20, witness: the empty object. *)
Lemma violation_without_keys_gets_the_defaults_witness :
  exists v,
    Swiftlint.collect_one opaque_eq (JDict []) []
    = Swiftlint.Done (Swiftlint.bump opaque_eq (JStr "unknown") [], v)
    /\ Swiftlint.row opaque_repr v
       = Swiftlint.Done
           ("| `:?` | [`unknown`](https://realm.github.io/SwiftLint/rule-directory.html#unknown)"
            ++ " | ⚠️ warning | No description |").
Proof.
  apply (violation_without_keys_gets_the_defaults opaque_repr opaque_eq [] []);
    reflexivity.
Defined.
